(** * FFT_estimation: the [Estimator] class of FFT_estimation.ipynb

    A shallow embedding of the notebook's [Estimator] class (grid
    construction, characteristic-function dispatch, initial parameters,
    the FFT negative log-likelihood) and the properties of its
    specification.

    Numbers.  A Python float / numpy float64 is a [float]: a real number
    or one of the three kinds of special value (the two infinities, NaN).
    The operations [+], [-], [*], [/] on finite values are exact
    arithmetic on [R]: their rounding, their overflow and the sign of
    zero are not represented, and the statements are about what does not
    depend on them.  The special values follow IEEE 754 as numpy
    implements it.

    Exceptions.  What Python raises is represented: [/] on a zero
    divisor, the conversion of an int that is out of the range of a float,
    [**] on Python's own floats and complex numbers, a missing key, an
    index out of range, calling [None].  numpy's operations on arrays and
    on its own scalars return infinities and NaN instead.

    Library routines.  The transcendental routines of numpy and scipy
    (complex and real [exp], complex [log], powers, Bessel K, Gamma, the
    FFT) and Python's [**] are not part of the notebook; they are the
    fields of the class [NumLib] and every definition that calls them is
    parametric in it.

    Objects.  Instances of [Estimator] and numpy arrays live in a store;
    instance attributes hold array references, so that rebinding an
    attribute and writing into an array are different effects.  The
    store has room for an array of any length.

    Types.  [N] is a Python int; [eta], [dt] and the parameter values
    are Python floats (the ints among the initial parameters, [20] and
    [100], enter float operations only, as the floats of the same
    value); arrays are one-dimensional float64 arrays and a model name is
    an ASCII string.  An intermediate value is real or complex as the
    operations of Python and numpy make it ([scalar]).  The [print] of
    [estimate] is left out. *)

From Stdlib Require Import Reals Lra Lia ZArith.
From stdpp Require Import gmap strings list fin_maps.

#[global] Instance R_eq_dec : EqDecision R := Req_dec_T.
#[global] Instance Rlt_decision (x y : R) : Decision (x < y)%R := Rlt_dec x y.
#[global] Instance Rle_decision (x y : R) : Decision (x <= y)%R := Rle_dec x y.

(** ** Floats *)

Inductive float := Fin (r : R) | Inf (neg : bool) | NaN.

Abbreviation PInf := (Inf false).
Abbreviation NInf := (Inf true).

#[global] Instance float_eq_dec : EqDecision float.
Proof. solve_decision. Defined.

Definition is_neg (r : R) : bool := bool_decide (r < 0)%R.

Definition isnan (a : float) : bool :=
  match a with NaN => true | _ => false end.

Definition isfinite (a : float) : bool :=
  match a with Fin _ => true | _ => false end.

Definition of_Z (n : Z) : float := Fin (IZR n).

Definition fneg (a : float) : float :=
  match a with
  | Fin r => Fin (- r)
  | Inf s => Inf (negb s)
  | NaN => NaN
  end.

Definition fadd (a b : float) : float :=
  match a, b with
  | NaN, _ | _, NaN => NaN
  | Fin x, Fin y => Fin (x + y)
  | Fin _, Inf s | Inf s, Fin _ => Inf s
  | Inf s, Inf t => if decide (s = t) then Inf s else NaN
  end.

Definition fsub (a b : float) : float := fadd a (fneg b).

Definition fmul (a b : float) : float :=
  match a, b with
  | NaN, _ | _, NaN => NaN
  | Fin x, Fin y => Fin (x * y)
  | Fin x, Inf s | Inf s, Fin x =>
      if decide (x = 0)%R then NaN else Inf (xorb s (is_neg x))
  | Inf s, Inf t => Inf (xorb s t)
  end.

(** numpy's true division: a zero divisor gives an infinity or NaN. *)
Definition fdiv (a b : float) : float :=
  match a, b with
  | NaN, _ | _, NaN => NaN
  | Fin x, Fin y =>
      if decide (y = 0)%R
      then (if decide (x = 0)%R then NaN else Inf (is_neg x))
      else Fin (x / y)
  | Fin _, Inf _ => Fin 0
  | Inf s, Fin y => Inf (xorb s (is_neg y))
  | Inf _, Inf _ => NaN
  end.

(** IEEE comparisons: every comparison with NaN is false. *)
Definition flt (a b : float) : Prop :=
  match a, b with
  | Fin x, Fin y => (x < y)%R
  | Fin _, Inf s => s = false
  | Inf s, Fin _ => s = true
  | Inf s, Inf t => s = true /\ t = false
  | _, _ => False
  end.

Definition fle (a b : float) : Prop :=
  match a, b with
  | Fin x, Fin y => (x <= y)%R
  | Fin _, Inf s => s = false
  | Inf s, Fin _ => s = true
  | Inf s, Inf t => s = true \/ t = false
  | _, _ => False
  end.

#[global] Instance flt_dec a b : Decision (flt a b).
Proof. destruct a, b; simpl; apply _. Defined.

#[global] Instance fle_dec a b : Decision (fle a b).
Proof. destruct a, b; simpl; apply _. Defined.

(** [np.maximum]: a NaN operand is returned. *)
Definition np_maximum (a b : float) : float :=
  if isnan a then a else if isnan b then b
  else if decide (flt a b) then b else a.

(** [np.clip(a, a_min = lo, a_max = None)] on one element. *)
Definition np_clip_min (lo a : float) : float := np_maximum a lo.

(** [np.log] on a real float64. *)
Definition np_log_real (a : float) : float :=
  match a with
  | Fin r =>
      if decide (0 < r)%R then Fin (ln r)
      else if decide (r = 0)%R then NInf else NaN
  | Inf false => PInf
  | Inf true => NaN
  | NaN => NaN
  end.

(** [np.sum] of a float64 array; the empty sum is [0.0]. *)
Definition np_sum (l : list float) : float := foldr fadd (Fin 0) l.

Definition np_pi : float := Fin PI.

(** ** Complex numbers: a pair of floats, arithmetic as numpy does it *)

Record complex := Cx { re : float; im : float }.

#[global] Instance complex_eq_dec : EqDecision complex.
Proof. solve_decision. Defined.

Definition RtoC (a : float) : complex := Cx a (Fin 0).
Definition Ci : complex := Cx (Fin 0) (Fin 1).

Definition cneg (z : complex) : complex := Cx (fneg (re z)) (fneg (im z)).
Definition cadd (z w : complex) : complex :=
  Cx (fadd (re z) (re w)) (fadd (im z) (im w)).
Definition csub (z w : complex) : complex :=
  Cx (fsub (re z) (re w)) (fsub (im z) (im w)).
Definition cmul (z w : complex) : complex :=
  Cx (fsub (fmul (re z) (re w)) (fmul (im z) (im w)))
     (fadd (fmul (re z) (im w)) (fmul (im z) (re w))).

(** ** Exceptions and results *)

Inductive exn :=
| ZeroDivisionError
| OverflowError
| IndexError
| KeyError (k : string)
| TypeError
| ValueError
| AttributeError (a : string).

Inductive result (A : Type) := Ok (a : A) | Raise (e : exn).
Arguments Ok {A} a.
Arguments Raise {A} e.

#[global] Instance result_ret : MRet result := fun A a => Ok a.
#[global] Instance result_bind : MBind result :=
  fun A B f m => match m with Ok a => f a | Raise e => Raise e end.

Definition is_Ok {A} (r : result A) : Prop :=
  match r with Ok _ => True | Raise _ => False end.

(** Python's [/] on two floats raises on a zero divisor. *)
Definition py_truediv (a b : float) : result float :=
  match b with
  | Fin y => if decide (y = 0)%R then Raise ZeroDivisionError else Ok (fdiv a b)
  | _ => Ok (fdiv a b)
  end.

(** A Python int in float arithmetic is converted first, and the
    conversion raises when the int is out of the range of a float: from
    [2**1024 - 2**970] on in magnitude. *)
Definition float_int_bound : Z := 2 ^ 1024 - 2 ^ 970.

#[global] Arguments float_int_bound : simpl never.

Definition py_float (n : Z) : result float :=
  if decide (Z.abs n < float_int_bound)%Z then Ok (of_Z n) else Raise OverflowError.

(** Sequencing of results: the first exception ends the evaluation. *)
Definition and_then {A B} (r : result A) (f : A -> result B) : result B :=
  match r with
  | Ok a => f a
  | Raise e => Raise e
  end.

Notation "'let?' x := r 'in' k" := (and_then r (fun x => k))
  (at level 10, x name, r at level 100, k at level 200).

(** ** Scalars: real or complex *)

(** The value of an expression on Python and numpy scalars is real (a
    Python float, a numpy float64) or complex.  In an operation of a real
    with a complex operand the real one is converted first, with an
    imaginary part of zero, and the operation is the complex one. *)
Inductive scalar := SReal (a : float) | SCplx (z : complex).

Definition to_complex (s : scalar) : complex :=
  match s with
  | SReal a => RtoC a
  | SCplx z => z
  end.

Definition sadd (s t : scalar) : scalar :=
  match s, t with
  | SReal a, SReal b => SReal (fadd a b)
  | _, _ => SCplx (cadd (to_complex s) (to_complex t))
  end.

Definition ssub (s t : scalar) : scalar :=
  match s, t with
  | SReal a, SReal b => SReal (fsub a b)
  | _, _ => SCplx (csub (to_complex s) (to_complex t))
  end.

Definition smul (s t : scalar) : scalar :=
  match s, t with
  | SReal a, SReal b => SReal (fmul a b)
  | _, _ => SCplx (cmul (to_complex s) (to_complex t))
  end.

(** [np.abs] on a float64. *)
Definition fabs (a : float) : float :=
  match a with
  | Fin r => Fin (Rabs r)
  | Inf _ => PInf
  | NaN => NaN
  end.

(** ** The library interface *)

(** The routines of numpy, scipy and of Python's own arithmetic that the
    notebook calls and does not define.  The numpy routines return a
    value on every argument; Python's [**] on its own floats and complex
    numbers raises ([ZeroDivisionError], [OverflowError]) where numpy
    would return an infinity or NaN. *)
Class NumLib := {
  (** [np.exp] on a complex and on a float64 *)
  np_exp : complex -> complex;
  np_exp_real : float -> float;
  (** [np.log] on a complex *)
  np_log : complex -> complex;
  (** numpy's [**]: a complex array to a scalar power, a float64 (array)
      to a float power *)
  np_power : complex -> complex -> complex;
  float_power : float -> float -> float;
  (** Python's [**]: on two floats where the result is a float, and on a
      complex base *)
  py_pow : float -> float -> result float;
  py_cpow : complex -> complex -> result complex;
  np_sqrt : float -> float;
  np_abs : complex -> float;
  gamma : float -> float;
  kv : float -> float -> float;
  fft : list complex -> list complex
}.

(** What the routines are assumed to do.  The transform has one output
    per input.  Python's [**] returns on moderate arguments: a float base
    between [1/1024] and [1024] or a complex base with components of such
    size, with a real exponent of at most [64] in magnitude (the result is
    then far from the range of a float); the square of a float of at most
    one in magnitude is between zero and one; the square of a complex
    number with small components is its product with itself. *)
Class NumLibLaws (L : NumLib) := {
  fft_length : forall l, length (fft l) = length l;
  py_pow_returns : forall x y : R,
    (/ 1024 <= x <= 1024)%R -> (Rabs y <= 64)%R ->
    exists v, py_pow (Fin x) (Fin y) = Ok (Fin v);
  py_pow_square : forall (x : R) (v : float),
    (Rabs x <= 1)%R -> py_pow (Fin x) (Fin 2) = Ok v ->
    exists r, v = Fin r /\ (0 <= r <= 1)%R;
  py_cpow_square : forall a b : R,
    (Rabs a <= 1)%R -> (Rabs b <= 1)%R ->
    py_cpow (Cx (Fin a) (Fin b)) (RtoC (Fin 2))
    = Ok (cmul (Cx (Fin a) (Fin b)) (Cx (Fin a) (Fin b)));
  py_cpow_returns : forall a b y : R,
    (/ 1024 <= Rabs a <= 1024)%R -> (Rabs b <= 1024)%R -> (Rabs y <= 64)%R ->
    exists z, py_cpow (Cx (Fin a) (Fin b)) (RtoC (Fin y)) = Ok z
}.

(** ** Arrays *)

(** [np.arange(0, N, dtype = np.float64)]. *)
Definition np_arange (N : Z) : list float :=
  (fun k : nat => of_Z (Z.of_nat k)) <$> seq 0 (Z.to_nat N).

Definition np_ones_like (j : list float) : list float :=
  (fun _ => Fin 1) <$> j.

(** The position a Python index denotes in a sequence of [len] items. *)
Definition py_index (len : nat) (i : Z) : result nat :=
  let k := (if decide (i < 0)%Z then i + Z.of_nat len else i)%Z in
  if decide (0 <= k < Z.of_nat len)%Z then Ok (Z.to_nat k) else Raise IndexError.

(** Binary operation on two one-dimensional arrays, with numpy's
    broadcasting of an array of length one. *)
Definition broadcast2 {A B D} (f : A -> B -> D) (a : list A) (b : list B) : result (list D) :=
  if decide (length a = length b) then Ok (zip_with f a b)
  else match a, b with
       | [a0], _ => Ok (f a0 <$> b)
       | _, [b0] => Ok ((fun x => f x b0) <$> a)
       | _, _ => Raise ValueError
       end.

(** [pd.Series(data).dropna()]: missing entries ([None]) and NaN are
    dropped; infinities are ordinary values for pandas. *)
Definition notna (v : option float) : option float :=
  match v with
  | Some NaN | None => None
  | Some a => Some a
  end.

Definition dropna (data : list (option float)) : list float := omap notna data.

(** ** Linear interpolation, [np.interp(x, xp, fp)]

    The routine as numpy's C code has it: each query is located among the
    nodes by a search that starts from the place of the query before it,
    and the value is the node's value, an end value, or the value on the
    segment. *)

(** The value on the segment from [(x0, y0)] to [(x1, y1)], with numpy's
    second attempt when the first formula yields NaN. *)
Definition interp_linear (x x0 y0 x1 y1 : float) : float :=
  let slope := fdiv (fsub y1 y0) (fsub x1 x0) in
  let r := fadd (fmul slope (fsub x x0)) y0 in
  if isnan r then
    let r' := fadd (fmul slope (fsub x x1)) y1 in
    if isnan r' && bool_decide (y0 = y1) then y0 else r'
  else r.

(** [arr[i]] for an index in range. *)
Definition item (arr : list float) (i : Z) : float :=
  default NaN (arr !! Z.to_nat i).

(** The equality of two float64: NaN is equal to nothing. *)
Definition feq (a b : float) : Prop := a = b /\ a ≠ NaN.

#[global] Instance feq_dec a b : Decision (feq a b).
Proof. unfold feq. apply _. Defined.

(** [for (i = 1; i < len && key >= arr[i]; ++i); return i - 1] on the
    items from [arr[1]] on: how many of them, from the first, are at most
    [key]. *)
Fixpoint leading (key : float) (rest : list float) : nat :=
  match rest with
  | a :: rest' => if decide (fle a key) then S (leading key rest') else 0
  | [] => 0
  end.

(** The bisection loop, [imin] and [imax] closing in. *)
Fixpoint bisect (key : float) (arr : list float) (imin imax : Z) (fuel : nat) : Z :=
  match fuel with
  | O => (imin - 1)%Z
  | S fuel' =>
      if decide (imin < imax)%Z then
        let imid := (imin + Z.shiftr (imax - imin) 1)%Z in
        if decide (fle (item arr imid) key)
        then bisect key arr (imid + 1) imax fuel'
        else bisect key arr imin imid fuel'
      else (imin - 1)%Z
  end.

Definition LIKELY_IN_CACHE_SIZE : Z := 8.

(** [binary_search_with_guess(key, arr, len, guess)]: [-1] for a key
    below the first node, [len] for one above the last, else an index
    [j] of a node; on nodes in increasing order, the last at most [key]. *)
Definition binary_search_with_guess (key : float) (arr : list float) (guess : Z) : Z :=
  let len := Z.of_nat (length arr) in
  if decide (flt (item arr (len - 1)) key) then len
  else if decide (flt key (item arr 0)) then (-1)%Z
  else if decide (len <= 4)%Z then Z.of_nat (leading key (tail arr))
  else
    let guess := (if decide (guess > len - 3)%Z then len - 3 else guess)%Z in
    let guess := (if decide (guess < 1)%Z then 1 else guess)%Z in
    if decide (flt key (item arr guess)) then
      if decide (flt key (item arr (guess - 1))) then
        let imin :=
          (if decide ((guess > LIKELY_IN_CACHE_SIZE)%Z
                      /\ fle (item arr (guess - LIKELY_IN_CACHE_SIZE)) key)
           then guess - LIKELY_IN_CACHE_SIZE else 0)%Z in
        bisect key arr imin (guess - 1) (length arr)
      else (guess - 1)%Z
    else if decide (flt key (item arr (guess + 1))) then guess
    else if decide (flt key (item arr (guess + 2))) then (guess + 1)%Z
    else
      let imax :=
        (if decide ((guess < len - LIKELY_IN_CACHE_SIZE - 1)%Z
                    /\ flt key (item arr (guess + LIKELY_IN_CACHE_SIZE)))
         then guess + LIKELY_IN_CACHE_SIZE else len)%Z in
      bisect key arr (guess + 2) imax (length arr).

(** The value for a query [x] that the search placed at [j]. *)
Definition interp_at (xp fp : list float) (j : Z) (x : float) : float :=
  let len := Z.of_nat (length xp) in
  if decide (j = -1)%Z then item fp 0
  else if decide (j = len) then item fp (len - 1)
  else if decide (j = len - 1)%Z then item fp j
  else if decide (feq (item xp j) x) then item fp j
  else interp_linear x (item xp j) (item fp j) (item xp (j + 1)) (item fp (j + 1)).

(** The loop over the queries; a NaN query is its own value and leaves
    the place as it is. *)
Fixpoint interp_loop (xp fp : list float) (j : Z) (xs : list float) : list float :=
  match xs with
  | [] => []
  | x :: xs' =>
      if isnan x then x :: interp_loop xp fp j xs'
      else
        let j' := binary_search_with_guess x xp j in
        interp_at xp fp j' x :: interp_loop xp fp j' xs'
  end.

(** With a single node every query has its value. *)
Definition np_interp (x xp fp : list float) : result (list float) :=
  if decide (length xp = 0) then Raise ValueError
  else if decide (length fp = length xp) then
    if decide (length xp = 1) then Ok ((fun _ => item fp 0) <$> x)
    else Ok (interp_loop xp fp 0 x)
  else Raise ValueError.

(** ** lmfit parameters *)

Record LmParameter := {
  p_name : string;
  p_value : float;
  p_vary : bool;
  p_min : option float;
  p_max : option float
}.

(** [lmfit.Parameters]: an ordered collection, one entry per name. *)
Definition LmParameters := list LmParameter.

Definition valuesdict (ps : LmParameters) : list (string * float) :=
  (fun p => (p_name p, p_value p)) <$> ps.

Fixpoint getitem (d : list (string * float)) (k : string) : result float :=
  match d with
  | [] => Raise (KeyError k)
  | (k', v) :: d' => if decide (k' = k) then Ok v else getitem d' k
  end.

(** ** [str.lower] on ASCII text *)

Definition lower_ascii (c : Ascii.ascii) : Ascii.ascii :=
  let n := Ascii.nat_of_ascii c in
  if decide (65 <= n <= 90) then Ascii.ascii_of_nat (n + 32) else c.

Fixpoint lower (s : string) : string :=
  match s with
  | EmptyString => EmptyString
  | String c s' => String (lower_ascii c) (lower s')
  end.

(** ** The store: the class, its instances, numpy arrays *)

Abbreviation loc := nat.

Inductive value :=
| VInt (n : Z)
| VFloat (a : float)
| VArray (l : loc)
| VSeries (s : list float).

Record World := {
  class_dict : gmap string value;
  objects : gmap loc (gmap string value);
  arrays : gmap loc (list float)
}.

(** A computation: it returns or raises, and leaves a store. *)
Definition Py (A : Type) : Type := World -> result A * World.

#[global] Instance Py_ret : MRet Py := fun A a W => (Ok a, W).
#[global] Instance Py_bind : MBind Py :=
  fun A B f m W =>
    match m W with
    | (Ok a, W') => f a W'
    | (Raise e, W') => (Raise e, W')
    end.

Definition lift {A} (r : result A) : Py A := fun W => (r, W).
Definition raise {A} (e : exn) : Py A := lift (Raise e).

(** The class body: [N = 2**16], [eta = 0.5], [dt = 1/252]. *)
Definition Estimator_class : gmap string value :=
  <["N" := VInt (2 ^ 16)]> (<["eta" := VFloat (Fin 0.5)]> (<["dt" := VFloat (Fin (1 / 252))]> ∅)).

Definition initial_world : World :=
  {| class_dict := Estimator_class; objects := ∅; arrays := ∅ |}.

(** Attribute lookup: the instance dictionary, then the class. *)
Definition getattr (self : loc) (name : string) : Py value :=
  fun W =>
    match objects W !! self with
    | Some d =>
        match d !! name with
        | Some v => (Ok v, W)
        | None =>
            match class_dict W !! name with
            | Some v => (Ok v, W)
            | None => (Raise (AttributeError name), W)
            end
        end
    | None => (Raise (AttributeError name), W)
    end.

(** Attribute assignment always writes the instance dictionary. *)
Definition setattr (self : loc) (name : string) (v : value) : Py unit :=
  fun W =>
    match objects W !! self with
    | Some d =>
        (Ok tt, {| class_dict := class_dict W;
                   objects := <[self := <[name := v]> d]> (objects W);
                   arrays := arrays W |})
    | None => (Raise (AttributeError name), W)
    end.

Definition new_object : Py loc :=
  fun W =>
    let l := fresh (dom (objects W)) in
    (Ok l, {| class_dict := class_dict W;
              objects := <[l := ∅]> (objects W);
              arrays := arrays W |}).

Definition new_array (a : list float) : Py loc :=
  fun W =>
    let l := fresh (dom (arrays W)) in
    (Ok l, {| class_dict := class_dict W;
              objects := objects W;
              arrays := <[l := a]> (arrays W) |}).

Definition load (l : loc) : Py (list float) :=
  fun W =>
    match arrays W !! l with
    | Some a => (Ok a, W)
    | None => (Raise TypeError, W)
    end.

Definition store (l : loc) (a : list float) : Py unit :=
  fun W =>
    (Ok tt, {| class_dict := class_dict W;
               objects := objects W;
               arrays := <[l := a]> (arrays W) |}).

(** [a[i] = v] on the array at [l]. *)
Definition setitem (l : loc) (i : Z) (v : float) : Py unit :=
  a ← load l;
  k ← lift (py_index (length a) i);
  store l (<[k := v]> a).

Definition as_float (v : value) : Py float :=
  match v with
  | VFloat a => mret a
  | VInt n => mret (of_Z n)
  | _ => raise TypeError
  end.

Definition as_int (v : value) : Py Z :=
  match v with
  | VInt n => mret n
  | _ => raise TypeError
  end.

Definition as_array (v : value) : Py (list float) :=
  match v with
  | VArray l => load l
  | VSeries s => mret s
  | _ => raise TypeError
  end.

Definition get_float (self : loc) (name : string) : Py float :=
  v ← getattr self name; as_float v.

Definition get_int (self : loc) (name : string) : Py Z :=
  v ← getattr self name; as_int v.

Definition get_array (self : loc) (name : string) : Py (list float) :=
  v ← getattr self name; as_array v.

(** ** The class [Estimator] *)

(** [make_fft_params(self)] *)
Definition make_fft_params (self : loc) : Py unit :=
  eta ← get_float self "eta";
  b ← lift (py_truediv np_pi eta);
  setattr self "b" (VFloat b);;
  eta ← get_float self "eta";
  N ← get_int self "N";
  Nf ← lift (py_float N);
  lbda ← lift (py_truediv (fmul (Fin 2) np_pi) (fmul eta Nf));
  setattr self "lbda" (VFloat lbda);;
  N ← get_int self "N";
  let j := np_arange N in
  eta ← get_float self "eta";
  u ← new_array ((fun jk => fmul jk eta) <$> j);
  setattr self "u" (VArray u);;
  b ← get_float self "b";
  lbda ← get_float self "lbda";
  x ← new_array ((fun jk => fadd (fneg b) (fmul jk lbda)) <$> j);
  setattr self "x" (VArray x);;
  w ← new_array (np_ones_like j);
  setitem w 0 (Fin 0.5);;
  setitem w (-1) (Fin 0.5);;
  setattr self "w" (VArray w).

Definition set_if_given (self : loc) (name : string) (v : option value) : Py unit :=
  match v with
  | Some v => setattr self name v
  | None => mret tt
  end.

(** [__init__(self, data_returns, N = None, eta = None, dt = None)] *)
Definition __init__ (self : loc) (data_returns : list (option float))
    (N : option Z) (eta dt : option float) : Py unit :=
  setattr self "data_returns" (VSeries (dropna data_returns));;
  set_if_given self "N" (VInt <$> N);;
  set_if_given self "eta" (VFloat <$> eta);;
  set_if_given self "dt" (VFloat <$> dt);;
  make_fft_params self.

(** [Estimator(data_returns, N, eta, dt)]: a new instance, initialised. *)
Definition Estimator (data_returns : list (option float))
    (N : option Z) (eta dt : option float) : Py loc :=
  self ← new_object;
  __init__ self data_returns N eta dt;;
  mret self.

(** A characteristic function as [get_cfXh] returns it: a lambda of a
    values dictionary and a frequency [u].  [opt_fun] calls it with the
    Python complex [-1j] and with the float64 array [self.u], and the
    operators of the lambda mean different operations on the two:
    Python's own arithmetic on the complex number, where [**] can raise,
    and numpy's elementwise arithmetic on the array, which returns
    infinities and NaN instead.  A closure is therefore given by what it
    does on each.  On the array the outcome is the function from an
    element of the array to the element of the result at the same
    place: whether the lambda raises does not depend on the elements.
    The result is real or complex as the operations make it. *)
Record cfXh := {
  at_point : list (string * float) -> complex -> Py scalar;
  on_array : list (string * float) -> Py (float -> scalar)
}.

Section WithNumLib.
Context {L : NumLib}.

(** [np.log] on a real and on a complex scalar. *)
Definition slog (s : scalar) : scalar :=
  match s with
  | SReal a => SReal (np_log_real a)
  | SCplx z => SCplx (np_log z)
  end.

(** Python's [x ** y] on two floats: a negative finite base with an
    exponent that is not an integer gives a complex number. *)
Definition py_pow_dyn (x y : float) : result scalar :=
  match x, y with
  | Fin a, Fin b =>
      if decide (a < 0 /\ frac_part b <> 0)%R
      then let? z := py_cpow (RtoC x) (RtoC y) in Ok (SCplx z)
      else let? v := py_pow x y in Ok (SReal v)
  | _, _ => let? v := py_pow x y in Ok (SReal v)
  end.

(** [np.exp(-0.5* params['sigma']**2 *self.dt* u**2)] *)
Definition cf_gbm (self : loc) : cfXh := {|
  at_point params u :=
    sigma ← lift (getitem params "sigma");
    s2 ← lift (py_pow sigma (Fin 2));
    dt ← get_float self "dt";
    u2 ← lift (py_cpow u (RtoC (Fin 2)));
    mret (SCplx (np_exp (cmul (RtoC (fmul (fmul (Fin (-0.5)) s2) dt)) u2)));
  on_array params :=
    sigma ← lift (getitem params "sigma");
    s2 ← lift (py_pow sigma (Fin 2));
    dt ← get_float self "dt";
    mret (fun uk =>
      SReal (np_exp_real (fmul (fmul (fmul (Fin (-0.5)) s2) dt)
                               (float_power uk (Fin 2)))))
|}.

(** [(1- 1j*u*params['theta']*params['nu']
      + 0.5 * params['sigma']**2 * u**2 * params['nu'])**(-self.dt / params['nu'])] *)
Definition cf_vg (self : loc) : cfXh := {|
  at_point params u :=
    theta ← lift (getitem params "theta");
    nu ← lift (getitem params "nu");
    sigma ← lift (getitem params "sigma");
    s2 ← lift (py_pow sigma (Fin 2));
    u2 ← lift (py_cpow u (RtoC (Fin 2)));
    dt ← get_float self "dt";
    e ← lift (py_truediv (fneg dt) nu);
    z ← lift (py_cpow
                (cadd (csub (RtoC (Fin 1))
                            (cmul (cmul (cmul Ci u) (RtoC theta)) (RtoC nu)))
                      (cmul (cmul (RtoC (fmul (Fin 0.5) s2)) u2) (RtoC nu)))
                (RtoC e));
    mret (SCplx z);
  on_array params :=
    theta ← lift (getitem params "theta");
    nu ← lift (getitem params "nu");
    sigma ← lift (getitem params "sigma");
    s2 ← lift (py_pow sigma (Fin 2));
    dt ← get_float self "dt";
    e ← lift (py_truediv (fneg dt) nu);
    mret (fun uk =>
      SCplx (np_power
               (cadd (csub (RtoC (Fin 1))
                           (cmul (cmul (cmul Ci (RtoC uk)) (RtoC theta)) (RtoC nu)))
                     (RtoC (fmul (fmul (fmul (Fin 0.5) s2) (float_power uk (Fin 2))) nu)))
               (RtoC e)))
|}.

(** [np.exp(params['C']* self.dt * gamma(-params['Y'])*
      ((params['M'] - 1j*u)**params['Y'] - params['M']**params['Y']
       + (params['G']+1j*u)**params['Y'] - params['G']**params['Y']))] *)
Definition cf_cgmy (self : loc) : cfXh := {|
  at_point params u :=
    C ← lift (getitem params "C");
    dt ← get_float self "dt";
    Y ← lift (getitem params "Y");
    M ← lift (getitem params "M");
    a ← lift (py_cpow (csub (RtoC M) (cmul Ci u)) (RtoC Y));
    b ← lift (py_pow_dyn M Y);
    G ← lift (getitem params "G");
    c ← lift (py_cpow (cadd (RtoC G) (cmul Ci u)) (RtoC Y));
    d ← lift (py_pow_dyn G Y);
    mret (SCplx (np_exp
      (cmul (RtoC (fmul (fmul C dt) (gamma (fneg Y))))
            (to_complex (ssub (sadd (ssub (SCplx a) b) (SCplx c)) d)))));
  on_array params :=
    C ← lift (getitem params "C");
    dt ← get_float self "dt";
    Y ← lift (getitem params "Y");
    M ← lift (getitem params "M");
    b ← lift (py_pow_dyn M Y);
    G ← lift (getitem params "G");
    d ← lift (py_pow_dyn G Y);
    mret (fun uk =>
      SCplx (np_exp
        (cmul (RtoC (fmul (fmul C dt) (gamma (fneg Y))))
              (to_complex
                 (ssub (sadd (ssub (SCplx (np_power (csub (RtoC M) (cmul Ci (RtoC uk)))
                                                    (RtoC Y)))
                                   b)
                             (SCplx (np_power (cadd (RtoC G) (cmul Ci (RtoC uk)))
                                              (RtoC Y))))
                       d)))))
|}.

(** [modu(params, u)], the parameters looked up: on the Python complex
    and on an element of the array. *)
Definition modu (sigma dt nu : float) (u : complex) : float :=
  np_abs (cmul (RtoC (fmul sigma (np_sqrt (fmul dt (fsub nu (Fin 2)))))) u).

Definition modu_on (sigma dt nu : float) (uk : float) : float :=
  fabs (fmul (fmul sigma (np_sqrt (fmul dt (fsub nu (Fin 2))))) uk).

(** [(kv(params['nu']/2.0, modu(params, u)) * modu(params, u) ** (params['nu']/2))
     /(gamma(params['nu']/2.0) * 2.0**(params['nu']/2.0-1.0))]: every
    operand is real, and so is the result. *)
Definition cf_t (self : loc) : cfXh := {|
  at_point params u :=
    nu ← lift (getitem params "nu");
    sigma ← lift (getitem params "sigma");
    dt ← get_float self "dt";
    p ← lift (py_pow (Fin 2) (fsub (fdiv nu (Fin 2)) (Fin 1)));
    mret (SReal (fdiv (fmul (kv (fdiv nu (Fin 2)) (modu sigma dt nu u))
                            (float_power (modu sigma dt nu u) (fdiv nu (Fin 2))))
                      (fmul (gamma (fdiv nu (Fin 2))) p)));
  on_array params :=
    nu ← lift (getitem params "nu");
    sigma ← lift (getitem params "sigma");
    dt ← get_float self "dt";
    p ← lift (py_pow (Fin 2) (fsub (fdiv nu (Fin 2)) (Fin 1)));
    mret (fun uk =>
      SReal (fdiv (fmul (kv (fdiv nu (Fin 2)) (modu_on sigma dt nu uk))
                        (float_power (modu_on sigma dt nu uk) (fdiv nu (Fin 2))))
                  (fmul (gamma (fdiv nu (Fin 2))) p)))
|}.

(** [get_cfXh(self, model)]; [None] is Python's [None]. *)
Definition get_cfXh (self : loc) (model : string) : option cfXh :=
  if decide (lower model = "gbm") then Some (cf_gbm self)
  else if decide (lower model = "vg") then Some (cf_vg self)
  else if decide (lower model = "cgmy") then Some (cf_cgmy self)
  else if decide (lower model = "t") then Some (cf_t self)
  else None.

(** One row of [params.add_many]: name, value, vary, min, max. *)
Definition row (name : string) (v : R) (lo hi : option R) : LmParameter :=
  {| p_name := name; p_value := Fin v; p_vary := true;
     p_min := Fin <$> lo; p_max := Fin <$> hi |}.

(** [get_init_estim_params(self, model)] *)
Definition get_init_estim_params (self : loc) (model : string) : Py LmParameters :=
  if decide (lower model = "gbm") then
    mret [row "mu" 0.01 None None; row "sigma" 0.10 (Some 0.00001%R) None]
  else if decide (lower model = "vg") then
    mret [row "mu" 0.01 None None; row "sigma" 0.10 (Some 0.00001%R) None;
          row "theta" 0.00 None None; row "nu" 0.01 (Some 0.00001%R) None]
  else if decide (lower model = "cgmy") then
    mret [row "mu" 0.01 None None; row "C" 0.01 (Some 0.00001%R) None;
          row "G" 20 (Some 0.00001%R) None; row "M" 20 (Some 0.00001%R) None;
          row "Y" 1.85 None (Some 2.0%R)]
  else if decide (lower model = "t") then
    u ← get_array self "u";
    u' ← new_array (np_clip_min (Fin 0.001) <$> u);
    setattr self "u" (VArray u');;
    mret [row "mu" 0.01 None None; row "sigma" 0.1 (Some 0.00001%R) None;
          row "nu" 100 (Some 2.00001%R) None]
  else mret [].

(** Calling what [get_cfXh] returned; calling [None] is a [TypeError]. *)
Definition call_point (f : option cfXh) (params : list (string * float)) (u : complex) :
    Py scalar :=
  match f with
  | Some f => at_point f params u
  | None => raise TypeError
  end.

Definition call_array (f : option cfXh) (params : list (string * float)) :
    Py (float -> scalar) :=
  match f with
  | Some f => on_array f params
  | None => raise TypeError
  end.

(** The two intermediate values of [opt_fun]: [omega] and the array [cf].
    [omega] is real when the closure returns a real at [-1j]. *)
Definition opt_fun_omega (self : loc) (paramsdict : list (string * float))
    (f : option cfXh) : Py scalar :=
  dt ← get_float self "dt";
  c ← lift (py_truediv (Fin (-1)) dt);
  z ← call_point f paramsdict (cneg Ci);
  mret (smul (SReal c) (slog z)).

Definition opt_fun_cf (self : loc) (paramsdict : list (string * float))
    (f : option cfXh) (u : list float) (omega : scalar) : Py (list complex) :=
  mu ← lift (getitem paramsdict "mu");
  dt ← get_float self "dt";
  dt' ← get_float self "dt";
  let drift := sadd (SReal (fmul mu dt)) (smul omega (SReal dt')) in
  g ← call_array f paramsdict;
  mret ((fun uk => cmul (np_exp (cmul (cmul Ci (RtoC uk)) (to_complex drift)))
                        (to_complex (g uk))) <$> u).

(** The floor of the densities, [a_min = 0.000000001]. *)
Definition density_floor : float := Fin 0.000000001.

(** The densities at the observed returns: interpolation of the sampled
    curve [fp] over the nodes [x], clipped from below. *)
Definition densities_of (data_returns x fp : list float) : result (list float) :=
  match np_interp data_returns x fp with
  | Ok d => Ok (np_clip_min density_floor <$> d)
  | Raise e => Raise e
  end.

(** [-np.sum(np.log(densities))] *)
Definition neg_log_sum (densities : list float) : float :=
  fneg (np_sum (np_log_real <$> densities)).

(** The sampled density curve, [np.real(densities_fft)]. *)
Definition opt_fun_curve (self : loc) (params : LmParameters) (model : string) : Py (list float) :=
  let paramsdict := valuesdict params in
  u ← get_array self "u";
  let f := get_cfXh self model in
  omega ← opt_fun_omega self paramsdict f;
  cf ← opt_fun_cf self paramsdict f u omega;
  b ← get_float self "b";
  let e := (fun uk => np_exp (cmul (cmul Ci (RtoC b)) (RtoC uk))) <$> u in
  eta ← get_float self "eta";
  w ← get_array self "w";
  t ← lift (broadcast2 cmul ((fun z => cmul z (RtoC eta)) <$> zip_with cmul e cf) (RtoC <$> w));
  mret (re <$> ((cmul (RtoC (fdiv (Fin 1) np_pi))) <$> fft t)).

(** The densities of [opt_fun], before the logarithm. *)
Definition opt_fun_densities (self : loc) (params : LmParameters) (model : string) : Py (list float) :=
  fp ← opt_fun_curve self params model;
  data ← get_array self "data_returns";
  x ← get_array self "x";
  lift (densities_of data x fp).

(** [opt_fun(self, params, model)] *)
Definition opt_fun (self : loc) (params : LmParameters) (model : string) : Py float :=
  densities ← opt_fun_densities self params model;
  mret (neg_log_sum densities).

(** [estimate(self, model, method)]; the optimiser of lmfit is a
    parameter: it receives the objective, the initial parameters and the
    method. *)
Definition estimate {MinimizerResult : Type}
    (minimize : (LmParameters -> Py float) -> LmParameters -> string -> Py MinimizerResult)
    (self : loc) (model : string) (method : string) : Py MinimizerResult :=
  params ← get_init_estim_params self model;
  minimize (fun p => opt_fun self p model) params method.

End WithNumLib.

(** ** The cells around the class *)

(** [data['price'].shift(1)]: every price moves one row down, the first
    row is NaN and the last price drops out. *)
Definition shift (price : list float) : list float :=
  match price with
  | [] => []
  | _ :: _ => NaN :: removelast price
  end.

(** [data.eval('log(price/prev_price)')], row by row. *)
Definition logret (price : list float) : list float :=
  zip_with (fun p q => np_log_real (fdiv p q)) price (shift price).

(** [Estimator(data['logret']).estimate(model)], the cell of each model:
    a new instance with the class configuration, then the fit. *)
Definition estimate_cell {L : NumLib} {MinimizerResult : Type}
    (minimize : (LmParameters -> Py float) -> LmParameters -> string -> Py MinimizerResult)
    (price : list float) (model : string) : Py MinimizerResult :=
  e ← Estimator (Some <$> logret price) None None None;
  estimate minimize e model "nelder".

(** * Definitions for the statements

    The configuration in force and the grid it gives, views of the store,
    the characteristic functions and the values the methods compute, as
    functions. *)

(** ** Configuration and grid values *)

(** The value an attribute name denotes, given the class dictionary [c]
    and the instance dictionary [d]. *)
Definition lookup_attr (c d : gmap string value) (name : string) : option value :=
  match d !! name with
  | Some v => Some v
  | None => c !! name
  end.

(** The grid [make_fft_params] computes for [N] and [eta]: [b], [lbda]
    and the arrays [u], [x], [w]. *)
Definition grid_b (eta : float) : float := fdiv np_pi eta.

Definition grid_lbda (eta : float) (N : Z) : float :=
  fdiv (fmul (Fin 2) np_pi) (fmul eta (of_Z N)).

Definition grid_u (N : Z) (eta : float) : list float :=
  (fun jk => fmul jk eta) <$> np_arange N.

Definition grid_x (N : Z) (eta : float) : list float :=
  (fun jk => fadd (fneg (grid_b eta)) (fmul jk (grid_lbda eta N))) <$> np_arange N.

Definition grid_w (N : Z) : list float :=
  <[Z.to_nat N - 1 := Fin 0.5]> (<[0 := Fin 0.5]> (np_ones_like (np_arange N))).

(** The instance dictionary after [if v is not None: self.name = v]. *)
Definition set_opt (name : string) (v : option value) (D : gmap string value) :
    gmap string value :=
  match v with
  | Some v => <[name:=v]> D
  | None => D
  end.

(** The configuration in force: the argument when given, else the class
    attribute. *)
Definition cfg_N (N : option Z) : Z := default (2 ^ 16)%Z N.
Definition cfg_eta (eta : option float) : float := default (Fin 0.5) eta.
Definition cfg_dt (dt : option float) : float := default (Fin (1 / 252)) dt.

(** The instance dictionary [__init__] leaves. *)
Definition init_dict (data_returns : list (option float))
    (N : option Z) (eta dt : option float) : gmap string value :=
  set_opt "dt" (VFloat <$> dt)
    (set_opt "eta" (VFloat <$> eta)
      (set_opt "N" (VInt <$> N)
        (<["data_returns":=VSeries (dropna data_returns)]> ∅))).

(** The instance dictionary [make_fft_params] leaves, the arrays at
    [lu], [lx], [lw]. *)
Definition grid_dict (D : gmap string value) (N : Z) (eta : float) (lu lx lw : loc) :
    gmap string value :=
  <["w":=VArray lw]> (<["x":=VArray lx]> (<["u":=VArray lu]>
    (<["lbda":=VFloat (grid_lbda eta N)]> (<["b":=VFloat (grid_b eta)]> D)))).

(** The store after a successful construction in [W]. *)
Definition constructed (W : World) (data : list (option float))
    (N : option Z) (eta dt : option float) : World :=
  let A := arrays W in
  let lu := fresh (dom A) in
  let Au := <[lu := grid_u (cfg_N N) (cfg_eta eta)]> A in
  let lx := fresh (dom Au) in
  let Ax := <[lx := grid_x (cfg_N N) (cfg_eta eta)]> Au in
  let lw := fresh (dom Ax) in
  {| class_dict := class_dict W;
     objects := <[fresh (dom (objects W)) :=
                   grid_dict (init_dict data N eta dt) (cfg_N N) (cfg_eta eta) lu lx lw]>
                  (objects W);
     arrays := <[lw := grid_w (cfg_N N)]> Ax |}.

(** Which exception a grid construction that fails raises. *)
Definition grid_error (N : Z) (eta : float) : exn :=
  if decide (eta = Fin 0) then ZeroDivisionError
  else if decide (float_int_bound <= Z.abs N)%Z then OverflowError
  else if decide (fmul eta (of_Z N) = Fin 0) then ZeroDivisionError
  else IndexError.

(** ** Views of the store *)

(** The values behind the attributes of an instance, arrays dereferenced. *)
Record grid := {
  g_data : list float;
  g_N : Z;
  g_eta : float;
  g_dt : float;
  g_b : float;
  g_lbda : float;
  g_u : list float;
  g_x : list float;
  g_w : list float
}.

(** In [W], the object [self] is an [Estimator] whose attributes denote [g]. *)
Definition estimator_at (W : World) (self : loc) (g : grid) : Prop :=
  exists D lu lx lw,
    objects W !! self = Some D
    /\ lookup_attr (class_dict W) D "data_returns" = Some (VSeries (g_data g))
    /\ lookup_attr (class_dict W) D "N" = Some (VInt (g_N g))
    /\ lookup_attr (class_dict W) D "eta" = Some (VFloat (g_eta g))
    /\ lookup_attr (class_dict W) D "dt" = Some (VFloat (g_dt g))
    /\ lookup_attr (class_dict W) D "b" = Some (VFloat (g_b g))
    /\ lookup_attr (class_dict W) D "lbda" = Some (VFloat (g_lbda g))
    /\ lookup_attr (class_dict W) D "u" = Some (VArray lu)
    /\ lookup_attr (class_dict W) D "x" = Some (VArray lx)
    /\ lookup_attr (class_dict W) D "w" = Some (VArray lw)
    /\ arrays W !! lu = Some (g_u g)
    /\ arrays W !! lx = Some (g_x g)
    /\ arrays W !! lw = Some (g_w g).

(** The grid of a configuration. *)
Definition grid_of (data : list (option float)) (N : option Z) (eta dt : option float) : grid :=
  {| g_data := dropna data;
     g_N := cfg_N N;
     g_eta := cfg_eta eta;
     g_dt := cfg_dt dt;
     g_b := grid_b (cfg_eta eta);
     g_lbda := grid_lbda (cfg_eta eta) (cfg_N N);
     g_u := grid_u (cfg_N N) (cfg_eta eta);
     g_x := grid_x (cfg_N N) (cfg_eta eta);
     g_w := grid_w (cfg_N N) |}.

(** The grid [g] with the frequency nodes replaced. *)
Definition with_u (g : grid) (u : list float) : grid :=
  {| g_data := g_data g; g_N := g_N g; g_eta := g_eta g; g_dt := g_dt g;
     g_b := g_b g; g_lbda := g_lbda g; g_u := u; g_x := g_x g; g_w := g_w g |}.

(** The arrays of the grid agree in length and are not empty. *)
Definition well_formed (g : grid) : Prop :=
  length (g_u g) = length (g_w g)
  /\ length (g_x g) = length (g_u g)
  /\ 0 < length (g_x g).

(** From [W] to [W'] the class is untouched, every object other than
    [self] is untouched, and every array of [W] is still there with its
    contents. *)
Definition frame (self : loc) (W W' : World) : Prop :=
  class_dict W' = class_dict W
  /\ (forall o, o ≠ self -> objects W' !! o = objects W !! o)
  /\ arrays W ⊆ arrays W'.

(** ** Predicates of the statements *)

(** How many weights are equal to one half. *)
Definition halves (w : list float) : nat :=
  length (filter (fun a => a = Fin 0.5) w).

(** The nodes of the grid [g] are those of the configuration [(N, eta)],
    the operations being those of float arithmetic: [b = pi/eta],
    [lbda = 2 pi/(eta N)], [u[j] = j eta] and [x[j] = -b + j lbda]. *)
Definition grid_nodes (N : Z) (eta : float) (g : grid) : Prop :=
  g_b g = fdiv np_pi eta
  /\ g_lbda g = fdiv (fmul (Fin 2) np_pi) (fmul eta (of_Z N))
  /\ length (g_u g) = Z.to_nat N
  /\ length (g_x g) = Z.to_nat N
  /\ length (g_w g) = Z.to_nat N
  /\ (forall j : nat, j < Z.to_nat N ->
        g_u g !! j = Some (fmul (of_Z (Z.of_nat j)) eta))
  /\ (forall j : nat, j < Z.to_nat N ->
        g_x g !! j = Some (fadd (fneg (g_b g)) (fmul (of_Z (Z.of_nat j)) (g_lbda g)))).

(** One half at both ends, one elsewhere. *)
Definition grid_weights (N : Z) (g : grid) : Prop :=
  forall j, j < Z.to_nat N ->
    g_w g !! j = Some (if decide (j = 0 \/ j = Z.to_nat N - 1) then Fin 0.5 else Fin 1).

(** An entry that is there and is a number. *)
Definition present (v : option float) : Prop :=
  match v with
  | Some a => a ≠ NaN
  | None => False
  end.

#[global] Instance present_dec v : Decision (present v).
Proof. destruct v; simpl; apply _. Defined.

(** ** Models and parameter sets *)

(** The four models the class knows. *)
Inductive model_id := GBM | VG | CGMY | T.

#[global] Instance model_id_eq_dec : EqDecision model_id.
Proof. solve_decision. Defined.

(** The literal each model is compared with. *)
Definition model_name (m : model_id) : string :=
  match m with
  | GBM => "gbm"
  | VG => "vg"
  | CGMY => "cgmy"
  | T => "t"
  end.

(** The branch the chain of comparisons of [get_cfXh] and of
    [get_init_estim_params] takes. *)
Definition select (model : string) : option model_id :=
  if decide (lower model = "gbm") then Some GBM
  else if decide (lower model = "vg") then Some VG
  else if decide (lower model = "cgmy") then Some CGMY
  else if decide (lower model = "t") then Some T
  else None.

(** The initial parameters of each model. *)
Definition init_params (m : model_id) : LmParameters :=
  match m with
  | GBM => [row "mu" 0.01 None None; row "sigma" 0.10 (Some 0.00001%R) None]
  | VG => [row "mu" 0.01 None None; row "sigma" 0.10 (Some 0.00001%R) None;
           row "theta" 0.00 None None; row "nu" 0.01 (Some 0.00001%R) None]
  | CGMY => [row "mu" 0.01 None None; row "C" 0.01 (Some 0.00001%R) None;
             row "G" 20 (Some 0.00001%R) None; row "M" 20 (Some 0.00001%R) None;
             row "Y" 1.85 None (Some 2.0%R)]
  | T => [row "mu" 0.01 None None; row "sigma" 0.1 (Some 0.00001%R) None;
          row "nu" 100 (Some 2.00001%R) None]
  end.

(** The clamp of the [t] branch: [np.clip(self.u, a_min = 0.001, a_max = None)]. *)
Definition clamp_u (u : list float) : list float := np_clip_min (Fin 0.001) <$> u.

(** ** The methods as functions *)

Section Functional.
Context {L : NumLib}.

(** The closure [get_cfXh] returns for each model. *)
Definition cf_code (self : loc) (m : model_id) : cfXh :=
  match m with
  | GBM => cf_gbm self
  | VG => cf_vg self
  | CGMY => cf_cgmy self
  | T => cf_t self
  end.

(** The characteristic function of model [m] at the Python complex [u],
    on an instance whose time step is [dt]: the value of the closure, or
    the exception it ends with, the look-ups and the powers in the order
    the lambda makes them. *)
Definition charFn_at (m : model_id) (dt : float) (pd : list (string * float))
    (u : complex) : result scalar :=
  match m with
  | GBM =>
      let? sigma := getitem pd "sigma" in
      let? s2 := py_pow sigma (Fin 2) in
      let? u2 := py_cpow u (RtoC (Fin 2)) in
      Ok (SCplx (np_exp (cmul (RtoC (fmul (fmul (Fin (-0.5)) s2) dt)) u2)))
  | VG =>
      let? theta := getitem pd "theta" in
      let? nu := getitem pd "nu" in
      let? sigma := getitem pd "sigma" in
      let? s2 := py_pow sigma (Fin 2) in
      let? u2 := py_cpow u (RtoC (Fin 2)) in
      let? e := py_truediv (fneg dt) nu in
      let? z := py_cpow
                  (cadd (csub (RtoC (Fin 1))
                              (cmul (cmul (cmul Ci u) (RtoC theta)) (RtoC nu)))
                        (cmul (cmul (RtoC (fmul (Fin 0.5) s2)) u2) (RtoC nu)))
                  (RtoC e) in
      Ok (SCplx z)
  | CGMY =>
      let? C := getitem pd "C" in
      let? Y := getitem pd "Y" in
      let? M := getitem pd "M" in
      let? a := py_cpow (csub (RtoC M) (cmul Ci u)) (RtoC Y) in
      let? b := py_pow_dyn M Y in
      let? G := getitem pd "G" in
      let? c := py_cpow (cadd (RtoC G) (cmul Ci u)) (RtoC Y) in
      let? d := py_pow_dyn G Y in
      Ok (SCplx (np_exp
        (cmul (RtoC (fmul (fmul C dt) (gamma (fneg Y))))
              (to_complex (ssub (sadd (ssub (SCplx a) b) (SCplx c)) d)))))
  | T =>
      let? nu := getitem pd "nu" in
      let? sigma := getitem pd "sigma" in
      let? p := py_pow (Fin 2) (fsub (fdiv nu (Fin 2)) (Fin 1)) in
      Ok (SReal (fdiv (fmul (kv (fdiv nu (Fin 2)) (modu sigma dt nu u))
                            (float_power (modu sigma dt nu u) (fdiv nu (Fin 2))))
                      (fmul (gamma (fdiv nu (Fin 2))) p)))
  end.

(** The characteristic function of model [m] on a float64 array: the
    function from a node to the value at that node. *)
Definition charFn_on (m : model_id) (dt : float) (pd : list (string * float)) :
    result (float -> scalar) :=
  match m with
  | GBM =>
      let? sigma := getitem pd "sigma" in
      let? s2 := py_pow sigma (Fin 2) in
      Ok (fun uk =>
        SReal (np_exp_real (fmul (fmul (fmul (Fin (-0.5)) s2) dt)
                                 (float_power uk (Fin 2)))))
  | VG =>
      let? theta := getitem pd "theta" in
      let? nu := getitem pd "nu" in
      let? sigma := getitem pd "sigma" in
      let? s2 := py_pow sigma (Fin 2) in
      let? e := py_truediv (fneg dt) nu in
      Ok (fun uk =>
        SCplx (np_power
                 (cadd (csub (RtoC (Fin 1))
                             (cmul (cmul (cmul Ci (RtoC uk)) (RtoC theta)) (RtoC nu)))
                       (RtoC (fmul (fmul (fmul (Fin 0.5) s2) (float_power uk (Fin 2))) nu)))
                 (RtoC e)))
  | CGMY =>
      let? C := getitem pd "C" in
      let? Y := getitem pd "Y" in
      let? M := getitem pd "M" in
      let? b := py_pow_dyn M Y in
      let? G := getitem pd "G" in
      let? d := py_pow_dyn G Y in
      Ok (fun uk =>
        SCplx (np_exp
          (cmul (RtoC (fmul (fmul C dt) (gamma (fneg Y))))
                (to_complex
                   (ssub (sadd (ssub (SCplx (np_power (csub (RtoC M) (cmul Ci (RtoC uk)))
                                                      (RtoC Y)))
                                     b)
                               (SCplx (np_power (cadd (RtoC G) (cmul Ci (RtoC uk)))
                                                (RtoC Y))))
                         d)))))
  | T =>
      let? nu := getitem pd "nu" in
      let? sigma := getitem pd "sigma" in
      let? p := py_pow (Fin 2) (fsub (fdiv nu (Fin 2)) (Fin 1)) in
      Ok (fun uk =>
        SReal (fdiv (fmul (kv (fdiv nu (Fin 2)) (modu_on sigma dt nu uk))
                          (float_power (modu_on sigma dt nu uk) (fdiv nu (Fin 2))))
                    (fmul (gamma (fdiv nu (Fin 2))) p)))
  end.

(** What calling the result of [get_cfXh] yields, at [u] and on the
    array. *)
Definition point_result (dt : float) (pd : list (string * float)) (model : string)
    (u : complex) : result scalar :=
  match select model with
  | Some m => charFn_at m dt pd u
  | None => Raise TypeError
  end.

Definition array_result (dt : float) (pd : list (string * float)) (model : string) :
    result (float -> scalar) :=
  match select model with
  | Some m => charFn_on m dt pd
  | None => Raise TypeError
  end.

(** The drift correction and the per-step characteristic function, as
    the specification writes them for a value [z] of the characteristic
    function at [-i] and its values [phi] on the nodes:
    [omega = -(1/dt) log(z)] and
    [cf(u) = exp(i u (mu dt + omega dt)) phi(u)]. *)
Definition omega_spec (dt : float) (z : scalar) : scalar :=
  smul (SReal (fneg (fdiv (Fin 1) dt))) (slog z).

Definition cf_spec (dt mu : float) (omega : scalar) (phi : float -> scalar)
    (u : float) : complex :=
  cmul (np_exp (cmul (cmul Ci (RtoC u))
                     (to_complex (sadd (SReal (fmul mu dt)) (smul omega (SReal dt))))))
       (to_complex (phi u)).

(** The value of [omega] in [opt_fun]. *)
Definition omega_result (g : grid) (pd : list (string * float)) (model : string) :
    result scalar :=
  let? c := py_truediv (Fin (-1)) (g_dt g) in
  let? z := point_result (g_dt g) pd model (cneg Ci) in
  Ok (omega_spec (g_dt g) z).

(** The array [cf] in [opt_fun]. *)
Definition cf_result (g : grid) (pd : list (string * float)) (model : string)
    (omega : scalar) : result (list complex) :=
  let? mu := getitem pd "mu" in
  let? phi := array_result (g_dt g) pd model in
  Ok (cf_spec (g_dt g) mu omega phi <$> g_u g).

(** The sampled density curve for a given array [cf]. *)
Definition curve_of (g : grid) (cf : list complex) : result (list float) :=
  match broadcast2 cmul
          ((fun z => cmul z (RtoC (g_eta g)))
             <$> zip_with cmul
                   ((fun uk => np_exp (cmul (cmul Ci (RtoC (g_b g))) (RtoC uk))) <$> g_u g)
                   cf)
          (RtoC <$> g_w g) with
  | Ok t => Ok (re <$> (cmul (RtoC (fdiv (Fin 1) np_pi)) <$> fft t))
  | Raise e => Raise e
  end.

Definition curve_result (g : grid) (pd : list (string * float)) (model : string) :
    result (list float) :=
  let? omega := omega_result g pd model in
  let? cf := cf_result g pd model omega in
  curve_of g cf.

Definition densities_result (g : grid) (pd : list (string * float)) (model : string) :
    result (list float) :=
  let? fp := curve_result g pd model in
  densities_of (g_data g) (g_x g) fp.

Definition objective (g : grid) (pd : list (string * float)) (model : string) :
    result float :=
  let? ds := densities_result g pd model in
  Ok (neg_log_sum ds).

End Functional.

(** ** NaN components *)

(** One of the two components is NaN. *)
Definition has_nan (z : complex) : Prop := re z = NaN \/ im z = NaN.

(** A transform every output of which depends on every input. *)
Class NumLibNaN (L : NumLib) := {
  fft_nan : forall l, (exists z, z ∈ l /\ has_nan z) ->
            forall z', z' ∈ fft l -> has_nan z'
}.

(** ** A library instance built on the real analysis of the Standard Library

    Real-analytic values on finite arguments and NaN elsewhere; the
    transform is the discrete Fourier sum, and a power of Python raises
    on a zero base with a negative or complex exponent only.  The Gamma and Bessel
    functions have no counterpart in the Standard Library: Gamma is left
    undefined (NaN), and of the Bessel function only the pole
    [K_v(0) = +inf] is given.  The instance serves to instantiate the
    theorems on examples. *)

Definition analytic_arg (a b : R) : R :=
  if decide (0 < a)%R then atan (b / a)
  else if decide (a < 0)%R then
    (if decide (0 <= b)%R then atan (b / a) + PI else atan (b / a) - PI)
  else if decide (0 < b)%R then PI / 2 else - PI / 2.

Definition analytic_exp (z : complex) : complex :=
  match z with
  | Cx (Fin a) (Fin b) => Cx (Fin (exp a * cos b)) (Fin (exp a * sin b))
  | _ => Cx NaN NaN
  end.

Definition analytic_exp_real (a : float) : float :=
  match a with
  | Fin r => Fin (exp r)
  | Inf false => PInf
  | Inf true => Fin 0
  | NaN => NaN
  end.

Definition analytic_log (z : complex) : complex :=
  match z with
  | Cx (Fin a) (Fin b) =>
      if decide (a = 0 /\ b = 0)%R then Cx NInf (Fin 0)
      else Cx (Fin (ln (sqrt (a * a + b * b)))) (Fin (analytic_arg a b))
  | _ => Cx NaN NaN
  end.

Definition analytic_power (z w : complex) : complex :=
  if decide (z = RtoC (Fin 0))
  then (if decide (w = RtoC (Fin 0)) then RtoC (Fin 1) else RtoC (Fin 0))
  else analytic_exp (cmul w (analytic_log z)).

Definition analytic_float_power (a b : float) : float :=
  match a, b with
  | Fin x, Fin y =>
      if decide (y = 2)%R then Fin (x * x)
      else if decide (0 < x)%R then Fin (Rpower x y)
      else if decide (x = 0 /\ 0 < y)%R then Fin 0
      else if decide (y = 0)%R then Fin 1 else NaN
  | _, _ => NaN
  end.

Definition analytic_py_pow (a b : float) : result float :=
  match a, b with
  | Fin x, Fin y =>
      if decide (x = 0 /\ y < 0)%R then Raise ZeroDivisionError
      else Ok (analytic_float_power a b)
  | _, _ => Ok (analytic_float_power a b)
  end.

(** An exponent with a negative real part or an imaginary part. *)
Definition negative_or_complex (w : complex) : Prop :=
  match w with
  | Cx (Fin c) (Fin d) => (c < 0 \/ d <> 0)%R
  | _ => False
  end.

#[global] Instance negative_or_complex_dec w : Decision (negative_or_complex w).
Proof. destruct w as [[c| |] [d| |]]; simpl; apply _. Defined.

Definition analytic_py_cpow (z w : complex) : result complex :=
  if decide (w = RtoC (Fin 2)) then Ok (cmul z z)
  else if decide (z = RtoC (Fin 0) /\ negative_or_complex w)
  then Raise ZeroDivisionError
  else Ok (analytic_power z w).

Definition analytic_sqrt (a : float) : float :=
  match a with
  | Fin x => if decide (0 <= x)%R then Fin (sqrt x) else NaN
  | Inf false => PInf
  | _ => NaN
  end.

Definition analytic_abs (z : complex) : float :=
  match z with
  | Cx (Fin a) (Fin b) => Fin (sqrt (a * a + b * b))
  | Cx NaN _ | Cx _ NaN => NaN
  | _ => PInf
  end.

Definition analytic_kv (v x : float) : float :=
  match x with
  | Fin r => if decide (r = 0)%R then PInf else NaN
  | _ => NaN
  end.

Definition dft (l : list complex) : list complex :=
  (fun k : nat =>
     foldr cadd (RtoC (Fin 0))
       (imap (fun (j : nat) z =>
                cmul z (analytic_exp
                          (Cx (Fin 0) (Fin (- (2 * PI * INR j * INR k / INR (length l)))))))
             l))
  <$> seq 0 (length l).

#[local] Instance analytic_lib : NumLib := {|
  np_exp := analytic_exp;
  np_exp_real := analytic_exp_real;
  np_log := analytic_log;
  np_power := analytic_power;
  float_power := analytic_float_power;
  py_pow := analytic_py_pow;
  py_cpow := analytic_py_cpow;
  np_sqrt := analytic_sqrt;
  np_abs := analytic_abs;
  gamma := fun _ => NaN;
  kv := analytic_kv;
  fft := dft
|}.

(** ** Sample stores *)

(** The store after [Estimator([0.01], N = 4)] in the initial store, and
    the instance it creates. *)
Definition world1 : World :=
  constructed initial_world [Some (Fin 0.01)] (Some 4%Z) None None.

Definition self1 : loc := fresh (dom (objects initial_world)).

(** ** Further notions *)

(** A computation that leaves every store as it finds it. *)
Definition readonly {A} (m : Py A) : Prop := forall W, (m W).2 = W.

(** The keys the closure of each model looks up, in the order of the
    look-ups. *)
Definition read_keys (m : model_id) : list string :=
  match m with
  | GBM => ["sigma"]
  | VG => ["theta"; "nu"; "sigma"]
  | CGMY => ["C"; "Y"; "M"; "G"]
  | T => ["nu"; "sigma"]
  end.

(** The first key of [ks] that the values dictionary does not have. *)
Fixpoint first_missing (pd : list (string * float)) (ks : list string) : option string :=
  match ks with
  | [] => None
  | k :: ks' =>
      match getitem pd k with
      | Ok _ => first_missing pd ks'
      | Raise _ => Some k
      end
  end.

(** The keys the closure of each model looks up before it takes a power
    of its parameters: all but the [G] of [cgmy]. *)
Definition early_keys (m : model_id) : list string :=
  match m with
  | CGMY => ["C"; "Y"; "M"]
  | _ => read_keys m
  end.

(** The grid [make_fft_params] computes from the [N] and [eta] of [g]. *)
Definition regrid (g : grid) : grid :=
  {| g_data := g_data g; g_N := g_N g; g_eta := g_eta g; g_dt := g_dt g;
     g_b := grid_b (g_eta g);
     g_lbda := grid_lbda (g_eta g) (g_N g);
     g_u := grid_u (g_N g) (g_eta g);
     g_x := grid_x (g_N g) (g_eta g);
     g_w := grid_w (g_N g) |}.

(** * Running the computations *)

Lemma run_bind {A B} (m : Py A) (f : A -> Py B) W :
  (m ≫= f) W
  = match m W with
    | (Ok a, W') => f a W'
    | (Raise e, W') => (Raise e, W')
    end.
Proof. reflexivity. Qed.

Lemma run_ret {A} (a : A) W : (mret a : Py A) W = (Ok a, W).
Proof. reflexivity. Qed.

Lemma run_lift {A} (r : result A) W : lift r W = (r, W).
Proof. reflexivity. Qed.

Lemma lookup_attr_insert_eq c D name v :
  lookup_attr c (<[name:=v]> D) name = Some v.
Proof. unfold lookup_attr. by rewrite lookup_insert_eq. Qed.

Lemma lookup_attr_insert_ne c D name name' v :
  name ≠ name' -> lookup_attr c (<[name:=v]> D) name' = lookup_attr c D name'.
Proof. intros. unfold lookup_attr. by rewrite lookup_insert_ne. Qed.

Lemma getattr_at c O A self D name :
  getattr self name (Build_World c (<[self:=D]> O) A)
  = (match lookup_attr c D name with
     | Some v => Ok v
     | None => Raise (AttributeError name)
     end,
     Build_World c (<[self:=D]> O) A).
Proof.
  unfold getattr, lookup_attr. cbn [objects class_dict].
  rewrite lookup_insert_eq.
  destruct (D !! name); [done|]. by destruct (c !! name).
Qed.

Lemma setattr_at c O A self D name v :
  setattr self name v (Build_World c (<[self:=D]> O) A)
  = (Ok tt, Build_World c (<[self:=<[name:=v]> D]> O) A).
Proof.
  unfold setattr. cbn [objects class_dict arrays].
  rewrite lookup_insert_eq. by rewrite insert_insert_eq.
Qed.

Lemma new_array_at c O A a :
  new_array a (Build_World c O A)
  = (Ok (fresh (dom A)), Build_World c O (<[fresh (dom A):=a]> A)).
Proof. reflexivity. Qed.

Lemma load_at c O A l a :
  A !! l = Some a -> load l (Build_World c O A) = (Ok a, Build_World c O A).
Proof. intros H. unfold load. cbn [arrays]. by rewrite H. Qed.

Lemma store_at c O A l a a' :
  store l a' (Build_World c O (<[l:=a]> A)) = (Ok tt, Build_World c O (<[l:=a']> A)).
Proof. unfold store. cbn [arrays class_dict objects]. by rewrite insert_insert_eq. Qed.

Lemma setitem_at c O A l a i k v :
  py_index (length a) i = Ok k ->
  setitem l i v (Build_World c O (<[l:=a]> A))
  = (Ok tt, Build_World c O (<[l:=<[k:=v]> a]> A)).
Proof.
  intros H. unfold setitem.
  rewrite run_bind, (load_at _ _ _ _ a) by apply lookup_insert_eq.
  cbv beta iota. rewrite run_bind, run_lift, H. cbv beta iota.
  apply store_at.
Qed.

Lemma get_float_at c O A self D name a :
  lookup_attr c D name = Some (VFloat a) ->
  get_float self name (Build_World c (<[self:=D]> O) A)
  = (Ok a, Build_World c (<[self:=D]> O) A).
Proof. intros H. unfold get_float. rewrite run_bind, getattr_at, H. reflexivity. Qed.

Lemma get_int_at c O A self D name n :
  lookup_attr c D name = Some (VInt n) ->
  get_int self name (Build_World c (<[self:=D]> O) A)
  = (Ok n, Build_World c (<[self:=D]> O) A).
Proof. intros H. unfold get_int. rewrite run_bind, getattr_at, H. reflexivity. Qed.

Lemma get_array_at c O A self D name l a :
  lookup_attr c D name = Some (VArray l) -> A !! l = Some a ->
  get_array self name (Build_World c (<[self:=D]> O) A)
  = (Ok a, Build_World c (<[self:=D]> O) A).
Proof.
  intros H Hl. unfold get_array. rewrite run_bind, getattr_at, H.
  cbn [as_array]. by apply load_at.
Qed.

Lemma get_series_at c O A self D name s :
  lookup_attr c D name = Some (VSeries s) ->
  get_array self name (Build_World c (<[self:=D]> O) A)
  = (Ok s, Build_World c (<[self:=D]> O) A).
Proof. intros H. unfold get_array. rewrite run_bind, getattr_at, H. reflexivity. Qed.

Lemma py_truediv_ok a b : b ≠ Fin 0 -> py_truediv a b = Ok (fdiv a b).
Proof.
  intros H. unfold py_truediv. destruct b as [y| |]; try done.
  case_decide; [subst; done | done].
Qed.

Lemma py_truediv_zero a : py_truediv a (Fin 0) = Raise ZeroDivisionError.
Proof. unfold py_truediv. by case_decide. Qed.

Lemma py_float_ok n : (Z.abs n < float_int_bound)%Z -> py_float n = Ok (of_Z n).
Proof. intros H. unfold py_float. by rewrite decide_True. Qed.

Lemma py_float_raise n :
  (float_int_bound <= Z.abs n)%Z -> py_float n = Raise OverflowError.
Proof. intros H. unfold py_float. rewrite decide_False; [done|lia]. Qed.

Lemma float_int_bound_large : (2 ^ 64 < float_int_bound)%Z.
Proof. reflexivity. Qed.

Lemma fmul_of_Z_ne_0 eta N : eta ≠ Fin 0 -> N ≠ 0%Z -> fmul eta (of_Z N) ≠ Fin 0.
Proof.
  intros He HN. unfold of_Z. destruct eta as [e| |]; cbn.
  - intros [=H]. apply Rmult_integral in H as [->| H]; [done|].
    by apply eq_IZR_R0 in H.
  - case_decide as H0; [|done]. by apply eq_IZR_R0 in H0.
  - done.
Qed.

Lemma length_np_arange N : length (np_arange N) = Z.to_nat N.
Proof. unfold np_arange. by rewrite length_fmap, length_seq. Qed.

Lemma lookup_np_arange N (k : nat) :
  k < Z.to_nat N -> np_arange N !! k = Some (of_Z (Z.of_nat k)).
Proof.
  intros H. unfold np_arange. rewrite list_lookup_fmap, lookup_seq_lt by done.
  reflexivity.
Qed.

Lemma py_index_first len : 0 < len -> py_index len 0 = Ok 0.
Proof.
  intros H. unfold py_index. cbv zeta.
  repeat case_decide; try done; exfalso; lia.
Qed.

Lemma py_index_last len : 0 < len -> py_index len (-1) = Ok (len - 1).
Proof.
  intros H. unfold py_index. cbv zeta.
  repeat case_decide; try (exfalso; lia). f_equal. lia.
Qed.

Lemma py_index_empty i : py_index 0 i = Raise IndexError.
Proof.
  unfold py_index. cbv zeta. repeat case_decide; try done; exfalso; lia.
Qed.

(** ** Running [make_fft_params] *)

Ltac attr :=
  repeat first
    [ rewrite lookup_attr_insert_eq
    | rewrite lookup_attr_insert_ne by done ].

Lemma make_fft_params_run c O A self D N eta :
  lookup_attr c D "eta" = Some (VFloat eta) ->
  lookup_attr c D "N" = Some (VInt N) ->
  eta ≠ Fin 0 -> (1 <= N < float_int_bound)%Z ->
  let lu := fresh (dom A) in
  let Au := <[lu := grid_u N eta]> A in
  let lx := fresh (dom Au) in
  let Ax := <[lx := grid_x N eta]> Au in
  let lw := fresh (dom Ax) in
  make_fft_params self (Build_World c (<[self:=D]> O) A)
  = (Ok tt,
     Build_World c
       (<[self := <["w":=VArray lw]> (<["x":=VArray lx]> (<["u":=VArray lu]>
          (<["lbda":=VFloat (grid_lbda eta N)]> (<["b":=VFloat (grid_b eta)]> D))))]> O)
       (<[lw := grid_w N]> Ax)).
Proof.
  intros He HN Hne HN1. intros. unfold make_fft_params.
  rewrite run_bind, (get_float_at _ _ _ _ _ _ _ He). cbv beta iota.
  rewrite run_bind, run_lift, py_truediv_ok by done. cbv beta iota.
  rewrite run_bind, setattr_at. cbv beta iota.
  rewrite run_bind, (get_float_at _ _ _ _ _ _ eta) by (by attr). cbv beta iota.
  rewrite run_bind, (get_int_at _ _ _ _ _ _ N) by (by attr). cbv beta iota.
  rewrite run_bind, run_lift, py_float_ok by lia. cbv beta iota.
  rewrite run_bind, run_lift, py_truediv_ok by (apply fmul_of_Z_ne_0; [done|lia]).
  cbv beta iota.
  rewrite run_bind, setattr_at. cbv beta iota.
  rewrite run_bind, (get_int_at _ _ _ _ _ _ N) by (by attr). cbv beta iota zeta.
  rewrite run_bind, (get_float_at _ _ _ _ _ _ eta) by (by attr). cbv beta iota.
  rewrite run_bind, new_array_at. cbv beta iota.
  rewrite run_bind, setattr_at. cbv beta iota.
  rewrite run_bind, (get_float_at _ _ _ _ _ _ (grid_b eta)) by (by attr). cbv beta iota.
  rewrite run_bind, (get_float_at _ _ _ _ _ _ (grid_lbda eta N)) by (by attr).
  cbv beta iota.
  rewrite run_bind, new_array_at. cbv beta iota.
  rewrite run_bind, setattr_at. cbv beta iota.
  rewrite run_bind, new_array_at. cbv beta iota.
  assert (Hlen : 0 < length (np_ones_like (np_arange N))).
  { unfold np_ones_like. rewrite length_fmap, length_np_arange. lia. }
  rewrite run_bind, (setitem_at _ _ _ _ _ _ 0) by (by apply py_index_first).
  cbv beta iota.
  rewrite run_bind, (setitem_at _ _ _ _ _ _ (length (np_ones_like (np_arange N)) - 1))
    by (rewrite length_insert; by apply py_index_last).
  cbv beta iota.
  rewrite setattr_at. unfold grid_w, np_ones_like.
  rewrite length_fmap, length_np_arange. reflexivity.
Qed.

(** ** Construction *)

Lemma set_if_given_at c O A self D name v :
  set_if_given self name v (Build_World c (<[self:=D]> O) A)
  = (Ok tt, Build_World c (<[self:=set_opt name v D]> O) A).
Proof. destruct v; [apply setattr_at | reflexivity]. Qed.

Lemma lookup_attr_set_opt_ne c D name name' v :
  name ≠ name' -> lookup_attr c (set_opt name v D) name' = lookup_attr c D name'.
Proof. intros. destruct v; [by apply lookup_attr_insert_ne | done]. Qed.

Lemma Estimator_class_N : Estimator_class !! "N" = Some (VInt (2 ^ 16)).
Proof. unfold Estimator_class. by rewrite lookup_insert_eq. Qed.

Lemma Estimator_class_eta : Estimator_class !! "eta" = Some (VFloat (Fin 0.5)).
Proof.
  unfold Estimator_class. rewrite lookup_insert_ne by done.
  by rewrite lookup_insert_eq.
Qed.

Lemma Estimator_class_dt : Estimator_class !! "dt" = Some (VFloat (Fin (1 / 252))).
Proof.
  unfold Estimator_class. rewrite !lookup_insert_ne by done.
  by rewrite lookup_insert_eq.
Qed.

Lemma Estimator_class_other name :
  name ≠ "N" -> name ≠ "eta" -> name ≠ "dt" -> Estimator_class !! name = None.
Proof.
  intros. unfold Estimator_class. by rewrite !lookup_insert_ne, lookup_empty.
Qed.

Lemma init_dict_N data N eta dt :
  lookup_attr Estimator_class (init_dict data N eta dt) "N" = Some (VInt (cfg_N N)).
Proof.
  unfold init_dict. rewrite !lookup_attr_set_opt_ne by done.
  destruct N; cbn [set_opt fmap option_fmap option_map cfg_N default]; attr; [done|].
  unfold lookup_attr. by rewrite lookup_empty, Estimator_class_N.
Qed.

Lemma init_dict_eta data N eta dt :
  lookup_attr Estimator_class (init_dict data N eta dt) "eta" = Some (VFloat (cfg_eta eta)).
Proof.
  unfold init_dict. rewrite lookup_attr_set_opt_ne by done.
  destruct eta; cbn [set_opt fmap option_fmap option_map cfg_eta default]; attr; [done|].
  rewrite lookup_attr_set_opt_ne by done. attr.
  unfold lookup_attr. by rewrite lookup_empty, Estimator_class_eta.
Qed.

Lemma init_dict_dt data N eta dt :
  lookup_attr Estimator_class (init_dict data N eta dt) "dt" = Some (VFloat (cfg_dt dt)).
Proof.
  unfold init_dict.
  destruct dt; cbn [set_opt fmap option_fmap option_map cfg_dt default]; attr; [done|].
  rewrite !lookup_attr_set_opt_ne by done. attr.
  unfold lookup_attr. by rewrite lookup_empty, Estimator_class_dt.
Qed.

Lemma init_dict_data c data N eta dt :
  lookup_attr c (init_dict data N eta dt) "data_returns"
  = Some (VSeries (dropna data)).
Proof.
  unfold init_dict. rewrite !lookup_attr_set_opt_ne by done. by attr.
Qed.

Lemma init_prefix_run c O A self D data N eta dt (k : Py unit) :
  (setattr self "data_returns" (VSeries (dropna data));;
   set_if_given self "N" (VInt <$> N);;
   set_if_given self "eta" (VFloat <$> eta);;
   set_if_given self "dt" (VFloat <$> dt);;
   k) (Build_World c (<[self:=D]> O) A)
  = k (Build_World c
         (<[self:=set_opt "dt" (VFloat <$> dt)
                    (set_opt "eta" (VFloat <$> eta)
                      (set_opt "N" (VInt <$> N)
                        (<["data_returns":=VSeries (dropna data)]> D)))]> O) A).
Proof.
  rewrite run_bind, setattr_at. cbv beta iota.
  rewrite run_bind, set_if_given_at. cbv beta iota.
  rewrite run_bind, set_if_given_at. cbv beta iota.
  rewrite run_bind, set_if_given_at. reflexivity.
Qed.

Lemma Estimator_run W data N eta dt :
  class_dict W = Estimator_class ->
  cfg_eta eta ≠ Fin 0 -> (1 <= cfg_N N < float_int_bound)%Z ->
  Estimator data N eta dt W
  = (Ok (fresh (dom (objects W))), constructed W data N eta dt).
Proof.
  destruct W as [c O A]. cbn [class_dict]. intros -> He HN.
  unfold Estimator. rewrite run_bind. unfold new_object at 1.
  cbn [objects class_dict arrays]. cbv beta iota.
  rewrite run_bind. unfold __init__. rewrite init_prefix_run.
  rewrite (make_fft_params_run _ _ _ _ _ (cfg_N N) (cfg_eta eta));
    [reflexivity | apply init_dict_eta | apply init_dict_N | done | done].
Qed.

(** ** Effects confined to one instance *)

Lemma frame_refl self W : frame self W W.
Proof. unfold frame. eauto. Qed.

Lemma frame_trans self W1 W2 W3 :
  frame self W1 W2 -> frame self W2 W3 -> frame self W1 W3.
Proof.
  intros (Hc1 & Ho1 & Ha1) (Hc2 & Ho2 & Ha2). split; [congruence|]. split.
  - intros o Ho. rewrite Ho2, Ho1 by done. done.
  - by etrans.
Qed.

Lemma frame_at self c O A D D' A' :
  A ⊆ A' ->
  frame self (Build_World c (<[self:=D]> O) A) (Build_World c (<[self:=D']> O) A').
Proof.
  intros HA. split; [done|]. split; [|done].
  intros o Ho. cbn. by rewrite !lookup_insert_ne.
Qed.

Lemma frame_new self c O A D :
  frame self (Build_World c O A) (Build_World c (<[self:=D]> O) A).
Proof.
  split; [done|]. split; [|done].
  intros o Ho. cbn. by rewrite lookup_insert_ne.
Qed.

Lemma fresh_dom_ne {V} (M : gmap loc V) l : is_Some (M !! l) -> fresh (dom M) ≠ l.
Proof.
  intros Hl <-. apply elem_of_dom in Hl. by apply (is_fresh (dom M)) in Hl.
Qed.

Lemma lookup_fresh {V} (M : gmap loc V) : M !! fresh (dom M) = None.
Proof. apply not_elem_of_dom, is_fresh. Qed.

Lemma alloc_subseteq {V} (A B : gmap loc V) a :
  A ⊆ B -> A ⊆ <[fresh (dom B) := a]> B.
Proof.
  intros H. etrans; [exact H|]. apply insert_subseteq, lookup_fresh.
Qed.

Ltac raised :=
  eexists; split;
  [ reflexivity
  | apply frame_at; repeat apply alloc_subseteq; reflexivity ].

Lemma setitem_at_raise c O A l a i e v :
  py_index (length a) i = Raise e ->
  setitem l i v (Build_World c O (<[l:=a]> A))
  = (Raise e, Build_World c O (<[l:=a]> A)).
Proof.
  intros H. unfold setitem.
  rewrite run_bind, (load_at _ _ _ _ a) by apply lookup_insert_eq.
  cbv beta iota. rewrite run_bind, run_lift, H. reflexivity.
Qed.

Lemma py_truediv_cases a b :
  (b = Fin 0 /\ py_truediv a b = Raise ZeroDivisionError)
  \/ (b ≠ Fin 0 /\ py_truediv a b = Ok (fdiv a b)).
Proof.
  destruct (decide (b = Fin 0)) as [->|Hb].
  - left. split; [done | apply py_truediv_zero].
  - right. split; [done | by apply py_truediv_ok].
Qed.

Lemma make_fft_params_raise c O A self D N eta :
  lookup_attr c D "eta" = Some (VFloat eta) ->
  lookup_attr c D "N" = Some (VInt N) ->
  eta = Fin 0 \/ (N <= 0)%Z \/ (float_int_bound <= N)%Z ->
  exists W', make_fft_params self (Build_World c (<[self:=D]> O) A)
             = (Raise (grid_error N eta), W')
             /\ frame self (Build_World c (<[self:=D]> O) A) W'.
Proof.
  intros He HN Hbad. unfold make_fft_params, grid_error.
  rewrite run_bind, (get_float_at _ _ _ _ _ _ _ He). cbv beta iota.
  rewrite run_bind, run_lift.
  destruct (py_truediv_cases np_pi eta) as [[-> ->]|[Hne ->]].
  { rewrite decide_True by done. raised. }
  rewrite decide_False by done. cbv beta iota.
  destruct Hbad as [?|HN0]; [done|].
  rewrite run_bind, setattr_at. cbv beta iota.
  rewrite run_bind, (get_float_at _ _ _ _ _ _ eta) by (by attr). cbv beta iota.
  rewrite run_bind, (get_int_at _ _ _ _ _ _ N) by (by attr). cbv beta iota.
  rewrite run_bind, run_lift.
  destruct (decide (float_int_bound <= Z.abs N)%Z) as [Hbig|Hbig].
  { rewrite py_float_raise by done. raised. }
  rewrite py_float_ok by lia. cbv beta iota.
  rewrite run_bind, run_lift.
  destruct (py_truediv_cases (fmul (Fin 2) np_pi) (fmul eta (of_Z N)))
    as [[Hz ->]|[Hnz ->]].
  { rewrite decide_True by done. raised. }
  rewrite decide_False by done. cbv beta iota.
  assert (N <= 0)%Z as HN0' by (pose proof float_int_bound_large; lia).
  rewrite run_bind, setattr_at. cbv beta iota.
  rewrite run_bind, (get_int_at _ _ _ _ _ _ N) by (by attr). cbv beta iota zeta.
  rewrite run_bind, (get_float_at _ _ _ _ _ _ eta) by (by attr). cbv beta iota.
  rewrite run_bind, new_array_at. cbv beta iota.
  rewrite run_bind, setattr_at. cbv beta iota.
  rewrite run_bind, (get_float_at _ _ _ _ _ _ (grid_b eta)) by (by attr). cbv beta iota.
  rewrite run_bind, (get_float_at _ _ _ _ _ _ (grid_lbda eta N)) by (by attr).
  cbv beta iota.
  rewrite run_bind, new_array_at. cbv beta iota.
  rewrite run_bind, setattr_at. cbv beta iota.
  rewrite run_bind, new_array_at. cbv beta iota.
  rewrite run_bind, (setitem_at_raise _ _ _ _ _ _ IndexError).
  { raised. }
  unfold np_ones_like. rewrite length_fmap, length_np_arange.
  replace (Z.to_nat N) with 0 by lia. apply py_index_empty.
Qed.

Lemma Estimator_raise W data N eta dt :
  class_dict W = Estimator_class ->
  cfg_eta eta = Fin 0 \/ (cfg_N N <= 0)%Z \/ (float_int_bound <= cfg_N N)%Z ->
  exists W', Estimator data N eta dt W = (Raise (grid_error (cfg_N N) (cfg_eta eta)), W')
             /\ frame (fresh (dom (objects W))) W W'.
Proof.
  destruct W as [c O A]. cbn [class_dict]. intros -> Hbad.
  unfold Estimator. rewrite run_bind. unfold new_object at 1.
  cbn [objects class_dict arrays]. cbv beta iota.
  rewrite run_bind. unfold __init__. rewrite init_prefix_run.
  destruct (make_fft_params_raise Estimator_class O A (fresh (dom O))
              (init_dict data N eta dt) (cfg_N N) (cfg_eta eta)) as (W' & HW' & HF);
    [apply init_dict_eta | apply init_dict_N | done |].
  unfold init_dict in HW'. rewrite HW'. exists W'. split; [done|].
  eapply frame_trans; [apply frame_new | exact HF].
Qed.

(** ** Reading an instance *)

Lemma world_norm W self D :
  objects W !! self = Some D ->
  W = Build_World (class_dict W) (<[self:=D]> (objects W)) (arrays W).
Proof. intros H. destruct W as [c O A]. cbn in *. by rewrite insert_id. Qed.

Lemma get_float_lookup W self D name a :
  objects W !! self = Some D ->
  lookup_attr (class_dict W) D name = Some (VFloat a) ->
  get_float self name W = (Ok a, W).
Proof.
  intros HD H. rewrite (world_norm W self D HD).
  by apply get_float_at.
Qed.

Lemma get_int_lookup W self D name n :
  objects W !! self = Some D ->
  lookup_attr (class_dict W) D name = Some (VInt n) ->
  get_int self name W = (Ok n, W).
Proof.
  intros HD H. rewrite (world_norm W self D HD).
  by apply get_int_at.
Qed.

Lemma get_array_lookup W self D name l a :
  objects W !! self = Some D ->
  lookup_attr (class_dict W) D name = Some (VArray l) ->
  arrays W !! l = Some a ->
  get_array self name W = (Ok a, W).
Proof.
  intros HD H Hl. rewrite (world_norm W self D HD).
  by eapply get_array_at.
Qed.

Lemma get_series_lookup W self D name s :
  objects W !! self = Some D ->
  lookup_attr (class_dict W) D name = Some (VSeries s) ->
  get_array self name W = (Ok s, W).
Proof.
  intros HD H. rewrite (world_norm W self D HD).
  by apply get_series_at.
Qed.

Section Getters.
Context {W : World} {self : loc} {g : grid} (Hg : estimator_at W self g).

Lemma get_data_returns : get_array self "data_returns" W = (Ok (g_data g), W).
Proof. destruct Hg as (D&lu&lx&lw&?&?&_). by eapply get_series_lookup. Qed.

Lemma get_N : get_int self "N" W = (Ok (g_N g), W).
Proof. destruct Hg as (D&lu&lx&lw&?&?&?&_). by eapply get_int_lookup. Qed.

Lemma get_eta : get_float self "eta" W = (Ok (g_eta g), W).
Proof. destruct Hg as (D&lu&lx&lw&?&?&?&?&_). by eapply get_float_lookup. Qed.

Lemma get_dt : get_float self "dt" W = (Ok (g_dt g), W).
Proof. destruct Hg as (D&lu&lx&lw&?&?&?&?&?&_). by eapply get_float_lookup. Qed.

Lemma get_b : get_float self "b" W = (Ok (g_b g), W).
Proof. destruct Hg as (D&lu&lx&lw&?&?&?&?&?&?&_). by eapply get_float_lookup. Qed.

Lemma get_lbda : get_float self "lbda" W = (Ok (g_lbda g), W).
Proof. destruct Hg as (D&lu&lx&lw&?&?&?&?&?&?&?&_). by eapply get_float_lookup. Qed.

Lemma get_u : get_array self "u" W = (Ok (g_u g), W).
Proof.
  destruct Hg as (D&lu&lx&lw&?&?&?&?&?&?&?&?&?&?&?&?&?).
  by eapply get_array_lookup.
Qed.

Lemma get_x : get_array self "x" W = (Ok (g_x g), W).
Proof.
  destruct Hg as (D&lu&lx&lw&?&?&?&?&?&?&?&?&?&?&?&?&?).
  by eapply get_array_lookup.
Qed.

Lemma get_w : get_array self "w" W = (Ok (g_w g), W).
Proof.
  destruct Hg as (D&lu&lx&lw&?&?&?&?&?&?&?&?&?&?&?&?&?).
  by eapply get_array_lookup.
Qed.

End Getters.

(** The getters determine the view. *)
Lemma estimator_at_inj W self g g' :
  estimator_at W self g -> estimator_at W self g' -> g = g'.
Proof.
  intros H H'.
  pose proof (get_data_returns H) as E1. rewrite (get_data_returns H') in E1.
  pose proof (get_N H) as E2. rewrite (get_N H') in E2.
  pose proof (get_eta H) as E3. rewrite (get_eta H') in E3.
  pose proof (get_dt H) as E4. rewrite (get_dt H') in E4.
  pose proof (get_b H) as E5. rewrite (get_b H') in E5.
  pose proof (get_lbda H) as E6. rewrite (get_lbda H') in E6.
  pose proof (get_u H) as E7. rewrite (get_u H') in E7.
  pose proof (get_x H) as E8. rewrite (get_x H') in E8.
  pose proof (get_w H) as E9. rewrite (get_w H') in E9.
  destruct g, g'. cbn in *. congruence.
Qed.

Lemma constructed_view W data N eta dt :
  class_dict W = Estimator_class ->
  estimator_at (constructed W data N eta dt) (fresh (dom (objects W)))
    (grid_of data N eta dt).
Proof.
  intros Hc. unfold estimator_at, constructed. cbn [objects class_dict arrays].
  rewrite Hc.
  eexists _, _, _, _. rewrite lookup_insert_eq.
  split; [reflexivity|]. unfold grid_dict, grid_of. cbn [g_data g_N g_eta g_dt g_b g_lbda g_u g_x g_w].
  repeat split; attr; try done.
  - apply init_dict_data.
  - apply init_dict_N.
  - apply init_dict_eta.
  - apply init_dict_dt.
  - eapply lookup_weaken; [apply lookup_insert_eq|].
    apply alloc_subseteq, alloc_subseteq. reflexivity.
  - eapply lookup_weaken; [apply lookup_insert_eq|].
    apply alloc_subseteq. reflexivity.
  - by rewrite lookup_insert_eq.
Qed.

(** * The grid (claim C2) *)

Lemma grid_b_fin (e : R) : e ≠ 0%R -> grid_b (Fin e) = Fin (PI / e).
Proof. intros He. unfold grid_b, np_pi, fdiv. by rewrite decide_False. Qed.

Lemma grid_lbda_fin (e : R) (N : Z) :
  e ≠ 0%R -> N ≠ 0%Z -> grid_lbda (Fin e) N = Fin (2 * PI / (e * IZR N)).
Proof.
  intros He HN. unfold grid_lbda, np_pi, of_Z, fdiv, fmul.
  rewrite decide_False; [done|].
  intros H. apply Rmult_integral in H as [H|H]; [done|].
  by apply eq_IZR_R0 in H.
Qed.

Lemma length_grid_u N eta : length (grid_u N eta) = Z.to_nat N.
Proof. unfold grid_u. by rewrite length_fmap, length_np_arange. Qed.

Lemma length_grid_x N eta : length (grid_x N eta) = Z.to_nat N.
Proof. unfold grid_x. by rewrite length_fmap, length_np_arange. Qed.

Lemma length_grid_w N : length (grid_w N) = Z.to_nat N.
Proof.
  unfold grid_w, np_ones_like.
  by rewrite !length_insert, length_fmap, length_np_arange.
Qed.

Lemma lookup_grid_u N (e : R) (j : nat) :
  j < Z.to_nat N -> grid_u N (Fin e) !! j = Some (Fin (INR j * e)).
Proof.
  intros Hj. unfold grid_u. rewrite list_lookup_fmap, lookup_np_arange by done.
  cbn. by rewrite INR_IZR_INZ.
Qed.

Lemma lookup_grid_x N (e : R) (j : nat) :
  e ≠ 0%R -> j < Z.to_nat N ->
  grid_x N (Fin e) !! j = Some (Fin (- (PI / e) + INR j * (2 * PI / (e * IZR N)))).
Proof.
  intros He Hj. unfold grid_x.
  rewrite list_lookup_fmap, lookup_np_arange by done.
  rewrite grid_b_fin, grid_lbda_fin by (done || lia).
  cbn. by rewrite INR_IZR_INZ.
Qed.

Lemma ones_replicate N : np_ones_like (np_arange N) = replicate (Z.to_nat N) (Fin 1).
Proof.
  unfold np_ones_like. rewrite <- (length_np_arange N). by apply const_fmap.
Qed.

Lemma lookup_grid_w N (j : nat) :
  j < Z.to_nat N ->
  grid_w N !! j
  = Some (if decide (j = 0 \/ j = Z.to_nat N - 1) then Fin 0.5 else Fin 1).
Proof.
  intros Hj. unfold grid_w. rewrite ones_replicate.
  destruct (decide (j = Z.to_nat N - 1)) as [->|H1].
  { rewrite list_lookup_insert_eq by (by rewrite length_insert, length_replicate).
    by rewrite decide_True by auto. }
  rewrite list_lookup_insert_ne by done.
  destruct (decide (j = 0)) as [->|H0].
  { rewrite list_lookup_insert_eq by (by rewrite length_replicate).
    by rewrite decide_True by auto. }
  rewrite list_lookup_insert_ne by done.
  rewrite decide_False by (intros [?|?]; done).
  by apply lookup_replicate_2.
Qed.

Lemma grid_w_shape N :
  (2 <= N)%Z ->
  grid_w N = Fin 0.5 :: replicate (Z.to_nat N - 2) (Fin 1) ++ [Fin 0.5].
Proof.
  intros HN. apply list_eq. intros j.
  destruct (decide (j < Z.to_nat N)) as [Hj|Hj].
  - rewrite lookup_grid_w by done.
    destruct j as [|j]; [by rewrite decide_True by auto|].
    rewrite (lookup_cons _ _ (S j)).
    destruct (decide (S j = Z.to_nat N - 1)) as [E|E].
    + rewrite decide_True by auto.
      rewrite lookup_app_r by (rewrite length_replicate; lia).
      rewrite length_replicate. by replace (j - (Z.to_nat N - 2)) with 0 by lia.
    + rewrite decide_False by (intros [?|?]; done).
      rewrite lookup_app_l by (rewrite length_replicate; lia).
      symmetry. apply lookup_replicate_2. lia.
  - rewrite !lookup_ge_None_2; [done| |].
    + cbn. rewrite length_app, length_replicate. cbn. lia.
    + rewrite length_grid_w. lia.
Qed.

Lemma halves_replicate_ones n : filter (fun a => a = Fin 0.5) (replicate n (Fin 1)) = [].
Proof.
  induction n as [|n IH]; [done|]. cbn [replicate].
  rewrite filter_cons_False; [done|]. intros [=H]. lra.
Qed.

Lemma halves_grid_w N : (2 <= N)%Z -> halves (grid_w N) = 2.
Proof.
  intros HN. unfold halves. rewrite grid_w_shape by done.
  rewrite filter_cons_True by done.
  rewrite filter_app, halves_replicate_ones.
  by rewrite filter_cons_True by done.
Qed.

Lemma grid_w_single : grid_w 1 = [Fin 0.5].
Proof. reflexivity. Qed.

Lemma lookup_grid_u_op N eta (j : nat) :
  j < Z.to_nat N -> grid_u N eta !! j = Some (fmul (of_Z (Z.of_nat j)) eta).
Proof.
  intros Hj. unfold grid_u. by rewrite list_lookup_fmap, lookup_np_arange.
Qed.

Lemma lookup_grid_x_op N eta (j : nat) :
  j < Z.to_nat N ->
  grid_x N eta !! j
  = Some (fadd (fneg (grid_b eta)) (fmul (of_Z (Z.of_nat j)) (grid_lbda eta N))).
Proof.
  intros Hj. unfold grid_x. by rewrite list_lookup_fmap, lookup_np_arange.
Qed.

Lemma grid_of_nodes data (N : Z) eta dt :
  grid_nodes N eta (grid_of data (Some N) (Some eta) dt).
Proof.
  unfold grid_nodes, grid_of.
  change (cfg_N (Some N)) with N. change (cfg_eta (Some eta)) with eta.
  cbn [g_b g_lbda g_u g_x g_w].
  rewrite length_grid_u, length_grid_x, length_grid_w.
  repeat split.
  - intros j Hj. by apply lookup_grid_u_op.
  - intros j Hj. by apply lookup_grid_x_op.
Qed.

Lemma fmul_zero_l (a : float) : isfinite a = true -> fmul (Fin 0) a = Fin 0.
Proof. destruct a as [r| |]; [|done|done]. intros _. cbn. f_equal. lra. Qed.

Lemma fadd_zero_r (a : float) : fadd a (Fin 0) = a.
Proof. destruct a as [r| |]; [|done|done]. cbn. f_equal. lra. Qed.

Ltac grid_size := cbn; pose proof float_int_bound_large; lia.

Lemma Estimator_cases W data N eta dt :
  class_dict W = Estimator_class ->
  ((1 <= cfg_N N < float_int_bound)%Z /\ cfg_eta eta ≠ Fin 0
   /\ Estimator data N eta dt W
      = (Ok (fresh (dom (objects W))), constructed W data N eta dt))
  \/ ((cfg_eta eta = Fin 0 \/ (cfg_N N <= 0)%Z \/ (float_int_bound <= cfg_N N)%Z)
      /\ exists W', Estimator data N eta dt W
                    = (Raise (grid_error (cfg_N N) (cfg_eta eta)), W')
                    /\ frame (fresh (dom (objects W))) W W').
Proof.
  intros Hc.
  destruct (decide (cfg_eta eta = Fin 0)) as [He|He].
  { right. split; [auto|]. apply Estimator_raise; auto. }
  destruct (decide (cfg_N N <= 0)%Z) as [HN|HN].
  { right. split; [auto|]. apply Estimator_raise; auto. }
  destruct (decide (float_int_bound <= cfg_N N)%Z) as [HB|HB].
  { right. split; [auto|]. apply Estimator_raise; auto. }
  left. split; [lia|]. split; [done|]. apply Estimator_run; [done|done|lia].
Qed.

(** A construction that returns leaves the instance of its configuration. *)
Lemma Estimator_success W W1 self data N eta dt :
  class_dict W = Estimator_class ->
  Estimator data N eta dt W = (Ok self, W1) ->
  (1 <= cfg_N N)%Z /\ cfg_eta eta ≠ Fin 0
  /\ estimator_at W1 self (grid_of data N eta dt).
Proof.
  intros Hc HE.
  destruct (Estimator_cases W data N eta dt Hc)
    as [(HN & He & HE')|(Hbad & W'' & HE' & _)]; rewrite HE' in HE; [|done].
  injection HE as <- <-. split; [lia|]. split; [done|]. by apply constructed_view.
Qed.

(** C2, as amended: for every valid configuration for which the
    constructor returns, the instance has a grid with, in float
    arithmetic, [b = pi/eta], [lbda = 2 pi/(eta N)], [u[j] = j eta] (so
    [u[0] = 0]), [x[j] = -b + j lbda] (so [x[0] = -b] when [lbda] is
    finite) and weights one half at the indices [0] and [N-1] and one
    elsewhere; the weights hold exactly two halves when [N >= 2], and the
    single weight is one half when [N = 1]. *)
Theorem grid_construction (W W' : World) (self : loc) (data : list (option float))
    (N : Z) (eta dt : R) :
  class_dict W = Estimator_class ->
  (1 <= N)%Z -> (0 < eta)%R -> (0 < dt)%R ->
  Estimator data (Some N) (Some (Fin eta)) (Some (Fin dt)) W = (Ok self, W') ->
  exists g,
    estimator_at W' self g
    /\ grid_nodes N (Fin eta) g
    /\ g_u g !! 0 = Some (Fin 0)
    /\ (isfinite (g_lbda g) = true -> g_x g !! 0 = Some (fneg (g_b g)))
    /\ grid_weights N g
    /\ ((2 <= N)%Z -> halves (g_w g) = 2)
    /\ (N = 1%Z -> g_w g = [Fin 0.5]).
Proof.
  intros Hc HN He Hd HE.
  destruct (Estimator_success W W' self data _ _ _ Hc HE) as (_ & _ & Hg).
  exists (grid_of data (Some N) (Some (Fin eta)) (Some (Fin dt))).
  split; [done|].
  split; [by apply grid_of_nodes|].
  cbn [grid_of g_u g_x g_b g_lbda g_w].
  change (cfg_N (Some N)) with N. change (cfg_eta (Some (Fin eta))) with (Fin eta).
  split.
  { rewrite lookup_grid_u_op by lia. by rewrite fmul_zero_l. }
  split.
  { intros Hfin. rewrite lookup_grid_x_op by lia.
    by rewrite fmul_zero_l, fadd_zero_r. }
  split; [intros j Hj; by apply lookup_grid_w|].
  split; [apply halves_grid_w|].
  intros ->. apply grid_w_single.
Qed.

Lemma initial_world_class : class_dict initial_world = Estimator_class.
Proof. reflexivity. Qed.

Lemma grid_construction_run :
  Estimator [Some (Fin 0.01)] (Some 4%Z) (Some (Fin 0.5)) (Some (Fin (1 / 252)))
    initial_world
  = (Ok (fresh (dom (objects initial_world))),
     constructed initial_world [Some (Fin 0.01)] (Some 4%Z) (Some (Fin 0.5))
       (Some (Fin (1 / 252)))).
Proof.
  apply Estimator_run; [reflexivity | | grid_size]. cbn. intros [=E]. lra.
Qed.

Lemma grid_construction_witness :
  exists g,
    estimator_at
      (constructed initial_world [Some (Fin 0.01)] (Some 4%Z) (Some (Fin 0.5))
         (Some (Fin (1 / 252))))
      (fresh (dom (objects initial_world))) g
    /\ grid_nodes 4 (Fin 0.5) g
    /\ g_u g !! 0 = Some (Fin 0)
    /\ (isfinite (g_lbda g) = true -> g_x g !! 0 = Some (fneg (g_b g)))
    /\ grid_weights 4 g
    /\ ((2 <= 4)%Z -> halves (g_w g) = 2)
    /\ (4%Z = 1%Z -> g_w g = [Fin 0.5]).
Proof.
  apply (grid_construction initial_world _ _ [Some (Fin 0.01)] 4 0.5 (1 / 252));
    [reflexivity | lia | lra | lra | exact grid_construction_run].
Defined.

(** The claim C2 as stated fails on the one-node grid: the two end
    indices coincide and the weights hold one half, not two. *)
Lemma grid_single_node_one_half :
  exists self W' g,
    Estimator [] (Some 1%Z) (Some (Fin 0.5)) (Some (Fin (1 / 252))) initial_world
      = (Ok self, W')
    /\ estimator_at W' self g
    /\ g_w g = [Fin 0.5]
    /\ halves (g_w g) ≠ 2.
Proof.
  exists (fresh (dom (objects initial_world))),
    (constructed initial_world [] (Some 1%Z) (Some (Fin 0.5)) (Some (Fin (1 / 252)))),
    (grid_of [] (Some 1%Z) (Some (Fin 0.5)) (Some (Fin (1 / 252)))).
  split.
  { apply Estimator_run; [done| |grid_size]. cbn. intros [=E]. lra. }
  split; [by apply constructed_view|].
  split; [apply grid_w_single|].
  cbn [grid_of g_w]. change (cfg_N (Some 1%Z)) with 1%Z. rewrite grid_w_single.
  unfold halves. rewrite filter_cons_True by done. cbn. lia.
Qed.

(** * Failing constructions (claim C7) *)

Lemma fneg_eq_zero e : fneg e = Fin 0 <-> e = Fin 0.
Proof.
  destruct e as [r| |]; cbn; [|done|done].
  split; intros [=H]; f_equal; lra.
Qed.

Lemma fmul_fneg_zero e n :
  fmul (fneg e) (of_Z n) = Fin 0 <-> fmul e (of_Z n) = Fin 0.
Proof.
  unfold of_Z. destruct e as [x|s|]; cbn; [| |done].
  - split; intros [=H]; f_equal; lra.
  - case_decide; done.
Qed.

Lemma grid_error_fneg N e : grid_error N (fneg e) = grid_error N e.
Proof.
  unfold grid_error.
  destruct (decide (e = Fin 0)) as [->|He].
  { rewrite decide_True; [done|]. by apply fneg_eq_zero. }
  rewrite decide_False by (by rewrite fneg_eq_zero).
  case_decide; [done|].
  destruct (decide (fmul e (of_Z N) = Fin 0)) as [Hz|Hz].
  { rewrite decide_True; [done|]. by apply fmul_fneg_zero. }
  by rewrite decide_False by (by rewrite fmul_fneg_zero).
Qed.

(** Whether a construction returns, and what it raises, does not depend
    on [dt] nor on the sign of [eta]. *)
Lemma Estimator_outcome W data N eta dt :
  class_dict W = Estimator_class ->
  (Estimator data N eta dt W).1
  = if decide ((1 <= cfg_N N < float_int_bound)%Z /\ cfg_eta eta ≠ Fin 0)
    then Ok (fresh (dom (objects W)))
    else Raise (grid_error (cfg_N N) (cfg_eta eta)).
Proof.
  intros Hc.
  destruct (Estimator_cases W data N eta dt Hc)
    as [(HN & He & ->)|(Hbad & W' & -> & _)]; cbn [fst].
  - by rewrite decide_True.
  - rewrite decide_False; [done|]. intros [? ?]. destruct Hbad as [?|[?|?]]; [done|lia|lia].
Qed.

(** C7, as amended: the constructor validates nothing and has no
    configuration error of its own.  A construction with [N <= 0] or
    [eta = 0] raises, and what is raised is the [ZeroDivisionError] of a
    division ([eta = 0], or [N = 0] with a finite [eta]), the [IndexError]
    of [w[0] = 0.5] on an empty array (a negative [N] of at most 64 bits)
    or the [OverflowError] of converting [N] to a float (an [N] of
    magnitude [2**1024 - 2**970] or more).  Neither [dt] nor the sign of
    [eta] is looked at: a construction with another [dt], or with [-eta]
    for [eta], returns or raises as this one does. *)
Theorem construction_failure (W : World) (data : list (option float))
    (N : option Z) (eta dt : option float) :
  class_dict W = Estimator_class ->
  (cfg_eta eta = Fin 0 ->
   (Estimator data N eta dt W).1 = Raise ZeroDivisionError)
  /\ (cfg_N N = 0%Z -> isfinite (cfg_eta eta) = true ->
      (Estimator data N eta dt W).1 = Raise ZeroDivisionError)
  /\ ((- 2 ^ 63 <= cfg_N N < 0)%Z -> cfg_eta eta ≠ Fin 0 ->
      (Estimator data N eta dt W).1 = Raise IndexError)
  /\ ((float_int_bound <= Z.abs (cfg_N N))%Z -> cfg_eta eta ≠ Fin 0 ->
      (Estimator data N eta dt W).1 = Raise OverflowError)
  /\ ((cfg_N N <= 0)%Z \/ cfg_eta eta = Fin 0 ->
      ~ is_Ok (Estimator data N eta dt W).1)
  /\ (forall dt', (Estimator data N eta dt' W).1 = (Estimator data N eta dt W).1)
  /\ (forall e, eta = Some e ->
        (Estimator data N (Some (fneg e)) dt W).1 = (Estimator data N eta dt W).1).
Proof.
  intros Hc. pose proof float_int_bound_large as Hl.
  rewrite (Estimator_outcome W data N eta dt Hc).
  split.
  { intros He. rewrite decide_False by (intros [_ ?]; done).
    unfold grid_error. by rewrite decide_True. }
  split.
  { intros HN Hf. rewrite decide_False by lia.
    unfold grid_error. case_decide; [done|]. rewrite HN.
    rewrite decide_False by (cbn; lia).
    rewrite decide_True; [done|].
    destruct (cfg_eta eta) as [e| |]; [|done|done]. cbn. f_equal. lra. }
  split.
  { intros HN He. rewrite decide_False by lia.
    unfold grid_error. rewrite decide_False by done.
    rewrite decide_False by lia.
    rewrite decide_False; [done|]. apply fmul_of_Z_ne_0; [done|lia]. }
  split.
  { intros HN He. rewrite decide_False by lia.
    unfold grid_error. rewrite decide_False by done. by rewrite decide_True. }
  split.
  { intros Hbad. rewrite decide_False; [by intros ?|].
    intros [? ?]. destruct Hbad; [lia|done]. }
  split.
  { intros dt'. by rewrite (Estimator_outcome W data N eta dt' Hc). }
  intros e ->. rewrite (Estimator_outcome W data N (Some (fneg e)) dt Hc).
  change (cfg_eta (Some (fneg e))) with (fneg e).
  change (cfg_eta (Some e)) with e.
  rewrite grid_error_fneg.
  destruct (decide (e = Fin 0)) as [->|He].
  - rewrite !decide_False; [done| |]; intros [_ Hne]; apply Hne; [done|].
    by apply fneg_eq_zero.
  - destruct (decide (1 <= cfg_N N < float_int_bound)%Z).
    + rewrite !decide_True; [done| |]; split; try done. by rewrite fneg_eq_zero.
    + rewrite !decide_False; [done| |]; intros [? _]; done.
Qed.

Lemma construction_failure_witness :
  (Estimator [] (Some 0%Z) None None initial_world).1 = Raise ZeroDivisionError
  /\ (forall dt', (Estimator [] (Some 0%Z) None dt' initial_world).1
                  = (Estimator [] (Some 0%Z) None None initial_world).1).
Proof.
  destruct (construction_failure initial_world [] (Some 0%Z) None None eq_refl)
    as (_ & H0 & _ & _ & _ & Hdt & _).
  split; [by apply H0 | exact Hdt].
Defined.

(** The claim C7 as stated fails: a negative [eta] and a [dt] that is
    zero or negative are accepted. *)
Lemma nonpositive_eta_dt_accepted :
  is_Ok (Estimator [] (Some 4%Z) (Some (Fin (-0.5))) (Some (Fin (-1))) initial_world).1
  /\ is_Ok (Estimator [] None None (Some (Fin 0)) initial_world).1.
Proof.
  split.
  - rewrite Estimator_run; [done | done | | grid_size]. cbn. intros [=E]. lra.
  - rewrite Estimator_run; [done | done | | grid_size]. cbn. intros [=E]. lra.
Qed.

(** * The stored returns (claim C8) *)

Lemma notna_present v : present v -> notna v = v.
Proof. destruct v as [[]|]; simpl; done. Qed.

Lemma notna_absent v : ~ present v -> notna v = None.
Proof. destruct v as [[]|]; simpl; try done; intros H; by destruct H. Qed.

Lemma dropna_filter data : Some <$> dropna data = filter present data.
Proof.
  unfold dropna. induction data as [|v data IH]; [done|].
  cbn [omap list_omap]. destruct (decide (present v)) as [Hv|Hv].
  - rewrite filter_cons_True by done. rewrite (notna_present v Hv).
    destruct v as [a|]; [|done]. cbn. by rewrite <- IH.
  - rewrite filter_cons_False by done. by rewrite (notna_absent v Hv).
Qed.

Lemma dropna_not_nan data : Forall (fun a => a ≠ NaN) (dropna data).
Proof.
  unfold dropna. induction data as [|v data IH]; [constructor|].
  cbn [omap list_omap]. destruct v as [[]|]; cbn; try done; by constructor.
Qed.

Lemma dropna_sublist data : sublist (Some <$> dropna data) data.
Proof. rewrite dropna_filter. apply sublist_filter. Qed.

(** C8, as amended: after a construction that returns, the stored
    returns are the entries of the input that are neither missing nor
    NaN, all of them and in their order; infinities are kept. *)
Theorem stored_returns (W W' : World) (self : loc) (data : list (option float))
    (N : option Z) (eta dt : option float) :
  class_dict W = Estimator_class ->
  Estimator data N eta dt W = (Ok self, W') ->
  exists g,
    estimator_at W' self g
    /\ get_array self "data_returns" W' = (Ok (g_data g), W')
    /\ Some <$> g_data g = filter present data
    /\ sublist (Some <$> g_data g) data
    /\ Forall (fun a => a ≠ NaN) (g_data g)
    /\ (forall s, Some (Inf s) ∈ data -> Inf s ∈ g_data g).
Proof.
  intros Hc HE.
  destruct (Estimator_cases W data N eta dt Hc)
    as [(HN & He & HE')|(Hbad & W'' & HE' & _)]; rewrite HE' in HE; [|done].
  injection HE as <- <-.
  pose proof (constructed_view W data N eta dt Hc) as Hg.
  exists (grid_of data N eta dt). split; [done|].
  split; [apply (get_data_returns Hg)|].
  cbn [grid_of g_data].
  split; [apply dropna_filter|]. split; [apply dropna_sublist|].
  split; [apply dropna_not_nan|].
  intros s Hs.
  assert (Some (Inf s) ∈ Some <$> dropna data) as Hin.
  { rewrite dropna_filter. apply list_elem_of_filter. by split. }
  apply list_elem_of_fmap in Hin as (a & [= <-] & Ha). done.
Qed.

Lemma stored_returns_witness :
  exists g,
    estimator_at
      (constructed initial_world [Some (Fin 0.01); None; Some NaN] (Some 4%Z) None None)
      (fresh (dom (objects initial_world))) g
    /\ get_array (fresh (dom (objects initial_world))) "data_returns"
         (constructed initial_world [Some (Fin 0.01); None; Some NaN] (Some 4%Z) None None)
       = (Ok (g_data g),
          constructed initial_world [Some (Fin 0.01); None; Some NaN] (Some 4%Z) None None)
    /\ Some <$> g_data g = filter present [Some (Fin 0.01); None; Some NaN]
    /\ sublist (Some <$> g_data g) [Some (Fin 0.01); None; Some NaN]
    /\ Forall (fun a => a ≠ NaN) (g_data g)
    /\ (forall s, Some (Inf s) ∈ [Some (Fin 0.01); None; Some NaN] -> Inf s ∈ g_data g).
Proof.
  apply (stored_returns initial_world _ _ [Some (Fin 0.01); None; Some NaN]
           (Some 4%Z) None None).
  - reflexivity.
  - apply Estimator_run; [reflexivity | | grid_size]; cbn; intros [=E]; lra.
Defined.

(** The claim C8 as stated fails: an infinite return is stored. *)
Lemma infinite_return_stored :
  exists self W' g,
    Estimator [Some (Fin 0.01); None; Some PInf; Some NaN] (Some 4%Z) None None
      initial_world = (Ok self, W')
    /\ estimator_at W' self g
    /\ g_data g = [Fin 0.01; PInf]
    /\ ~ Forall (fun a => isfinite a = true) (g_data g).
Proof.
  exists (fresh (dom (objects initial_world))),
    (constructed initial_world [Some (Fin 0.01); None; Some PInf; Some NaN]
       (Some 4%Z) None None),
    (grid_of [Some (Fin 0.01); None; Some PInf; Some NaN] (Some 4%Z) None None).
  split.
  { apply Estimator_run; [reflexivity | | grid_size]; cbn; intros [=E]; lra. }
  split; [by apply constructed_view|].
  split; [reflexivity|].
  cbn [grid_of g_data]. intros H.
  apply Forall_cons in H as [_ H]. by apply Forall_cons in H as [H _].
Qed.

(** * Model selection *)

Lemma select_Some model m : select model = Some m <-> lower model = model_name m.
Proof.
  unfold select. split.
  - repeat case_decide; intros [= <-]; done.
  - intros H. destruct m; cbn in H; rewrite H; repeat case_decide; done.
Qed.

Lemma select_None model :
  select model = None <-> forall m, lower model ≠ model_name m.
Proof.
  split.
  - intros H m Hm. apply select_Some in Hm. congruence.
  - intros H. destruct (select model) as [m|] eqn:E; [|done].
    apply select_Some in E. by apply H in E.
Qed.

Section Selection.
Context {L : NumLib}.

Lemma get_cfXh_select self model :
  get_cfXh self model = cf_code self <$> select model.
Proof. unfold get_cfXh, select. repeat case_decide; reflexivity. Qed.

Lemma get_init_estim_params_other self model W :
  select model ≠ Some T ->
  get_init_estim_params self model W
  = (Ok (from_option init_params [] (select model)), W).
Proof.
  unfold get_init_estim_params, select. intros H.
  repeat case_decide; try done.
Qed.

Lemma get_init_estim_params_t_at c O A self D model l u :
  select model = Some T ->
  lookup_attr c D "u" = Some (VArray l) -> A !! l = Some u ->
  get_init_estim_params self model (Build_World c (<[self:=D]> O) A)
  = (Ok (init_params T),
     Build_World c (<[self:=<["u":=VArray (fresh (dom A))]> D]> O)
       (<[fresh (dom A):=clamp_u u]> A)).
Proof.
  intros Hm Hu Hl. unfold get_init_estim_params, select in *.
  repeat case_decide; try done.
  rewrite run_bind, (get_array_at _ _ _ _ _ _ l u) by done. cbv beta iota.
  rewrite run_bind, new_array_at. cbv beta iota.
  rewrite run_bind, setattr_at. reflexivity.
Qed.

End Selection.

(** * Frame properties (claim C10) *)

Lemma estimator_at_frame self W W' o g :
  frame self W W' -> o ≠ self -> estimator_at W o g -> estimator_at W' o g.
Proof.
  intros (Hc & Ho & Ha) Hne (D & lu & lx & lw & HD & H).
  exists D, lu, lx, lw. rewrite Hc, (Ho o Hne). split; [done|].
  destruct H as (?&?&?&?&?&?&?&?&?&?&?&?).
  repeat split; try done; by eapply lookup_weaken.
Qed.

Lemma constructed_frame W data N eta dt :
  frame (fresh (dom (objects W))) W (constructed W data N eta dt).
Proof.
  destruct W as [c O A]. unfold constructed. cbn [class_dict objects arrays].
  split; [done|]. split.
  - intros o Ho. cbn. by rewrite lookup_insert_ne.
  - cbn. repeat apply alloc_subseteq. reflexivity.
Qed.

Lemma Estimator_frame W data N eta dt :
  class_dict W = Estimator_class ->
  frame (fresh (dom (objects W))) W (Estimator data N eta dt W).2.
Proof.
  intros Hc. destruct (Estimator_cases W data N eta dt Hc)
    as [(_ & _ & ->)|(_ & W' & -> & HF)]; cbn [snd]; [|done].
  apply constructed_frame.
Qed.

Lemma get_init_estim_params_frame self model W :
  frame self W (get_init_estim_params self model W).2.
Proof.
  destruct (decide (select model = Some T)) as [HT|HT].
  2: { rewrite get_init_estim_params_other by done. apply frame_refl. }
  unfold get_init_estim_params. unfold select in HT.
  repeat case_decide; try done.
  rewrite run_bind. unfold get_array. rewrite run_bind.
  destruct (objects W !! self) as [D|] eqn:HD.
  2: { unfold getattr. rewrite HD. apply frame_refl. }
  rewrite (world_norm W self D HD), getattr_at.
  destruct (lookup_attr (class_dict W) D "u") as [v|]; [|apply frame_at; done].
  destruct v as [n|a|l|s]; try (apply frame_at; done).
  - cbn [as_array]. unfold load. cbn [arrays].
    destruct (arrays W !! l) as [u|]; [|apply frame_at; done].
    rewrite run_bind, new_array_at. cbv beta iota.
    rewrite run_bind, setattr_at. cbv beta iota.
    apply frame_at, alloc_subseteq. reflexivity.
  - cbn [as_array]. rewrite run_ret.
    rewrite run_bind, new_array_at. cbv beta iota.
    rewrite run_bind, setattr_at. cbv beta iota.
    apply frame_at, alloc_subseteq. reflexivity.
Qed.

Lemma fresh_object_ne W o g :
  estimator_at W o g -> o ≠ fresh (dom (objects W)).
Proof.
  intros (D & _ & _ & _ & HD & _) ->. by rewrite lookup_fresh in HD.
Qed.

(** C10: constructing an [Estimator], with or without explicit [N],
    [eta], [dt], and selecting a model on an instance [self], the [t]
    clamp included, leave the class attributes [N = 2^16], [eta = 0.5],
    [dt = 1/252] as they are and leave every other instance with the
    attributes and the grid arrays it had. *)
Theorem instance_effects_local (W : World) :
  class_dict W = Estimator_class ->
  (forall data N eta dt,
      let W' := (Estimator data N eta dt W).2 in
      class_dict W' = Estimator_class
      /\ class_dict W' !! "N" = Some (VInt (2 ^ 16))
      /\ class_dict W' !! "eta" = Some (VFloat (Fin 0.5))
      /\ class_dict W' !! "dt" = Some (VFloat (Fin (1 / 252)))
      /\ (forall o, is_Some (objects W !! o) -> objects W' !! o = objects W !! o)
      /\ (forall o g, estimator_at W o g -> estimator_at W' o g))
  /\ (forall self model,
      let W' := (get_init_estim_params self model W).2 in
      class_dict W' = Estimator_class
      /\ class_dict W' !! "N" = Some (VInt (2 ^ 16))
      /\ class_dict W' !! "eta" = Some (VFloat (Fin 0.5))
      /\ class_dict W' !! "dt" = Some (VFloat (Fin (1 / 252)))
      /\ (forall o, o ≠ self -> objects W' !! o = objects W !! o)
      /\ (forall o g, o ≠ self -> estimator_at W o g -> estimator_at W' o g)).
Proof.
  intros Hc. split.
  - intros data N eta dt W'.
    pose proof (Estimator_frame W data N eta dt Hc) as HF. fold W' in HF.
    assert (class_dict W' = Estimator_class) as Hc'.
    { destruct HF as (-> & _). done. }
    split; [done|]. rewrite Hc'.
    split; [apply Estimator_class_N|]. split; [apply Estimator_class_eta|].
    split; [apply Estimator_class_dt|]. split.
    + intros o Ho. destruct HF as (_ & HO & _). apply HO.
      intros ->. rewrite lookup_fresh in Ho. by destruct Ho.
    + intros o g Hg. eapply estimator_at_frame; [exact HF | | done].
      by eapply fresh_object_ne.
  - intros self model W'.
    pose proof (get_init_estim_params_frame self model W) as HF. fold W' in HF.
    assert (class_dict W' = Estimator_class) as Hc'.
    { destruct HF as (-> & _). done. }
    split; [done|]. rewrite Hc'.
    split; [apply Estimator_class_N|]. split; [apply Estimator_class_eta|].
    split; [apply Estimator_class_dt|]. split.
    + intros o Ho. destruct HF as (_ & HO & _). by apply HO.
    + intros o g Ho Hg. by eapply estimator_at_frame.
Qed.

Lemma world1_run :
  Estimator [Some (Fin 0.01)] (Some 4%Z) None None initial_world = (Ok self1, world1).
Proof.
  apply Estimator_run; [reflexivity | | grid_size]; cbn; intros [=E]; lra.
Qed.

Lemma world1_view :
  estimator_at world1 self1 (grid_of [Some (Fin 0.01)] (Some 4%Z) None None).
Proof. by apply constructed_view. Qed.

Lemma instance_effects_local_witness :
  class_dict world1 = Estimator_class
  /\ (forall o g, estimator_at world1 o g ->
        estimator_at (Estimator [] None (Some (Fin 1)) None world1).2 o g)
  /\ (forall self o g, o ≠ self -> estimator_at world1 o g ->
        estimator_at (get_init_estim_params self "t" world1).2 o g).
Proof.
  split; [reflexivity|]. split.
  - intros o g.
    apply (proj1 (instance_effects_local world1 eq_refl) [] None (Some (Fin 1)) None).
  - intros self o g.
    apply (proj2 (instance_effects_local world1 eq_refl) self "t").
Defined.

(** * The clamp of the [t] model (claim C5) *)

(** Selecting the [t] model rebinds [self.u] to the clamped array. *)
Lemma select_t_clamps W self g model :
  estimator_at W self g -> select model = Some T ->
  exists W',
    get_init_estim_params self model W = (Ok (init_params T), W')
    /\ estimator_at W' self (with_u g (clamp_u (g_u g))).
Proof.
  intros (D & lu & lx & lw & HD & Hdata & HN & Heta & Hdt & Hb & Hl & Hu & Hx & Hw
          & Hau & Hax & Haw) Hm.
  rewrite (world_norm W self D HD).
  rewrite (get_init_estim_params_t_at _ _ _ _ _ _ lu (g_u g)) by done.
  eexists. split; [reflexivity|].
  exists (<["u":=VArray (fresh (dom (arrays W)))]> D), (fresh (dom (arrays W))), lx, lw.
  cbn [objects class_dict arrays with_u g_data g_N g_eta g_dt g_b g_lbda g_u g_x g_w].
  rewrite lookup_insert_eq. split; [done|].
  repeat split; attr; try done.
  - by rewrite lookup_insert_eq.
  - eapply lookup_weaken; [exact Hax | apply alloc_subseteq; reflexivity].
  - eapply lookup_weaken; [exact Haw | apply alloc_subseteq; reflexivity].
Qed.

(** Selecting any other string leaves the store as it is. *)
Lemma select_other_keeps W self model :
  select model ≠ Some T -> (get_init_estim_params self model W).2 = W.
Proof. intros H. by rewrite get_init_estim_params_other. Qed.

Lemma np_clip_min_below (lo a : R) :
  (a < lo)%R -> np_clip_min (Fin lo) (Fin a) = Fin lo.
Proof. intros H. unfold np_clip_min, np_maximum. cbn. by rewrite decide_True. Qed.

Lemma np_clip_min_above (lo a : R) :
  (lo <= a)%R -> np_clip_min (Fin lo) (Fin a) = Fin a.
Proof.
  intros H. unfold np_clip_min, np_maximum. cbn. rewrite decide_False; [done|].
  cbn. lra.
Qed.

Lemma grid_u_4 : grid_u 4 (Fin 0.5) = [Fin 0; Fin 0.5; Fin 1; Fin 1.5].
Proof.
  unfold grid_u, np_arange. change (Z.to_nat 4) with 4.
  cbn [seq fmap list_fmap]. unfold of_Z. cbn [fmul].
  cbv [Z.of_nat Pos.of_succ_nat Pos.succ].
  repeat f_equal; lra.
Qed.

Lemma clamp_u_4 : clamp_u [Fin 0; Fin 0.5; Fin 1; Fin 1.5] = [Fin 0.001; Fin 0.5; Fin 1; Fin 1.5].
Proof.
  unfold clamp_u. cbn [fmap list_fmap].
  rewrite np_clip_min_below by lra. rewrite !np_clip_min_above by lra. done.
Qed.

(** C5 on the code: on an instance built with [N = 4], selecting the [t]
    model and then the [GBM] model leaves the first frequency node of the
    instance at [0.001]; it was [0] after construction. *)
Theorem t_clamp_leaks :
  exists W1 W2,
    get_array self1 "u" world1 = (Ok [Fin 0; Fin 0.5; Fin 1; Fin 1.5], world1)
    /\ get_init_estim_params self1 "t" world1 = (Ok (init_params T), W1)
    /\ get_init_estim_params self1 "GBM" W1 = (Ok (init_params GBM), W2)
    /\ get_array self1 "u" W2 = (Ok [Fin 0.001; Fin 0.5; Fin 1; Fin 1.5], W2).
Proof.
  destruct (select_t_clamps world1 self1 _ "t" world1_view eq_refl) as (W1 & HW1 & Hg1).
  exists W1, W1. split.
  { rewrite (get_u world1_view). cbn [grid_of g_u].
    change (cfg_N (Some 4%Z)) with 4%Z. change (cfg_eta None) with (Fin 0.5).
    by rewrite grid_u_4. }
  split; [done|]. split; [by rewrite get_init_estim_params_other|].
  rewrite (get_u Hg1). cbn [with_u grid_of g_u].
  change (cfg_N (Some 4%Z)) with 4%Z. change (cfg_eta None) with (Fin 0.5).
  by rewrite grid_u_4, clamp_u_4.
Qed.

(** * The objective *)

(** One step of a computation that lifts a result: the result is
    inspected, and an exception ends both sides. *)
Ltac lift_step :=
  rewrite run_bind, run_lift; cbv beta iota;
  lazymatch goal with
  | |- match ?r with _ => _ end = _ =>
      destruct r; cbn [and_then]; [|reflexivity]
  end.

(** Goals on absolute values of reals, by cases on the signs. *)
Ltac solve_abs :=
  unfold Rabs in *;
  repeat match goal with
         | |- context [Rcase_abs ?x] => destruct (Rcase_abs x)
         | H : context [Rcase_abs ?x] |- _ => destruct (Rcase_abs x)
         end;
  try lra; try nra.

Section Objective.
Context {L : NumLib}.

Lemma at_point_run W self g m pd u :
  estimator_at W self g ->
  at_point (cf_code self m) pd u W = (charFn_at m (g_dt g) pd u, W).
Proof.
  intros Hg. destruct m; cbn [cf_code charFn_at at_point cf_gbm cf_vg cf_cgmy cf_t].
  - do 2 lift_step. rewrite run_bind, (get_dt Hg). cbv beta iota.
    lift_step. by rewrite run_ret.
  - do 5 lift_step. rewrite run_bind, (get_dt Hg). cbv beta iota.
    do 2 lift_step. by rewrite run_ret.
  - lift_step. rewrite run_bind, (get_dt Hg). cbv beta iota.
    do 7 lift_step. by rewrite run_ret.
  - do 2 lift_step. rewrite run_bind, (get_dt Hg). cbv beta iota.
    lift_step. by rewrite run_ret.
Qed.

Lemma on_array_run W self g m pd :
  estimator_at W self g ->
  on_array (cf_code self m) pd W = (charFn_on m (g_dt g) pd, W).
Proof.
  intros Hg. destruct m; cbn [cf_code charFn_on on_array cf_gbm cf_vg cf_cgmy cf_t].
  - do 2 lift_step. rewrite run_bind, (get_dt Hg). cbv beta iota.
    by rewrite run_ret.
  - do 4 lift_step. rewrite run_bind, (get_dt Hg). cbv beta iota.
    lift_step. by rewrite run_ret.
  - lift_step. rewrite run_bind, (get_dt Hg). cbv beta iota.
    do 5 lift_step. by rewrite run_ret.
  - do 2 lift_step. rewrite run_bind, (get_dt Hg). cbv beta iota.
    lift_step. by rewrite run_ret.
Qed.

Lemma call_point_run W self g pd model u :
  estimator_at W self g ->
  call_point (get_cfXh self model) pd u W = (point_result (g_dt g) pd model u, W).
Proof.
  intros Hg. rewrite get_cfXh_select. unfold point_result.
  destruct (select model) as [m|]; cbn [fmap option_fmap option_map call_point].
  - by apply at_point_run.
  - reflexivity.
Qed.

Lemma call_array_run W self g pd model :
  estimator_at W self g ->
  call_array (get_cfXh self model) pd W = (array_result (g_dt g) pd model, W).
Proof.
  intros Hg. rewrite get_cfXh_select. unfold array_result.
  destruct (select model) as [m|]; cbn [fmap option_fmap option_map call_array].
  - by apply on_array_run.
  - reflexivity.
Qed.

End Objective.

Section ObjectiveRun.
Context {L : NumLib}.

Lemma fdiv_minus_one dt : fdiv (Fin (-1)) dt = fneg (fdiv (Fin 1) dt).
Proof.
  destruct dt as [d|s|]; cbn; [|f_equal; lra|done].
  case_decide.
  - rewrite !decide_False by lra. cbn. unfold is_neg.
    rewrite bool_decide_eq_true_2 by lra. by rewrite bool_decide_eq_false_2 by lra.
  - cbn. f_equal. by field.
Qed.

Lemma opt_fun_omega_run W self g pd model :
  estimator_at W self g ->
  opt_fun_omega self pd (get_cfXh self model) W = (omega_result g pd model, W).
Proof.
  intros Hg. unfold opt_fun_omega, omega_result.
  rewrite run_bind, (get_dt Hg). cbv beta iota.
  rewrite run_bind, run_lift.
  destruct (py_truediv_cases (Fin (-1)) (g_dt g)) as [[_ ->]|[_ ->]]; [done|].
  cbv beta iota. cbn [and_then]. rewrite run_bind, (call_point_run _ _ g) by done.
  destruct (point_result (g_dt g) pd model (cneg Ci)) as [z|e]; [|done].
  cbv beta iota. cbn [and_then]. rewrite run_ret. unfold omega_spec.
  by rewrite fdiv_minus_one.
Qed.

Lemma opt_fun_cf_run W self g pd model omega :
  estimator_at W self g ->
  opt_fun_cf self pd (get_cfXh self model) (g_u g) omega W
  = (cf_result g pd model omega, W).
Proof.
  intros Hg. unfold opt_fun_cf, cf_result.
  rewrite run_bind, run_lift.
  destruct (getitem pd "mu") as [mu|e]; [|done]. cbv beta iota. cbn [and_then].
  rewrite run_bind, (get_dt Hg). cbv beta iota.
  rewrite run_bind, (get_dt Hg). cbv beta iota zeta.
  rewrite run_bind, (call_array_run _ _ g) by done.
  destruct (array_result (g_dt g) pd model) as [phi|e]; [|done].
  cbv beta iota. cbn [and_then]. by rewrite run_ret.
Qed.

Lemma opt_fun_curve_run W self g params model :
  estimator_at W self g ->
  opt_fun_curve self params model W = (curve_result g (valuesdict params) model, W).
Proof.
  intros Hg. unfold opt_fun_curve, curve_result, curve_of. cbv zeta.
  rewrite run_bind, (get_u Hg). cbv beta iota.
  rewrite run_bind, (opt_fun_omega_run _ _ g) by done.
  destruct (omega_result g (valuesdict params) model) as [omega|e]; [|done].
  cbv beta iota. cbn [and_then].
  rewrite run_bind, (opt_fun_cf_run _ _ g) by done.
  destruct (cf_result g (valuesdict params) model omega) as [cf|e]; [|done].
  cbv beta iota. cbn [and_then].
  rewrite run_bind, (get_b Hg). cbv beta iota.
  rewrite run_bind, (get_eta Hg). cbv beta iota.
  rewrite run_bind, (get_w Hg). cbv beta iota.
  rewrite run_bind, run_lift.
  destruct (broadcast2 _ _ _) as [t|e]; [|done]. cbv beta iota.
  by rewrite run_ret.
Qed.

Lemma opt_fun_densities_run W self g params model :
  estimator_at W self g ->
  opt_fun_densities self params model W
  = (densities_result g (valuesdict params) model, W).
Proof.
  intros Hg. unfold opt_fun_densities, densities_result.
  rewrite run_bind, (opt_fun_curve_run _ _ g) by done.
  destruct (curve_result g (valuesdict params) model) as [fp|e]; [|done].
  cbv beta iota. cbn [and_then].
  rewrite run_bind, (get_data_returns Hg). cbv beta iota.
  rewrite run_bind, (get_x Hg). cbv beta iota.
  by rewrite run_lift.
Qed.

Lemma opt_fun_run W self g params model :
  estimator_at W self g ->
  opt_fun self params model W = (objective g (valuesdict params) model, W).
Proof.
  intros Hg. unfold opt_fun, objective.
  rewrite run_bind, (opt_fun_densities_run _ _ g) by done.
  destruct (densities_result g (valuesdict params) model) as [ds|e]; [|done].
  cbv beta iota. cbn [and_then]. by rewrite run_ret.
Qed.

(** After the [t] model has been selected on an instance, the objective
    of any model is evaluated on the clamped nodes. *)
Lemma opt_fun_after_t W self g model_t params model :
  estimator_at W self g -> select model_t = Some T ->
  exists W',
    (get_init_estim_params self model_t W).2 = W'
    /\ opt_fun self params model W'
       = (objective (with_u g (clamp_u (g_u g))) (valuesdict params) model, W').
Proof.
  intros Hg Ht. destruct (select_t_clamps W self g model_t Hg Ht) as (W' & HW' & Hg').
  exists W'. split; [by rewrite HW'|]. by apply opt_fun_run.
Qed.

End ObjectiveRun.

#[local] Instance analytic_laws : NumLibLaws analytic_lib.
Proof.
  split.
  - intros l. cbn. unfold dft. by rewrite length_fmap, length_seq.
  - intros x y Hx Hy. cbn. rewrite decide_False by lra.
    case_decide; [eauto|]. rewrite decide_True by lra. eauto.
  - intros x v Hx. cbn. rewrite decide_False by lra.
    rewrite decide_True by done. intros [= <-]. eexists. split; [done|].
    solve_abs.
  - intros a b _ _. cbn. unfold analytic_py_cpow. by rewrite decide_True.
  - intros a b y Ha _ _. cbn. unfold analytic_py_cpow.
    case_decide; [eauto|]. rewrite decide_False; [eauto|].
    intros [[= E _] _]. subst. solve_abs.
Qed.

(** * The drift correction and the characteristic function (claim C1) *)

Section Drift.
Context {L : NumLib}.

(** C1: for a model name that is one of gbm, vg, cgmy, t up to case and
    every parameter set, [opt_fun] first computes the drift correction
    from the closure of the model at the single frequency [-i],
    [omega = -(1/dt) log(charFn(params, -i))], after the division
    [-1/dt]; then, with that [omega], the array
    [cf(u) = exp(i u (mu dt + omega dt)) charFn(params, u)] over the
    frequency nodes of the instance; the sampled curve and the value of
    [opt_fun] are functions of that array.  An exception of the division,
    of the closure or of the look-up of [mu] ends the evaluation, and
    nothing is written to the store. *)
Theorem drift_then_characteristic_function (W : World) (self : loc) (g : grid)
    (params : LmParameters) (model : string) (m : model_id) :
  estimator_at W self g ->
  lower model = model_name m ->
  let pd := valuesdict params in
  let dt := g_dt g in
  let omega_of :=
    let? c := py_truediv (Fin (-1)) dt in
    let? z := charFn_at m dt pd (cneg Ci) in
    Ok (omega_spec dt z) in
  let cf_of omega :=
    let? mu := getitem pd "mu" in
    let? phi := charFn_on m dt pd in
    Ok (cf_spec dt mu omega phi <$> g_u g) in
  get_cfXh self model = Some (cf_code self m)
  /\ (forall u, at_point (cf_code self m) pd u W = (charFn_at m dt pd u, W))
  /\ on_array (cf_code self m) pd W = (charFn_on m dt pd, W)
  /\ opt_fun_omega self pd (get_cfXh self model) W = (omega_of, W)
  /\ (forall omega,
        opt_fun_cf self pd (get_cfXh self model) (g_u g) omega W = (cf_of omega, W))
  /\ opt_fun_curve self params model W
     = (let? omega := omega_of in let? cf := cf_of omega in curve_of g cf, W)
  /\ opt_fun self params model W
     = (let? omega := omega_of in
        let? cf := cf_of omega in
        let? fp := curve_of g cf in
        let? ds := densities_of (g_data g) (g_x g) fp in
        Ok (neg_log_sum ds), W).
Proof.
  intros Hg Hm pd dt omega_of cf_of. apply select_Some in Hm.
  assert (omega_result g pd model = omega_of) as Ho.
  { unfold omega_result, point_result. by rewrite Hm. }
  assert (forall omega, cf_result g pd model omega = cf_of omega) as Hcf.
  { intros omega. unfold cf_result, array_result. by rewrite Hm. }
  split; [by rewrite get_cfXh_select, Hm|].
  split; [intros u; by apply at_point_run|].
  split; [by apply on_array_run|].
  split; [by rewrite (opt_fun_omega_run _ _ g), Ho|].
  split; [intros omega; by rewrite (opt_fun_cf_run _ _ g), Hcf|].
  split.
  - rewrite (opt_fun_curve_run _ _ g) by done. fold pd. unfold curve_result.
    rewrite Ho. destruct omega_of as [omega|e]; [|done]. cbn [and_then].
    by rewrite Hcf.
  - rewrite (opt_fun_run _ _ g) by done. fold pd.
    unfold objective, densities_result, curve_result.
    rewrite Ho. destruct omega_of as [omega|e]; [|done]. cbn [and_then].
    rewrite Hcf. destruct (cf_of omega) as [cf|e]; [|done]. cbn [and_then].
    by destruct (curve_of g cf).
Qed.

End Drift.

(** * The initial parameters *)

Ltac getitem_solve := cbn; repeat (case_decide; try done).

Lemma init_mu m : getitem (valuesdict (init_params m)) "mu" = Ok (Fin 0.01).
Proof. destruct m; getitem_solve. Qed.

Lemma init_gbm_sigma : getitem (valuesdict (init_params GBM)) "sigma" = Ok (Fin 0.10).
Proof. getitem_solve. Qed.

Lemma init_vg_theta : getitem (valuesdict (init_params VG)) "theta" = Ok (Fin 0.00).
Proof. getitem_solve. Qed.

Lemma init_vg_nu : getitem (valuesdict (init_params VG)) "nu" = Ok (Fin 0.01).
Proof. getitem_solve. Qed.

Lemma init_vg_sigma : getitem (valuesdict (init_params VG)) "sigma" = Ok (Fin 0.10).
Proof. getitem_solve. Qed.

Lemma init_cgmy_C : getitem (valuesdict (init_params CGMY)) "C" = Ok (Fin 0.01).
Proof. getitem_solve. Qed.

Lemma init_cgmy_G : getitem (valuesdict (init_params CGMY)) "G" = Ok (Fin 20).
Proof. getitem_solve. Qed.

Lemma init_cgmy_M : getitem (valuesdict (init_params CGMY)) "M" = Ok (Fin 20).
Proof. getitem_solve. Qed.

Lemma init_cgmy_Y : getitem (valuesdict (init_params CGMY)) "Y" = Ok (Fin 1.85).
Proof. getitem_solve. Qed.

Lemma init_t_nu : getitem (valuesdict (init_params T)) "nu" = Ok (Fin 100).
Proof. getitem_solve. Qed.

Lemma init_t_sigma : getitem (valuesdict (init_params T)) "sigma" = Ok (Fin 0.1).
Proof. getitem_solve. Qed.

Lemma cneg_Ci : cneg Ci = Cx (Fin (- 0)) (Fin (- 1)).
Proof. reflexivity. Qed.

Section PowerLaws.
Context {L : NumLib} {laws : NumLibLaws L}.

(** The square of a float of magnitude at most one, as Python computes
    it: it returns, between zero and one. *)
Lemma py_pow_square_returns (x : R) :
  (/ 1024 <= x <= 1)%R ->
  exists r, py_pow (Fin x) (Fin 2) = Ok (Fin r) /\ (0 <= r <= 1)%R.
Proof.
  intros Hx. destruct (py_pow_returns x 2) as [v Hv]; [lra | solve_abs |].
  destruct (py_pow_square x _ ltac:(solve_abs) Hv) as (r & [= <-] & Hr). eauto.
Qed.

Lemma py_pow_dyn_returns (x y : R) :
  (/ 1024 <= x <= 1024)%R -> (Rabs y <= 64)%R ->
  exists v, py_pow_dyn (Fin x) (Fin y) = Ok (SReal (Fin v)).
Proof.
  intros Hx Hy. unfold py_pow_dyn. rewrite decide_False by lra.
  destruct (py_pow_returns x y Hx Hy) as [v ->]. cbn [and_then]. eauto.
Qed.

Lemma py_truediv_fin (a b : R) :
  b <> 0%R -> py_truediv (Fin a) (Fin b) = Ok (Fin (a / b)).
Proof. intros Hb. cbn. rewrite !decide_False by done. reflexivity. Qed.

Lemma py_cpow_returns_fin (a b y : R) :
  (/ 1024 <= Rabs a <= 1024)%R -> (Rabs b <= 1024)%R -> (Rabs y <= 64)%R ->
  exists z, py_cpow (Cx (Fin a) (Fin b)) (Cx (Fin y) (Fin 0)) = Ok z.
Proof. apply py_cpow_returns. Qed.

End PowerLaws.

(** A power that the laws of the library make return: its arguments are
    computed, and their bounds proved. *)
Ltac pow_step :=
  match goal with
  | |- context [py_pow ?a ?b] =>
      let b' := eval cbv [fsub fadd fneg fmul] in b in
      change (py_pow a b) with (py_pow a b');
      match goal with
      | |- context [py_pow (Fin ?x) (Fin ?y)] =>
          let v := fresh "v" in
          destruct (py_pow_returns x y) as [v ->]; [lra | solve_abs | cbn [and_then]]
      end
  end.

Ltac cpow_step :=
  match goal with
  | |- context [py_cpow ?z ?w] =>
      let z' := eval cbv [cadd csub cmul RtoC Ci cneg re im fadd fsub fmul fneg] in z in
      let w' := eval cbv [RtoC] in w in
      change (py_cpow z w) with (py_cpow z' w');
      match goal with
      | |- context [py_cpow (Cx (Fin ?a) (Fin ?b)) (Cx (Fin ?y) (Fin 0))] =>
          let r := fresh "z" in
          destruct (py_cpow_returns_fin a b y) as [r ->];
          [solve_abs | solve_abs | solve_abs | cbn [and_then]]
      end
  end.

Section InitialValues.
Context {L : NumLib} {laws : NumLibLaws L}.

(** The closures return at the initial parameters: at [-i] for a time
    step of at most one half in magnitude, which bounds the exponent of
    the [vg] model. *)
Lemma init_point_returns m (d : R) :
  (Rabs d <= / 2)%R ->
  exists z, charFn_at m (Fin d) (valuesdict (init_params m)) (cneg Ci) = Ok z.
Proof.
  intros Hd. destruct m; unfold charFn_at.
  - rewrite init_gbm_sigma. cbn [and_then].
    destruct (py_pow_returns 0.10 2) as [v ->]; [lra | solve_abs |]. cbn [and_then].
    rewrite cneg_Ci, py_cpow_square by solve_abs. cbn [and_then]. eauto.
  - rewrite init_vg_theta, init_vg_nu, init_vg_sigma. cbn [and_then].
    destruct (py_pow_square_returns 0.10) as (r & -> & Hr); [lra|]. cbn [and_then].
    rewrite cneg_Ci, py_cpow_square by solve_abs. cbn [and_then].
    cbn [fneg]. rewrite py_truediv_fin by lra. cbn [and_then].
    cpow_step.
    cbn [and_then]. eauto.
  - rewrite init_cgmy_C, init_cgmy_Y, init_cgmy_M. cbn [and_then].
    rewrite cneg_Ci.
    cpow_step.
    cbn [and_then].
    destruct (py_pow_dyn_returns 20 1.85) as [v ->]; [lra | solve_abs |].
    cbn [and_then]. rewrite init_cgmy_G. cbn [and_then].
    cpow_step.
    cbn [and_then].
    destruct (py_pow_dyn_returns 20 1.85) as [v' ->]; [lra | solve_abs |].
    cbn [and_then]. eauto.
  - rewrite init_t_nu, init_t_sigma. cbn [and_then].
    cbn [fdiv]. rewrite decide_False by lra. pow_step. eauto.
Qed.

Lemma init_array_returns m (d : R) :
  (Rabs d <= / 2)%R ->
  exists phi, charFn_on m (Fin d) (valuesdict (init_params m)) = Ok phi.
Proof.
  intros Hd. destruct m; unfold charFn_on.
  - rewrite init_gbm_sigma. cbn [and_then].
    destruct (py_pow_returns 0.10 2) as [v ->]; [lra | solve_abs |]. cbn [and_then].
    eauto.
  - rewrite init_vg_theta, init_vg_nu, init_vg_sigma. cbn [and_then].
    destruct (py_pow_returns 0.10 2) as [v ->]; [lra | solve_abs |]. cbn [and_then].
    cbn [fneg]. rewrite py_truediv_fin by lra. cbn [and_then]. eauto.
  - rewrite init_cgmy_C, init_cgmy_Y, init_cgmy_M. cbn [and_then].
    destruct (py_pow_dyn_returns 20 1.85) as [v ->]; [lra | solve_abs |].
    cbn [and_then]. rewrite init_cgmy_G. cbn [and_then].
    destruct (py_pow_dyn_returns 20 1.85) as [v' ->]; [lra | solve_abs |].
    cbn [and_then]. eauto.
  - rewrite init_t_nu, init_t_sigma. cbn [and_then].
    cbn [fdiv]. rewrite decide_False by lra. pow_step. eauto.
Qed.

End InitialValues.

(** * The parameters a closure reads *)

Section ClosureReads.
Context {L : NumLib}.

Lemma charFn_at_ext m dt pd pd' u :
  (forall k, k ∈ read_keys m -> getitem pd k = getitem pd' k) ->
  charFn_at m dt pd u = charFn_at m dt pd' u.
Proof.
  intros H.
  destruct m; cbn [read_keys] in H; unfold charFn_at;
    repeat match goal with
           | |- context [getitem pd ?k] => rewrite (H k) by set_solver
           end; reflexivity.
Qed.

Lemma charFn_on_ext m dt pd pd' :
  (forall k, k ∈ read_keys m -> getitem pd k = getitem pd' k) ->
  charFn_on m dt pd = charFn_on m dt pd'.
Proof.
  intros H.
  destruct m; cbn [read_keys] in H; unfold charFn_on;
    repeat match goal with
           | |- context [getitem pd ?k] => rewrite (H k) by set_solver
           end; reflexivity.
Qed.

End ClosureReads.

(** * The drift correction on an example *)

Lemma world1_dt_value : g_dt (grid_of [Some (Fin 0.01)] (Some 4%Z) None None) = Fin (1 / 252).
Proof. reflexivity. Qed.

Lemma drift_then_characteristic_function_witness :
  exists z omega phi cf,
    charFn_at (L := analytic_lib) GBM (Fin (1 / 252)) (valuesdict (init_params GBM))
      (cneg Ci) = Ok z
    /\ opt_fun_omega self1 (valuesdict (init_params GBM)) (get_cfXh self1 "GBM") world1
       = (Ok omega, world1)
    /\ omega = omega_spec (Fin (1 / 252)) z
    /\ charFn_on GBM (Fin (1 / 252)) (valuesdict (init_params GBM)) = Ok phi
    /\ opt_fun_cf self1 (valuesdict (init_params GBM)) (get_cfXh self1 "GBM")
         (grid_u 4 (Fin 0.5)) omega world1 = (Ok cf, world1)
    /\ cf = cf_spec (Fin (1 / 252)) (Fin 0.01) omega phi <$> grid_u 4 (Fin 0.5).
Proof.
  destruct (init_point_returns (laws := analytic_laws) GBM (1 / 252)) as [z Hz];
    [solve_abs|].
  destruct (init_array_returns (laws := analytic_laws) GBM (1 / 252)) as [phi Hphi];
    [solve_abs|].
  destruct (drift_then_characteristic_function (L := analytic_lib) world1 self1 _
              (init_params GBM) "GBM" GBM world1_view eq_refl)
    as (_ & _ & _ & H4 & H5 & _).
  cbv zeta in H4, H5. rewrite world1_dt_value in H4, H5.
  rewrite Hz in H4. rewrite py_truediv_fin in H4 by lra. cbn [and_then] in H4.
  exists z, (omega_spec (Fin (1 / 252)) z), phi,
    (cf_spec (Fin (1 / 252)) (Fin 0.01) (omega_spec (Fin (1 / 252)) z) phi
       <$> grid_u 4 (Fin 0.5)).
  split; [exact Hz|]. split; [exact H4|]. split; [reflexivity|].
  split; [exact Hphi|]. split; [|reflexivity].
  specialize (H5 (omega_spec (Fin (1 / 252)) z)).
  rewrite Hphi, init_mu in H5. exact H5.
Defined.

(** * Unknown model names (claim C6) *)

Section Unknown.
Context {L : NumLib}.

Lemma objective_unknown g pd model :
  select model = None ->
  objective g pd model
  = Raise (if decide (g_dt g = Fin 0) then ZeroDivisionError else TypeError).
Proof.
  intros Hm. unfold objective, densities_result, curve_result, omega_result.
  destruct (py_truediv_cases (Fin (-1)) (g_dt g)) as [[Hz ->]|[Hnz ->]].
  - by rewrite decide_True.
  - rewrite decide_False by done. cbn [and_then]. unfold point_result. by rewrite Hm.
Qed.

(** C6, as amended: for a model name that matches none of gbm, vg, cgmy,
    t up to case, selection raises nothing: [get_cfXh] returns [None],
    [get_init_estim_params] returns an empty parameter set and leaves the
    store as it is, and [estimate] hands the objective and the empty
    parameter set to the optimiser.  The failure comes when the objective
    is evaluated: [opt_fun] raises [TypeError] on calling [None] (or
    [ZeroDivisionError] first, when [dt] is zero). *)
Theorem unknown_model_not_rejected (W : World) (self : loc) (model : string)
    (params : LmParameters) :
  (forall m, lower model ≠ model_name m) ->
  get_cfXh self model = None
  /\ get_init_estim_params self model W = (Ok [], W)
  /\ (forall (MinimizerResult : Type)
            (minimize : (LmParameters -> Py float) -> LmParameters -> string
                        -> Py MinimizerResult) (method : string),
        estimate minimize self model method W
        = minimize (fun p => opt_fun self p model) [] method W)
  /\ (forall g, estimator_at W self g ->
        opt_fun self params model W
        = (Raise (if decide (g_dt g = Fin 0) then ZeroDivisionError else TypeError), W)).
Proof.
  intros Hm. apply select_None in Hm.
  assert (get_init_estim_params self model W = (Ok [], W)) as Hp.
  { rewrite get_init_estim_params_other by (by rewrite Hm). by rewrite Hm. }
  split; [by rewrite get_cfXh_select, Hm|]. split; [done|]. split.
  - intros R minimize method. unfold estimate. by rewrite run_bind, Hp.
  - intros g Hg. rewrite (opt_fun_run _ _ g) by done. by rewrite objective_unknown.
Qed.

End Unknown.

Lemma unknown_lower_ne m : lower "unknown" ≠ model_name m.
Proof. destruct m; cbn; done. Qed.

Lemma unknown_model_not_rejected_witness :
  get_cfXh (L := analytic_lib) self1 "unknown" = None
  /\ get_init_estim_params self1 "unknown" world1 = (Ok [], world1)
  /\ opt_fun (L := analytic_lib) self1 [] "unknown" world1 = (Raise TypeError, world1).
Proof.
  destruct (unknown_model_not_rejected (L := analytic_lib) world1 self1 "unknown" []
              unknown_lower_ne) as (H1 & H2 & _ & H4).
  split; [exact H1|]. split; [exact H2|].
  rewrite (H4 _ world1_view). rewrite decide_False; [done|].
  cbn. intros [=E]. lra.
Defined.

(** The claim C6 as stated fails: selecting the model "unknown" returns
    normally, with no characteristic function and no parameters. *)
Lemma unknown_model_selected :
  get_cfXh (L := analytic_lib) self1 "unknown" = None
  /\ (get_init_estim_params self1 "unknown" world1).1 = Ok []
  /\ is_Ok (get_init_estim_params self1 "unknown" world1).1.
Proof.
  assert (select "unknown" = None) as Hm by reflexivity.
  split; [by rewrite get_cfXh_select, Hm|].
  rewrite get_init_estim_params_other by (by rewrite Hm). by rewrite Hm.
Qed.

(** * The floor and the sum of logarithms *)

Lemma density_floor_pos : (0 < 0.000000001)%R.
Proof. lra. Qed.

Lemma np_clip_min_nan lo : np_clip_min lo NaN = NaN.
Proof. reflexivity. Qed.

Lemma np_clip_min_is_nan v : np_clip_min density_floor v = NaN <-> v = NaN.
Proof.
  split; [|intros ->; done].
  unfold np_clip_min, np_maximum, density_floor.
  destruct v as [r|s|]; cbn; [| |done]; case_decide; done.
Qed.

(** The clipped value of anything but NaN is at least the floor. *)
Lemma np_clip_min_floor v :
  v ≠ NaN -> fle density_floor (np_clip_min density_floor v).
Proof.
  intros Hv. unfold np_clip_min, np_maximum, density_floor.
  destruct v as [r|s|]; cbn; [| |done].
  - case_decide as H; cbn in *; lra.
  - case_decide as H; cbn in *; [lra|]. by destruct s.
Qed.

(** What the logarithm of a clipped value is. *)
Lemma log_clip_cases v :
  match v with
  | NaN => np_log_real (np_clip_min density_floor v) = NaN
  | Inf false => np_log_real (np_clip_min density_floor v) = PInf
  | _ => exists r, np_log_real (np_clip_min density_floor v) = Fin r
  end.
Proof.
  pose proof density_floor_pos as Hpos.
  unfold np_clip_min, np_maximum, density_floor.
  destruct v as [r|[]|]; cbn; try done.
  - case_decide as H; cbn in *.
    + rewrite decide_True by done. eauto.
    + rewrite decide_True by lra. eauto.
  - rewrite decide_True by done. cbn. rewrite decide_True by done. eauto.
Qed.

Lemma np_sum_nan l : NaN ∈ l -> np_sum l = NaN.
Proof.
  unfold np_sum. induction l as [|a l IH]; [by intros ?%elem_of_nil|].
  intros [<-|H]%elem_of_cons; cbn; [done|].
  rewrite IH by done. by destruct a.
Qed.

Lemma np_sum_finite l :
  Forall (fun a => exists r, a = Fin r) l -> exists r, np_sum l = Fin r.
Proof.
  unfold np_sum. induction 1 as [|a l [r ->] _ [r' IH]]; cbn; [eauto|].
  rewrite IH. cbn. eauto.
Qed.

Lemma np_sum_pinf l :
  Forall (fun a => (exists r, a = Fin r) \/ a = PInf) l -> PInf ∈ l -> np_sum l = PInf.
Proof.
  unfold np_sum. induction 1 as [|a l Ha Hl IH]; [by intros ?%elem_of_nil|].
  intros Hin. cbn.
  destruct (decide (PInf ∈ l)) as [Hl'|Hl'].
  - rewrite IH by done. destruct Ha as [[r ->]| ->]; done.
  - apply elem_of_cons in Hin as [<-|?]; [|done].
    destruct (np_sum_finite l) as [r Hr].
    { apply Forall_forall. intros b Hb.
      rewrite Forall_forall in Hl. destruct (Hl b Hb) as [?| ->]; done. }
    unfold np_sum in Hr. by rewrite Hr.
Qed.

Lemma neg_log_sum_nan vs :
  NaN ∈ vs -> neg_log_sum (np_clip_min density_floor <$> vs) = NaN.
Proof.
  intros H. unfold neg_log_sum. rewrite np_sum_nan; [done|].
  rewrite <- list_fmap_compose.
  apply list_elem_of_fmap. exists NaN. split; [done|exact H].
Qed.

Lemma neg_log_sum_finite_iff vs :
  (exists r, neg_log_sum (np_clip_min density_floor <$> vs) = Fin r)
  <-> Forall (fun v => v ≠ NaN /\ v ≠ PInf) vs.
Proof.
  unfold neg_log_sum. rewrite <- list_fmap_compose. split.
  - intros [r Hr]. apply Forall_forall. intros v Hv.
    destruct (decide (NaN ∈ vs)) as [Hn|Hn].
    { rewrite np_sum_nan in Hr; [done|].
      apply list_elem_of_fmap. exists NaN. split; [done|exact Hn]. }
    split; [by intros ->|]. intros ->.
    rewrite np_sum_pinf in Hr; [done| |].
    + apply Forall_forall. intros a (v & -> & Hv')%list_elem_of_fmap. cbn.
      pose proof (log_clip_cases v) as Hc. destruct v as [r'|[]|]; auto; done.
    + apply list_elem_of_fmap. exists PInf. split; [|exact Hv].
      symmetry. exact (log_clip_cases PInf).
  - intros H. destruct (np_sum_finite ((np_log_real ∘ np_clip_min density_floor) <$> vs))
      as [r Hr].
    + apply Forall_forall. intros a (v & -> & Hv)%list_elem_of_fmap. cbn.
      rewrite Forall_forall in H. destruct (H v Hv) as [H1 H2].
      pose proof (log_clip_cases v) as Hc. destruct v as [r'|[]|]; done.
    + rewrite Hr. cbn. eauto.
Qed.

(** * Interpolation *)

Lemma item_lookup (arr : list float) (i : nat) a :
  arr !! i = Some a -> item arr (Z.of_nat i) = a.
Proof. intros H. unfold item. by rewrite Nat2Z.id, H. Qed.

Lemma item_nan (arr : list float) i :
  Forall (fun y => y = NaN) arr -> item arr i = NaN.
Proof.
  intros H. unfold item. destruct (arr !! Z.to_nat i) as [a|] eqn:E; [|done].
  cbn. rewrite Forall_forall in H. apply H. by eapply list_elem_of_lookup_2.
Qed.

(** The bisection stops before its fuel, the number of nodes, runs out:
    more fuel gives the same place. *)
Lemma bisect_fuel key arr imin imax (fuel fuel' : nat) :
  (imax - imin <= Z.of_nat fuel)%Z -> fuel <= fuel' ->
  bisect key arr imin imax fuel = bisect key arr imin imax fuel'.
Proof.
  revert imin imax fuel'. induction fuel as [|fuel IH]; intros imin imax fuel' H Hle.
  - destruct fuel' as [|fuel']; [done|]. cbn. by rewrite decide_False by lia.
  - destruct fuel' as [|fuel']; [lia|]. cbn [bisect].
    case_decide as Hlt; [|done]. cbv zeta.
    assert (Z.shiftr (imax - imin) 1 = (imax - imin) / 2)%Z as ->
      by (by rewrite Z.shiftr_div_pow2).
    assert (0 <= (imax - imin) / 2 < imax - imin)%Z as Hhalf.
    { split; [apply Z.div_pos; lia | apply Z.div_lt; lia]. }
    assert (imax - imin <= 2 * ((imax - imin) / 2) + 1)%Z as Hup.
    { pose proof (Z.div_mod (imax - imin) 2 ltac:(lia)) as Hdm.
      pose proof (Z.mod_pos_bound (imax - imin) 2 ltac:(lia)). lia. }
    case_decide; apply IH; lia.
Qed.

Lemma length_interp_loop xp fp j xs : length (interp_loop xp fp j xs) = length xs.
Proof.
  revert j. induction xs as [|x xs IH]; intros j; [done|].
  cbn [interp_loop]. destruct (isnan x); cbn [length]; by rewrite IH.
Qed.

(** On nodes that are not empty and as many values, the interpolation
    returns one value per query. *)
Lemma np_interp_ok x xp fp :
  length fp = length xp -> 0 < length xp ->
  exists vs, np_interp x xp fp = Ok vs /\ length vs = length x.
Proof.
  intros Hlen Hpos. unfold np_interp.
  rewrite decide_False by lia. rewrite decide_True by done.
  case_decide; eexists; (split; [reflexivity|]).
  - by rewrite length_fmap.
  - apply length_interp_loop.
Qed.

Lemma np_interp_length x xp fp vs : np_interp x xp fp = Ok vs -> length vs = length x.
Proof.
  unfold np_interp. repeat case_decide; intros [= <-].
  - by rewrite length_fmap.
  - apply length_interp_loop.
Qed.

Lemma interp_linear_nan x x0 x1 : interp_linear x x0 NaN x1 NaN = NaN.
Proof. unfold interp_linear. cbn. by destruct (bool_decide _). Qed.

Lemma isnan_true x : isnan x = true -> x = NaN.
Proof. by destruct x. Qed.

Lemma interp_at_nan xp fp j x :
  Forall (fun y => y = NaN) fp -> interp_at xp fp j x = NaN.
Proof.
  intros H. unfold interp_at. cbv zeta.
  repeat case_decide; try by apply item_nan.
  rewrite !(item_nan fp) by done. apply interp_linear_nan.
Qed.

Lemma interp_loop_nan xp fp j xs :
  Forall (fun y => y = NaN) fp ->
  interp_loop xp fp j xs = replicate (length xs) NaN.
Proof.
  intros H. revert j. induction xs as [|x xs IH]; intros j; [done|].
  cbn [interp_loop length replicate]. destruct (isnan x) eqn:E.
  - by rewrite (isnan_true x E), IH.
  - by rewrite interp_at_nan, IH.
Qed.

(** Interpolating a curve that is NaN at every node gives NaN at every
    query. *)
Lemma np_interp_nan x xp fp :
  length fp = length xp -> 0 < length xp -> Forall (fun y => y = NaN) fp ->
  np_interp x xp fp = Ok (replicate (length x) NaN).
Proof.
  intros Hlen Hpos H. unfold np_interp.
  rewrite decide_False by lia. rewrite decide_True by done.
  case_decide; f_equal; [|by apply interp_loop_nan].
  rewrite (item_nan fp) by done.
  induction x as [|a x IH]; [done|]. cbn. by rewrite <- IH.
Qed.

(** * The densities and the objective (claims C3 and C4) *)

Lemma grid_of_well_formed data N eta dt :
  (1 <= cfg_N N)%Z -> well_formed (grid_of data N eta dt).
Proof.
  intros HN. unfold well_formed, grid_of. cbn [g_u g_x g_w].
  rewrite length_grid_u, length_grid_x, length_grid_w. lia.
Qed.

Lemma with_u_clamp_well_formed g :
  well_formed g -> well_formed (with_u g (clamp_u (g_u g))).
Proof.
  unfold well_formed, with_u, clamp_u. cbn [g_u g_x g_w].
  by rewrite length_fmap.
Qed.

(** Every instance the constructor returns is in good shape, and stays so
    when the [t] model is selected on it. *)
Lemma Estimator_well_formed W W' self data N eta dt :
  class_dict W = Estimator_class ->
  Estimator data N eta dt W = (Ok self, W') ->
  estimator_at W' self (grid_of data N eta dt)
  /\ well_formed (grid_of data N eta dt).
Proof.
  intros Hc HE.
  destruct (Estimator_cases W data N eta dt Hc)
    as [(HN & He & HE')|(Hbad & W'' & HE' & _)]; rewrite HE' in HE; [|done].
  injection HE as <- <-.
  split; [by apply constructed_view | apply grid_of_well_formed; lia].
Qed.

Lemma select_t_well_formed W self g model :
  estimator_at W self g -> well_formed g -> select model = Some T ->
  exists g', estimator_at (get_init_estim_params self model W).2 self g'
             /\ well_formed g'.
Proof.
  intros Hg Hwf Ht. destruct (select_t_clamps W self g model Hg Ht) as (W' & -> & Hg').
  eexists. split; [exact Hg'|]. by apply with_u_clamp_well_formed.
Qed.

Section Densities.
Context {L : NumLib} {laws : NumLibLaws L}.

Lemma curve_of_ok g cf :
  well_formed g -> length cf = length (g_u g) ->
  exists fp, curve_of g cf = Ok fp /\ length fp = length (g_x g).
Proof.
  intros (Hw & Hx & _) Hcf. unfold curve_of, broadcast2.
  rewrite decide_True.
  - eexists. split; [reflexivity|].
    rewrite !length_fmap, fft_length, length_zip_with, !length_fmap,
      length_zip_with, !length_fmap. lia.
  - rewrite !length_fmap, length_zip_with, !length_fmap. lia.
Qed.

(** Once [omega] and the values of the closure on the nodes exist, and
    [mu] is there, a grid in good shape gives the densities. *)
Lemma densities_from_values g pd model omega mu phi :
  well_formed g ->
  omega_result g pd model = Ok omega ->
  getitem pd "mu" = Ok mu ->
  array_result (g_dt g) pd model = Ok phi ->
  exists fp vs,
    curve_result g pd model = Ok fp
    /\ length fp = length (g_x g)
    /\ np_interp (g_data g) (g_x g) fp = Ok vs
    /\ densities_result g pd model = Ok (np_clip_min density_floor <$> vs).
Proof.
  intros Hwf Ho Hmu Hphi.
  destruct (curve_of_ok g (cf_spec (g_dt g) mu omega phi <$> g_u g) Hwf)
    as (fp & Hfp & Hlen); [by rewrite length_fmap|].
  assert (curve_result g pd model = Ok fp) as Hcurve.
  { unfold curve_result, cf_result. rewrite Ho. cbn [and_then].
    rewrite Hmu. cbn [and_then]. rewrite Hphi. by cbn [and_then]. }
  destruct (np_interp_ok (g_data g) (g_x g) fp) as (vs & Hvs & _);
    [done | apply Hwf |].
  exists fp, vs. split; [done|]. split; [done|]. split; [done|].
  unfold densities_result, densities_of. rewrite Hcurve. cbn [and_then].
  by rewrite Hvs.
Qed.

(** With the initial values of the parameters the closure reads and a
    time step of at most one half in magnitude, other than zero, the
    drift correction exists; at the initial parameters so do the
    densities and the objective. *)
Lemma omega_returns g pd model m (d : R) :
  g_dt g = Fin d -> (0 < Rabs d <= / 2)%R -> select model = Some m ->
  (forall k, k ∈ read_keys m -> getitem pd k = getitem (valuesdict (init_params m)) k) ->
  exists omega, omega_result g pd model = Ok omega.
Proof.
  intros Hdt Hd Hm Hpd. unfold omega_result, point_result. rewrite Hdt, Hm.
  rewrite py_truediv_fin by solve_abs. cbn [and_then].
  rewrite (charFn_at_ext m _ pd (valuesdict (init_params m))) by done.
  destruct (init_point_returns m d) as [z ->]; [lra|]. cbn [and_then]. eauto.
Qed.

Lemma densities_returns g model m (d : R) :
  well_formed g -> g_dt g = Fin d -> (0 < Rabs d <= / 2)%R -> select model = Some m ->
  exists ds, densities_result g (valuesdict (init_params m)) model = Ok ds.
Proof.
  intros Hwf Hdt Hd Hm.
  destruct (omega_returns g (valuesdict (init_params m)) model m d) as [omega Ho];
    try done.
  destruct (init_array_returns m d) as [phi Hphi]; [lra|].
  destruct (densities_from_values g (valuesdict (init_params m)) model omega
              (Fin 0.01) phi) as (fp & vs & _ & _ & _ & Hds); try done.
  - apply init_mu.
  - unfold array_result. by rewrite Hm, Hdt.
  - eauto.
Qed.

Lemma objective_returns g model m (d : R) :
  well_formed g -> g_dt g = Fin d -> (0 < Rabs d <= / 2)%R -> select model = Some m ->
  exists v, objective g (valuesdict (init_params m)) model = Ok v.
Proof.
  intros Hwf Hdt Hd Hm.
  destruct (densities_returns g model m d) as [ds Hds]; try done.
  unfold objective. rewrite Hds. cbn [and_then]. eauto.
Qed.

End Densities.

Section DensitiesValue.
Context {L : NumLib}.

(** What the densities are when the evaluation returns them. *)
Lemma densities_result_Ok g pd model ds :
  densities_result g pd model = Ok ds ->
  exists fp vs,
    curve_result g pd model = Ok fp
    /\ np_interp (g_data g) (g_x g) fp = Ok vs
    /\ ds = np_clip_min density_floor <$> vs.
Proof.
  unfold densities_result, densities_of.
  destruct (curve_result g pd model) as [fp|e]; [|done]. cbn [and_then].
  destruct (np_interp (g_data g) (g_x g) fp) as [vs|e] eqn:Hvs; [|done].
  intros [= <-]. by exists fp, vs.
Qed.

(** C3, as amended: whenever the density evaluation returns, for
    whatever model, parameter set and observed returns, it has written
    nothing and its result holds one value per observed return, the
    interpolated value of the sampled curve clipped from below at [1e-9]:
    a value that is at least the floor unless the interpolated value is
    NaN, and then it is NaN. *)
Theorem densities_floored_unless_nan (W W' : World) (self : loc) (g : grid)
    (params : LmParameters) (model : string) (ds : list float) :
  estimator_at W self g ->
  opt_fun_densities self params model W = (Ok ds, W') ->
  W' = W
  /\ exists fp vs,
       opt_fun_curve self params model W = (Ok fp, W)
       /\ np_interp (g_data g) (g_x g) fp = Ok vs
       /\ ds = np_clip_min density_floor <$> vs
       /\ length ds = length (g_data g)
       /\ Forall2 (fun v d => (v ≠ NaN -> fle density_floor d) /\ (v = NaN -> d = NaN))
            vs ds
       /\ Forall (fun d => d = NaN \/ fle density_floor d) ds.
Proof.
  intros Hg. rewrite (opt_fun_densities_run _ _ g) by done. intros [= Hds <-].
  split; [done|].
  destruct (densities_result_Ok _ _ _ _ Hds) as (fp & vs & Hfp & Hvs & ->).
  exists fp, vs.
  split; [by rewrite (opt_fun_curve_run _ _ g), Hfp|].
  split; [done|]. split; [done|].
  split; [by rewrite length_fmap, (np_interp_length _ _ _ _ Hvs)|]. split.
  - apply Forall2_fmap_r, Forall_Forall2_diag, Forall_forall.
    intros v _. split; [apply np_clip_min_floor | by intros ->].
  - apply Forall_fmap, Forall_forall. intros v _. cbn.
    destruct (decide (v = NaN)) as [->|Hv]; [by left|].
    right. by apply np_clip_min_floor.
Qed.

(** C4, as amended: whenever [opt_fun] returns, its value is the negative
    sum of the natural logarithms of the clipped densities.  The value is
    a finite real exactly when no interpolated density is NaN or plus
    infinity; a NaN among them makes the value NaN: [opt_fun] neither
    omits nor clamps it. *)
Theorem objective_value (W W' : World) (self : loc) (g : grid)
    (params : LmParameters) (model : string) (v : float) :
  estimator_at W self g ->
  opt_fun self params model W = (Ok v, W') ->
  W' = W
  /\ exists fp vs,
       opt_fun_curve self params model W = (Ok fp, W)
       /\ np_interp (g_data g) (g_x g) fp = Ok vs
       /\ opt_fun_densities self params model W
          = (Ok (np_clip_min density_floor <$> vs), W)
       /\ v = fneg (np_sum (np_log_real <$> (np_clip_min density_floor <$> vs)))
       /\ ((exists r, v = Fin r) <-> Forall (fun a => a ≠ NaN /\ a ≠ PInf) vs)
       /\ (NaN ∈ vs -> v = NaN).
Proof.
  intros Hg. rewrite (opt_fun_run _ _ g) by done. unfold objective.
  destruct (densities_result g (valuesdict params) model) as [ds|e] eqn:Hds; [|done].
  cbn [and_then]. intros [= <- <-]. split; [done|].
  destruct (densities_result_Ok _ _ _ _ Hds) as (fp & vs & Hfp & Hvs & ->).
  exists fp, vs.
  split; [by rewrite (opt_fun_curve_run _ _ g), Hfp|].
  split; [done|].
  split; [by rewrite (opt_fun_densities_run _ _ g), Hds|].
  split; [done|]. split.
  - apply neg_log_sum_finite_iff.
  - apply neg_log_sum_nan.
Qed.

End DensitiesValue.

(** * How a NaN travels through [opt_fun] *)

Lemma fadd_nan_r a : fadd a NaN = NaN.
Proof. by destruct a. Qed.

Lemma fmul_nan_r a : fmul a NaN = NaN.
Proof. by destruct a. Qed.

Lemma cmul_has_nan_l z w : has_nan z -> cmul z w = Cx NaN NaN.
Proof.
  destruct z as [a b], w as [c d]. unfold has_nan, cmul, fsub. cbn.
  intros [-> | ->]; cbn; rewrite ?fadd_nan_r; done.
Qed.

Lemma cmul_has_nan_r z w : has_nan w -> cmul z w = Cx NaN NaN.
Proof.
  destruct z as [a b], w as [c d]. unfold has_nan, cmul, fsub. cbn.
  intros [-> | ->]; rewrite !fmul_nan_r; cbn; rewrite ?fadd_nan_r; done.
Qed.

Lemma foldr_cadd_nan z0 ts : Cx NaN NaN ∈ ts -> foldr cadd z0 ts = Cx NaN NaN.
Proof.
  induction ts as [|t ts IH]; [by intros ?%elem_of_nil|].
  intros [<-|H]%elem_of_cons; cbn; [done|].
  rewrite IH by done. unfold cadd. cbn. by rewrite !fadd_nan_r.
Qed.

#[local] Instance analytic_nan : NumLibNaN analytic_lib.
Proof.
  split. intros l (z & Hz & Hnan) z' Hz'. cbn in Hz'. unfold dft in Hz'.
  apply list_elem_of_fmap in Hz' as (k & -> & _).
  apply list_elem_of_lookup in Hz as [j Hj].
  rewrite foldr_cadd_nan; [left; done|].
  apply list_elem_of_lookup. exists j. rewrite list_lookup_imap, Hj. cbn.
  by rewrite cmul_has_nan_l.
Qed.

Section NaNFlow.
Context {L : NumLib} {laws : NumLibLaws L} {nanlaw : NumLibNaN L}.

(** If one entry of [cf] has a NaN component, the whole sampled curve is NaN. *)
Lemma curve_of_nan g cf k z :
  well_formed g -> length cf = length (g_u g) ->
  cf !! k = Some z -> has_nan z ->
  exists fp, curve_of g cf = Ok fp
             /\ length fp = length (g_x g)
             /\ Forall (fun y => y = NaN) fp.
Proof.
  intros Hwf Hlen Hk Hz.
  destruct (curve_of_ok g cf Hwf Hlen) as (fp & Hfp & Hl).
  exists fp. split; [done|]. split; [done|].
  destruct Hwf as (Hw & Hx & _).
  unfold curve_of, broadcast2 in Hfp.
  rewrite decide_True in Hfp
    by (rewrite !length_fmap, length_zip_with, !length_fmap; lia).
  injection Hfp as <-.
  apply Forall_fmap, Forall_fmap, Forall_forall. intros z' Hz'. unfold compose.
  rewrite cmul_has_nan_r; [done|].
  eapply fft_nan; [|exact Hz'].
  assert (k < length (g_u g)) as Hku by (rewrite <- Hlen; by eapply lookup_lt_Some).
  destruct (lookup_lt_is_Some_2 (g_u g) k Hku) as [uk Huk].
  destruct (lookup_lt_is_Some_2 (g_w g) k) as [wk Hwk]; [lia|].
  exists (Cx NaN NaN). split; [|by left].
  apply list_elem_of_lookup. exists k.
  apply lookup_zip_with_Some. exists (Cx NaN NaN), (RtoC wk).
  split; [by rewrite cmul_has_nan_l by (by left)|].
  split; [|by rewrite list_lookup_fmap, Hwk].
  rewrite list_lookup_fmap.
  assert (zip_with cmul
            ((fun uk => np_exp (cmul (cmul Ci (RtoC (g_b g))) (RtoC uk))) <$> g_u g)
            cf !! k
          = Some (cmul (np_exp (cmul (cmul Ci (RtoC (g_b g))) (RtoC uk))) z)) as ->.
  { apply lookup_zip_with_Some. eexists _, _. split; [done|].
    split; [by rewrite list_lookup_fmap, Huk | done]. }
  cbn [fmap option_fmap option_map].
  rewrite (cmul_has_nan_r _ z) by done. by rewrite cmul_has_nan_l by (by left).
Qed.

(** A characteristic function that is NaN at one frequency node makes
    every density NaN, and the objective NaN. *)
Lemma nan_propagates W self g params model omega mu phi k uk :
  estimator_at W self g -> well_formed g ->
  omega_result g (valuesdict params) model = Ok omega ->
  getitem (valuesdict params) "mu" = Ok mu ->
  array_result (g_dt g) (valuesdict params) model = Ok phi ->
  g_u g !! k = Some uk ->
  has_nan (to_complex (phi uk)) ->
  opt_fun_densities self params model W
  = (Ok (replicate (length (g_data g)) NaN), W)
  /\ (g_data g ≠ [] -> opt_fun self params model W = (Ok NaN, W)).
Proof.
  intros Hg Hwf Ho Hmu Hphi Hk Hnan.
  set (pd := valuesdict params) in *.
  set (cf := cf_spec (g_dt g) mu omega phi <$> g_u g).
  destruct (curve_of_nan g cf k (cf_spec (g_dt g) mu omega phi uk))
    as (fp & Hfp & Hlen & Hall); [done| | | |].
  { unfold cf. by rewrite length_fmap. }
  { unfold cf. by rewrite list_lookup_fmap, Hk. }
  { unfold cf_spec. rewrite cmul_has_nan_r by done. by left. }
  assert (curve_result g pd model = Ok fp) as Hcurve.
  { unfold curve_result, cf_result. rewrite Ho. cbn [and_then].
    rewrite Hmu. cbn [and_then]. rewrite Hphi. by cbn [and_then]. }
  assert (densities_result g pd model = Ok (replicate (length (g_data g)) NaN)) as Hd.
  { unfold densities_result, densities_of. rewrite Hcurve. cbn [and_then].
    rewrite np_interp_nan; [|done|apply Hwf|done].
    f_equal. induction (length (g_data g)) as [|n IH]; [done|]. cbn. by rewrite IH. }
  split.
  { rewrite (opt_fun_densities_run _ _ g) by done. fold pd. by rewrite Hd. }
  intros Hne. rewrite (opt_fun_run _ _ g) by done. unfold objective.
  fold pd. rewrite Hd. cbn [and_then]. do 2 f_equal. unfold neg_log_sum.
  rewrite np_sum_nan; [done|].
  destruct (g_data g) as [|x xs]; [done|]. cbn. left.
Qed.

End NaNFlow.

(** * The [t] model on the nodes as constructed *)

Section TModel.
Context {L : NumLib}.

(** The values of the [t] closure on the nodes, when it returns. *)
Lemma t_array_values dt pd nu sigma phi :
  getitem pd "nu" = Ok nu -> getitem pd "sigma" = Ok sigma ->
  charFn_on T dt pd = Ok phi ->
  exists p,
    phi = fun uk =>
      SReal (fdiv (fmul (kv (fdiv nu (Fin 2)) (modu_on sigma dt nu uk))
                        (float_power (modu_on sigma dt nu uk) (fdiv nu (Fin 2))))
                  (fmul (gamma (fdiv nu (Fin 2))) p)).
Proof.
  intros Hn Hs. unfold charFn_on. rewrite Hn, Hs. cbn [and_then].
  destruct (py_pow _ _) as [p|e]; [|done]. cbn [and_then]. intros [= <-]. eauto.
Qed.

(** Whatever the library, when [modu] is zero at a node, [K_v(0) = +inf]
    and [0^(nu/2) = 0], the closed form of the [t] model is [inf * 0] at
    that node, that is NaN. *)
Lemma t_nan_at_zero dt pd nu sigma phi uk :
  getitem pd "nu" = Ok nu -> getitem pd "sigma" = Ok sigma ->
  charFn_on T dt pd = Ok phi ->
  modu_on sigma dt nu uk = Fin 0 ->
  kv (fdiv nu (Fin 2)) (Fin 0) = PInf ->
  float_power (Fin 0) (fdiv nu (Fin 2)) = Fin 0 ->
  has_nan (to_complex (phi uk)).
Proof.
  intros Hn Hs Hphi Hm Hk Hp.
  destruct (t_array_values dt pd nu sigma phi Hn Hs Hphi) as [p ->].
  left. cbn [to_complex RtoC re]. rewrite Hm, Hk, Hp. cbn [fmul].
  by rewrite decide_True.
Qed.

End TModel.

Lemma world1_well_formed :
  well_formed (grid_of [Some (Fin 0.01)] (Some 4%Z) None None).
Proof. apply grid_of_well_formed. cbn. lia. Qed.

Lemma world1_dt : g_dt (grid_of [Some (Fin 0.01)] (Some 4%Z) None None) ≠ Fin 0.
Proof. cbn. intros [=E]. lra. Qed.

Lemma world1_dt_bound : (0 < Rabs (1 / 252) <= / 2)%R.
Proof. solve_abs. Qed.

Lemma world1_u0 :
  g_u (grid_of [Some (Fin 0.01)] (Some 4%Z) None None) !! 0 = Some (Fin 0).
Proof.
  cbn [grid_of g_u]. change (cfg_N (Some 4%Z)) with 4%Z.
  change (cfg_eta None) with (Fin 0.5). by rewrite grid_u_4.
Qed.

(** On the instance of the examples the [t] model with its initial
    parameters is NaN at the first node, which is zero. *)
Lemma world1_t_nan :
  exists omega phi,
    omega_result (L := analytic_lib) (grid_of [Some (Fin 0.01)] (Some 4%Z) None None)
      (valuesdict (init_params T)) "t" = Ok omega
    /\ array_result (g_dt (grid_of [Some (Fin 0.01)] (Some 4%Z) None None))
         (valuesdict (init_params T)) "t" = Ok phi
    /\ has_nan (to_complex (phi (Fin 0))).
Proof.
  destruct (omega_returns (laws := analytic_laws)
              (grid_of [Some (Fin 0.01)] (Some 4%Z) None None)
              (valuesdict (init_params T)) "t" T (1 / 252) eq_refl world1_dt_bound eq_refl)
    as [omega Ho]; [done|].
  destruct (init_array_returns (laws := analytic_laws) T (1 / 252)) as [phi Hphi];
    [solve_abs|].
  exists omega, phi. split; [exact Ho|]. split; [exact Hphi|].
  apply (t_nan_at_zero (L := analytic_lib) _ _ (Fin 100) (Fin 0.1) _ _
           init_t_nu init_t_sigma Hphi).
  - unfold modu_on. cbn [np_sqrt analytic_lib fsub fneg fadd fmul analytic_sqrt].
    rewrite decide_True by lra. cbn [fmul fabs]. f_equal.
    rewrite Rmult_0_r. apply Rabs_R0.
  - cbn [kv analytic_lib analytic_kv]. by rewrite decide_True.
  - cbn [float_power analytic_lib fdiv]. rewrite decide_False by lra.
    unfold analytic_float_power. rewrite decide_False by lra.
    rewrite decide_False by lra. by rewrite decide_True by (split; lra).
Qed.

Lemma world1_gbm_densities :
  exists ds,
    opt_fun_densities (L := analytic_lib) self1 (init_params GBM) "GBM" world1
    = (Ok ds, world1).
Proof.
  destruct (densities_returns (laws := analytic_laws)
              (grid_of [Some (Fin 0.01)] (Some 4%Z) None None) "GBM" GBM (1 / 252)
              world1_well_formed eq_refl world1_dt_bound eq_refl) as [ds Hds].
  exists ds. by rewrite (opt_fun_densities_run _ _ _ _ _ world1_view), Hds.
Qed.

Lemma world1_gbm_objective :
  exists v,
    opt_fun (L := analytic_lib) self1 (init_params GBM) "GBM" world1 = (Ok v, world1).
Proof.
  destruct (objective_returns (laws := analytic_laws)
              (grid_of [Some (Fin 0.01)] (Some 4%Z) None None) "GBM" GBM (1 / 252)
              world1_well_formed eq_refl world1_dt_bound eq_refl) as [v Hv].
  exists v. by rewrite (opt_fun_run _ _ _ _ _ world1_view), Hv.
Qed.

Lemma densities_floored_unless_nan_witness :
  exists ds,
    opt_fun_densities (L := analytic_lib) self1 (init_params GBM) "GBM" world1
    = (Ok ds, world1)
    /\ length ds = 1
    /\ Forall (fun d => d = NaN \/ fle density_floor d) ds.
Proof.
  destruct world1_gbm_densities as [ds Hds].
  destruct (densities_floored_unless_nan (L := analytic_lib) world1 world1 self1 _
              (init_params GBM) "GBM" ds world1_view Hds)
    as (_ & fp & vs & _ & _ & _ & Hlen & _ & Hall).
  exists ds. split; [exact Hds|]. split; [exact Hlen | exact Hall].
Defined.

(** The claim C3 as stated fails: for the model [t] with its initial
    parameters on an instance as constructed, the density at the finite
    return [0.01] is NaN, which is not at least the floor. *)
Lemma t_density_nan :
  opt_fun_densities (L := analytic_lib) self1 (init_params T) "t" world1
  = (Ok [NaN], world1)
  /\ ~ fle density_floor NaN.
Proof.
  split; [|by intros []].
  destruct world1_t_nan as (omega & phi & Ho & Hphi & Hnan).
  apply (nan_propagates (L := analytic_lib) world1 self1 _ (init_params T) "t"
           omega (Fin 0.01) phi 0 (Fin 0)
           world1_view world1_well_formed Ho (init_mu T) Hphi world1_u0 Hnan).
Qed.

Lemma objective_value_witness :
  exists v vs,
    opt_fun (L := analytic_lib) self1 (init_params GBM) "GBM" world1 = (Ok v, world1)
    /\ v = fneg (np_sum (np_log_real <$> (np_clip_min density_floor <$> vs)))
    /\ ((exists r, v = Fin r) <-> Forall (fun a => a ≠ NaN /\ a ≠ PInf) vs).
Proof.
  destruct world1_gbm_objective as [v Hv].
  destruct (objective_value (L := analytic_lib) world1 world1 self1 _
              (init_params GBM) "GBM" v world1_view Hv)
    as (_ & fp & vs & _ & _ & _ & Hval & Hfin & _).
  exists v, vs. split; [exact Hv|]. split; [exact Hval | exact Hfin].
Defined.

(** The claim C4 as stated fails: on the same input [opt_fun] returns
    NaN, not a finite real. *)
Lemma t_objective_nan :
  opt_fun (L := analytic_lib) self1 (init_params T) "t" world1 = (Ok NaN, world1)
  /\ isfinite NaN = false.
Proof.
  split; [|done].
  destruct world1_t_nan as (omega & phi & Ho & Hphi & Hnan).
  apply (nan_propagates (L := analytic_lib) world1 self1 _ (init_params T) "t"
           omega (Fin 0.01) phi 0 (Fin 0)
           world1_view world1_well_formed Ho (init_mu T) Hphi world1_u0 Hnan).
  done.
Qed.

(** * Values on small inputs *)

Example lower_mixed_case : lower "CgMy" = "cgmy".
Proof. reflexivity. Qed.

Example select_upper_case : select "GBM" = Some GBM.
Proof. reflexivity. Qed.

Example select_other_word : select "heston" = None.
Proof. reflexivity. Qed.

Example py_index_negative : py_index 4 (-1) = Ok 3.
Proof. reflexivity. Qed.

Example py_index_out_of_range : py_index 4 4 = Raise IndexError.
Proof. reflexivity. Qed.

Example np_arange_negative : np_arange (-3) = [].
Proof. reflexivity. Qed.

Example dropna_keeps_infinities :
  dropna [Some (Fin 1); None; Some NaN; Some PInf; Some NInf] = [Fin 1; PInf; NInf].
Proof. reflexivity. Qed.

Example getitem_missing :
  getitem (valuesdict (init_params GBM)) "nu" = Raise (KeyError "nu").
Proof. reflexivity. Qed.

Example clip_of_zero : np_clip_min density_floor (Fin 0) = density_floor.
Proof. apply np_clip_min_below. lra. Qed.

Example clip_of_minus_infinity : np_clip_min density_floor NInf = density_floor.
Proof. unfold np_clip_min, np_maximum, density_floor. cbn. by rewrite decide_True. Qed.

Example clip_of_plus_infinity : np_clip_min density_floor PInf = PInf.
Proof. unfold np_clip_min, np_maximum, density_floor. cbn. by rewrite decide_False. Qed.

Ltac item_eval :=
  repeat match goal with
         | |- context [item ?l ?i] =>
             let n := eval vm_compute in (Z.to_nat i) in
             let v := eval cbv [default from_option Datatypes.id lookup list_lookup]
                      in (default NaN (l !! n)) in
             change (item l i) with v
         end.

Ltac search_unfold :=
  unfold binary_search_with_guess; cbn [length tail leading]; cbv zeta; item_eval.

Ltac interp_unfold :=
  unfold np_interp; cbn [length];
  case_decide; [done|]; case_decide; [|done]; case_decide; [done|];
  cbn [interp_loop isnan].

Example search_between_nodes : binary_search_with_guess (Fin 1) [Fin 0; Fin 2] 0 = 0%Z.
Proof.
  search_unfold.
  rewrite decide_False by (cbn; lra). rewrite decide_False by (cbn; lra).
  rewrite decide_True by lia. by rewrite decide_False by (cbn; lra).
Qed.

Example search_below_nodes : binary_search_with_guess (Fin (-1)) [Fin 0; Fin 2] 0 = (-1)%Z.
Proof.
  search_unfold.
  rewrite decide_False by (cbn; lra). by rewrite decide_True by (cbn; lra).
Qed.

Example search_above_nodes : binary_search_with_guess PInf [Fin 0; Fin 2] 0 = 2%Z.
Proof. search_unfold. by rewrite decide_True by (by cbn). Qed.

(** On nodes in decreasing order a query between the two ends is above
    the last node. *)
Example search_decreasing_nodes : binary_search_with_guess (Fin 1) [Fin 2; Fin 0] 0 = 2%Z.
Proof. search_unfold. by rewrite decide_True by (cbn; lra). Qed.

Example search_by_bisection :
  binary_search_with_guess (Fin 4.5) [Fin 0; Fin 1; Fin 2; Fin 3; Fin 4; Fin 5] 0 = 4%Z.
Proof.
  search_unfold.
  rewrite decide_False by (cbn; lra). rewrite decide_False by (cbn; lra).
  rewrite decide_False by lia.
  rewrite (decide_False (P := (0 > _)%Z)) by lia.
  rewrite (decide_True (P := (0 < 1)%Z)) by lia. item_eval.
  rewrite decide_False by (cbn; lra). rewrite decide_False by (cbn; lra).
  rewrite decide_False by (cbn; lra).
  rewrite decide_False by (intros [? _]; unfold LIKELY_IN_CACHE_SIZE in *; lia).
  cbn [bisect length]. rewrite decide_True by lia. cbv zeta.
  change (1 + 2 + Z.shiftr (Z.of_nat 6 - (1 + 2)) 1)%Z with 4%Z. item_eval.
  rewrite decide_True by (cbn; lra). rewrite decide_True by lia.
  change (4 + 1 + Z.shiftr (Z.of_nat 6 - (4 + 1)) 1)%Z with 5%Z. item_eval.
  rewrite decide_False by (cbn; lra). by rewrite decide_False by lia.
Qed.

Example interp_midpoint : np_interp [Fin 1] [Fin 0; Fin 2] [Fin 0; Fin 4] = Ok [Fin 2].
Proof.
  interp_unfold. rewrite search_between_nodes.
  unfold interp_at. cbn [length]. cbv zeta.
  rewrite decide_False by lia. rewrite decide_False by lia. rewrite decide_False by lia.
  item_eval.
  rewrite decide_False by (intros [[=E] _]; lra).
  unfold interp_linear. 
  cbn [fsub fneg fadd fdiv fmul].
  rewrite decide_False by lra. cbn [fmul fadd isnan]. do 3 f_equal. field.
Qed.

Example interp_left_of_grid :
  np_interp [Fin (-1)] [Fin 0; Fin 2] [Fin 5; Fin 4] = Ok [Fin 5].
Proof.
  interp_unfold. rewrite search_below_nodes.
  unfold interp_at. by rewrite decide_True by lia.
Qed.

Example interp_right_of_grid :
  np_interp [PInf] [Fin 0; Fin 2] [Fin 5; Fin 4] = Ok [Fin 4].
Proof.
  interp_unfold. rewrite search_above_nodes.
  unfold interp_at. cbn [length]. cbv zeta.
  rewrite decide_False by lia. by rewrite decide_True by lia.
Qed.

Example interp_decreasing_nodes :
  np_interp [Fin 1] [Fin 2; Fin 0] [Fin 5; Fin 4] = Ok [Fin 4].
Proof.
  interp_unfold. rewrite search_decreasing_nodes.
  unfold interp_at. cbn [length]. cbv zeta.
  rewrite decide_False by lia. by rewrite decide_True by lia.
Qed.

Example interp_single_node : np_interp [NaN; Fin 3] [Fin 0] [Fin 7] = Ok [Fin 7; Fin 7].
Proof.
  unfold np_interp. cbn [length].
  case_decide; [done|]. case_decide; [|done].
  cbn [fmap list_fmap]. by item_eval.
Qed.

Example interp_no_nodes : np_interp [Fin 1] [] [] = Raise ValueError.
Proof. reflexivity. Qed.

Example zero_division : py_truediv np_pi (Fin 0) = Raise ZeroDivisionError.
Proof. apply py_truediv_zero. Qed.

(** * Further properties of the code *)

(** ** [opt_fun] writes nothing *)

Lemma readonly_ret {A} (a : A) : readonly (mret a : Py A).
Proof. by intros W. Qed.

Lemma readonly_lift {A} (r : result A) : readonly (lift r).
Proof. by intros W. Qed.

Lemma readonly_raise {A} e : readonly (raise e : Py A).
Proof. by intros W. Qed.

Lemma readonly_bind {A B} (m : Py A) (f : A -> Py B) :
  readonly m -> (forall a, readonly (f a)) -> readonly (m ≫= f).
Proof.
  intros Hm Hf W. rewrite run_bind. specialize (Hm W).
  destruct (m W) as [[a|e] W']; cbn in Hm; subst; [apply Hf | done].
Qed.

Lemma readonly_getattr self name : readonly (getattr self name).
Proof.
  intros W. unfold getattr. repeat case_match; done.
Qed.

Lemma readonly_load l : readonly (load l).
Proof. intros W. unfold load. by case_match. Qed.

Lemma readonly_get_float self name : readonly (get_float self name).
Proof.
  apply readonly_bind; [apply readonly_getattr|].
  intros [n|a|l|s]; cbn; (apply readonly_ret || apply readonly_raise).
Qed.

Lemma readonly_get_array self name : readonly (get_array self name).
Proof.
  apply readonly_bind; [apply readonly_getattr|].
  intros [n|a|l|s]; cbn;
    (apply readonly_ret || apply readonly_raise || apply readonly_load).
Qed.

Ltac readonly :=
  repeat first
    [ apply readonly_ret | apply readonly_lift | apply readonly_raise
    | apply readonly_get_float | apply readonly_get_array
    | apply readonly_bind; [|intros ?] ].

Section ReadOnly.
Context {L : NumLib}.

Lemma readonly_at_point self m pd u : readonly (at_point (cf_code self m) pd u).
Proof.
  destruct m; cbn [cf_code at_point cf_gbm cf_vg cf_cgmy cf_t]; readonly.
Qed.

Lemma readonly_on_array self m pd : readonly (on_array (cf_code self m) pd).
Proof.
  destruct m; cbn [cf_code on_array cf_gbm cf_vg cf_cgmy cf_t]; readonly.
Qed.

Lemma readonly_call_point self model pd u :
  readonly (call_point (get_cfXh self model) pd u).
Proof.
  rewrite get_cfXh_select. destruct (select model); cbn;
    [apply readonly_at_point | apply readonly_raise].
Qed.

Lemma readonly_call_array self model pd :
  readonly (call_array (get_cfXh self model) pd).
Proof.
  rewrite get_cfXh_select. destruct (select model); cbn;
    [apply readonly_on_array | apply readonly_raise].
Qed.

Lemma readonly_opt_fun_curve self params model : readonly (opt_fun_curve self params model).
Proof.
  unfold opt_fun_curve, opt_fun_omega, opt_fun_cf. cbv zeta.
  repeat first [ apply readonly_call_point | apply readonly_call_array
               | progress readonly ].
Qed.

(** Whatever the store, the instance, the parameters and the model name,
    and whether it returns or raises, [opt_fun] leaves the store as it
    was: no attribute is rebound and no array is written.  Evaluating it
    again gives the same outcome. *)
Theorem opt_fun_readonly (self : loc) (params : LmParameters) (model : string)
    (W : World) :
  (opt_fun self params model W).2 = W
  /\ opt_fun self params model (opt_fun self params model W).2
     = opt_fun self params model W.
Proof.
  assert (readonly (opt_fun self params model)) as H.
  { unfold opt_fun. apply readonly_bind; [|intros; apply readonly_ret].
    unfold opt_fun_densities.
    apply readonly_bind; [apply readonly_opt_fun_curve|]. intros fp. readonly. }
  split; [apply H | by rewrite H].
Qed.

End ReadOnly.

(** ** The model name *)

Lemma lower_ascii_idempotent c : lower_ascii (lower_ascii c) = lower_ascii c.
Proof. destruct c as [[] [] [] [] [] [] [] []]; reflexivity. Qed.

Lemma lower_idempotent s : lower (lower s) = lower s.
Proof.
  induction s as [|c s IH]; [done|]. cbn. by rewrite lower_ascii_idempotent, IH.
Qed.

Lemma select_lower model model' : lower model' = lower model -> select model' = select model.
Proof. intros H. unfold select. by rewrite H. Qed.

Section ModelName.
Context {L : NumLib}.

(** Two model names that agree up to the case of their letters are the
    same model to every method: the same characteristic function, the same
    initial parameters and effect on the store, the same objective. *)
Theorem model_name_case_insensitive (self : loc) (model model' : string)
    (params : LmParameters) (W : World) :
  lower model' = lower model ->
  get_cfXh self model' = get_cfXh self model
  /\ get_init_estim_params self model' W = get_init_estim_params self model W
  /\ opt_fun self params model' W = opt_fun self params model W
  /\ get_cfXh self (lower model) = get_cfXh self model
  /\ get_init_estim_params self (lower model) W = get_init_estim_params self model W.
Proof.
  intros H.
  assert (forall a b, lower a = lower b -> get_cfXh self a = get_cfXh self b) as Hcf.
  { intros a b E. unfold get_cfXh. by rewrite E. }
  assert (forall a b, lower a = lower b ->
            get_init_estim_params self a W = get_init_estim_params self b W) as Hp.
  { intros a b E. unfold get_init_estim_params. by rewrite E. }
  split; [by apply Hcf|]. split; [by apply Hp|]. split.
  - unfold opt_fun, opt_fun_densities, opt_fun_curve. by rewrite (Hcf _ _ H).
  - split; [apply Hcf | apply Hp]; apply lower_idempotent.
Qed.

(** The two selecting methods take the same branch: on an instance, either
    both select the same model of the four, [get_cfXh] returning its
    closure and [get_init_estim_params] its parameters, or the name is
    unknown to both, which return [None] and no parameters. *)
Theorem selection_agrees (W : World) (self : loc) (g : grid) (model : string) :
  estimator_at W self g ->
  (exists m, lower model = model_name m
             /\ get_cfXh self model = Some (cf_code self m)
             /\ (get_init_estim_params self model W).1 = Ok (init_params m))
  \/ ((forall m, lower model ≠ model_name m)
      /\ get_cfXh self model = None
      /\ (get_init_estim_params self model W).1 = Ok []).
Proof.
  intros Hg. rewrite get_cfXh_select.
  destruct (select model) as [m|] eqn:Hm.
  - left. exists m. split; [by apply select_Some|]. split; [done|].
    destruct (decide (m = T)) as [->|HT].
    + destruct (select_t_clamps W self g model Hg Hm) as (W' & -> & _). done.
    + rewrite get_init_estim_params_other by congruence. by rewrite Hm.
  - right. split; [by apply select_None|]. split; [done|].
    rewrite get_init_estim_params_other by congruence. by rewrite Hm.
Qed.

End ModelName.

Lemma model_name_case_insensitive_witness :
  get_cfXh (L := analytic_lib) self1 "GbM" = get_cfXh self1 "gbm"
  /\ get_init_estim_params self1 "GbM" world1 = get_init_estim_params self1 "gbm" world1
  /\ opt_fun (L := analytic_lib) self1 [] "GbM" world1 = opt_fun self1 [] "gbm" world1.
Proof.
  destruct (model_name_case_insensitive (L := analytic_lib) self1 "gbm" "GbM" [] world1
              eq_refl) as (H1 & H2 & H3 & _).
  split; [exact H1|]. split; [exact H2 | exact H3].
Defined.

Lemma selection_agrees_witness :
  (exists m, lower "CGMY" = model_name m
             /\ get_cfXh (L := analytic_lib) self1 "CGMY" = Some (cf_code self1 m)
             /\ (get_init_estim_params self1 "CGMY" world1).1 = Ok (init_params m))
  \/ ((forall m, lower "CGMY" ≠ model_name m)
      /\ get_cfXh (L := analytic_lib) self1 "CGMY" = None
      /\ (get_init_estim_params self1 "CGMY" world1).1 = Ok []).
Proof.
  exact (selection_agrees (L := analytic_lib) world1 self1 _ "CGMY" world1_view).
Defined.

(** ** What selecting a model changes *)

Lemma with_u_same g : with_u g (g_u g) = g.
Proof. by destruct g. Qed.

Lemma np_clip_min_idempotent lo a : np_clip_min lo (np_clip_min lo a) = np_clip_min lo a.
Proof.
  unfold np_clip_min, np_maximum.
  destruct a as [x|s|], lo as [y|t|]; cbn; try done;
    repeat (case_decide; cbn in *; try done); try lra; naive_solver.
Qed.

Lemma clamp_u_idempotent u : clamp_u (clamp_u u) = clamp_u u.
Proof.
  unfold clamp_u. rewrite <- list_fmap_compose. apply list_fmap_ext.
  intros i a _. cbn. apply np_clip_min_idempotent.
Qed.

(** After construction a selection can change the frequency nodes and
    nothing else: the returns, [N], [eta], [dt], [b], [lbda], [x] and [w]
    of the instance are what they were, the number of nodes too; the
    nodes are clamped when the [t] model is selected and untouched, with
    the whole store, in every other case. *)
Theorem selection_changes_only_u (W : World) (self : loc) (g : grid) (model : string) :
  estimator_at W self g ->
  exists W' ps u',
    get_init_estim_params self model W = (Ok ps, W')
    /\ estimator_at W' self (with_u g u')
    /\ length u' = length (g_u g)
    /\ ((select model = Some T /\ u' = clamp_u (g_u g))
        \/ (select model ≠ Some T /\ u' = g_u g /\ W' = W)).
Proof.
  intros Hg. destruct (decide (select model = Some T)) as [HT|HT].
  - destruct (select_t_clamps W self g model Hg HT) as (W' & HW' & Hg').
    exists W', (init_params T), (clamp_u (g_u g)).
    split; [done|]. split; [done|]. split; [by unfold clamp_u; rewrite length_fmap|].
    by left.
  - exists W, (from_option init_params [] (select model)), (g_u g).
    split; [by apply get_init_estim_params_other|].
    split; [by rewrite with_u_same|]. split; [done|]. by right.
Qed.

Lemma selection_changes_only_u_witness :
  exists W' ps u',
    get_init_estim_params self1 "t" world1 = (Ok ps, W')
    /\ estimator_at W' self1
         (with_u (grid_of [Some (Fin 0.01)] (Some 4%Z) None None) u')
    /\ length u' = length (g_u (grid_of [Some (Fin 0.01)] (Some 4%Z) None None)).
Proof.
  destruct (selection_changes_only_u world1 self1 _ "t" world1_view)
    as (W' & ps & u' & H1 & H2 & H3 & _).
  exists W', ps, u'. split; [exact H1|]. split; [exact H2 | exact H3].
Defined.

(** Selecting the [t] model a second time changes no node: the nodes are
    those after the first selection. *)
Theorem t_selection_idempotent (W : World) (self : loc) (g : grid) (model model' : string) :
  estimator_at W self g ->
  select model = Some T -> select model' = Some T ->
  exists W1 W2,
    get_init_estim_params self model W = (Ok (init_params T), W1)
    /\ get_init_estim_params self model' W1 = (Ok (init_params T), W2)
    /\ estimator_at W1 self (with_u g (clamp_u (g_u g)))
    /\ estimator_at W2 self (with_u g (clamp_u (g_u g))).
Proof.
  intros Hg Hm Hm'.
  destruct (select_t_clamps W self g model Hg Hm) as (W1 & HW1 & Hg1).
  destruct (select_t_clamps W1 self _ model' Hg1 Hm') as (W2 & HW2 & Hg2).
  exists W1, W2. split; [done|]. split; [done|]. split; [done|].
  cbn [with_u g_u g_data g_N g_eta g_dt g_b g_lbda g_x g_w] in Hg2.
  rewrite clamp_u_idempotent in Hg2. exact Hg2.
Qed.

Lemma t_selection_idempotent_witness :
  exists W1 W2,
    get_init_estim_params self1 "t" world1 = (Ok (init_params T), W1)
    /\ get_init_estim_params self1 "T" W1 = (Ok (init_params T), W2)
    /\ get_array self1 "u" W1 = (Ok [Fin 0.001; Fin 0.5; Fin 1; Fin 1.5], W1)
    /\ get_array self1 "u" W2 = (Ok [Fin 0.001; Fin 0.5; Fin 1; Fin 1.5], W2).
Proof.
  destruct (t_selection_idempotent world1 self1 _ "t" "T" world1_view eq_refl eq_refl)
    as (W1 & W2 & H1 & H2 & Hg1 & Hg2).
  exists W1, W2. split; [exact H1|]. split; [exact H2|].
  rewrite (get_u Hg1), (get_u Hg2). cbn [with_u grid_of g_u].
  change (cfg_N (Some 4%Z)) with 4%Z. change (cfg_eta None) with (Fin 0.5).
  rewrite grid_u_4, clamp_u_4. split; reflexivity.
Defined.

(** ** The clamp on a grid as constructed *)

Lemma clamp_grid_u N (e : R) :
  (0.001 <= e)%R ->
  clamp_u (grid_u N (Fin e)) = <[0 := Fin 0.001]> (grid_u N (Fin e)).
Proof.
  intros He. apply list_eq. intros j. unfold clamp_u. rewrite list_lookup_fmap.
  destruct (decide (j < Z.to_nat N)) as [Hj|Hj].
  - rewrite lookup_grid_u by done. cbn [fmap option_fmap option_map].
    destruct j as [|j].
    + rewrite list_lookup_insert_eq by (rewrite length_grid_u; lia).
      f_equal. apply np_clip_min_below. cbn. lra.
    + rewrite list_lookup_insert_ne by done. rewrite lookup_grid_u by done.
      f_equal. apply np_clip_min_above.
      assert (1 <= INR (S j))%R by (rewrite S_INR; pose proof (pos_INR j); lra).
      nra.
  - rewrite !lookup_ge_None_2; [done| |].
    + rewrite length_insert, length_grid_u. lia.
    + rewrite length_grid_u. lia.
Qed.

(** On an instance constructed with a step [eta >= 0.001], selecting the
    [t] model moves the first frequency node from [0] to [0.001] and leaves
    every other node where it was; afterwards no node is below [0.001]. *)
Theorem t_clamp_moves_first_node (W W1 : World) (self : loc)
    (data : list (option float)) (N : option Z) (eta dt : option float)
    (e : R) (model : string) :
  class_dict W = Estimator_class ->
  Estimator data N eta dt W = (Ok self, W1) ->
  cfg_eta eta = Fin e -> (0.001 <= e)%R ->
  select model = Some T ->
  exists W2 u,
    get_init_estim_params self model W1 = (Ok (init_params T), W2)
    /\ get_array self "u" W1 = (Ok (grid_u (cfg_N N) (Fin e)), W1)
    /\ get_array self "u" W2 = (Ok u, W2)
    /\ u = <[0 := Fin 0.001]> (grid_u (cfg_N N) (Fin e))
    /\ u !! 0 = Some (Fin 0.001)
    /\ (forall j, 0 < j -> u !! j = grid_u (cfg_N N) (Fin e) !! j)
    /\ Forall (fle (Fin 0.001)) u.
Proof.
  intros Hc HE Heta He Hm.
  destruct (Estimator_well_formed W W1 self data N eta dt Hc HE) as [Hg Hwf].
  destruct (select_t_clamps W1 self _ model Hg Hm) as (W2 & HW2 & Hg2).
  assert (0 < Z.to_nat (cfg_N N)) as HN.
  { destruct Hwf as (_ & _ & Hpos). cbn [grid_of g_x] in Hpos.
    by rewrite length_grid_x in Hpos. }
  exists W2, (<[0 := Fin 0.001]> (grid_u (cfg_N N) (Fin e))).
  split; [done|]. split.
  { rewrite (get_u Hg). cbn [grid_of g_u]. by rewrite Heta. }
  split.
  { rewrite (get_u Hg2). cbn [with_u grid_of g_u]. rewrite Heta.
    by rewrite clamp_grid_u. }
  split; [done|]. split.
  { apply list_lookup_insert_eq. rewrite length_grid_u. lia. }
  split.
  { intros j Hj. apply list_lookup_insert_ne. lia. }
  apply Forall_lookup. intros j a Hj.
  assert (j < Z.to_nat (cfg_N N)) as Hlt.
  { apply lookup_lt_Some in Hj. by rewrite length_insert, length_grid_u in Hj. }
  destruct j as [|j].
  - rewrite list_lookup_insert_eq in Hj by (rewrite length_grid_u; lia).
    injection Hj as <-. cbn. lra.
  - rewrite list_lookup_insert_ne, lookup_grid_u in Hj by done.
    injection Hj as <-. change (0.001 <= INR (S j) * e)%R.
    assert (1 <= INR (S j))%R by (rewrite S_INR; pose proof (pos_INR j); lra).
    nra.
Qed.

Lemma t_clamp_moves_first_node_witness :
  exists W2 u,
    get_init_estim_params self1 "t" world1 = (Ok (init_params T), W2)
    /\ get_array self1 "u" W2 = (Ok u, W2)
    /\ u !! 0 = Some (Fin 0.001)
    /\ Forall (fle (Fin 0.001)) u.
Proof.
  destruct (t_clamp_moves_first_node initial_world world1 self1
              [Some (Fin 0.01)] (Some 4%Z) None None 0.5 "t"
              eq_refl world1_run eq_refl ltac:(lra) eq_refl)
    as (W2 & u & H1 & _ & H3 & _ & H5 & _ & H7).
  exists W2, u. split; [exact H1|]. split; [exact H3|]. split; [exact H5 | exact H7].
Defined.

(** ** Running [make_fft_params] again *)

Lemma regrid_grid_of data N eta dt u :
  regrid (with_u (grid_of data N eta dt) u) = grid_of data N eta dt.
Proof. reflexivity. Qed.

Lemma make_fft_params_returns W self g :
  estimator_at W self g ->
  g_eta g ≠ Fin 0 -> (1 <= g_N g < float_int_bound)%Z ->
  exists W', make_fft_params self W = (Ok tt, W').
Proof.
  intros (D & lu & lx & lw & HD & Hdata & HN & Heta & _) He HN1.
  rewrite (world_norm W self D HD).
  rewrite (make_fft_params_run _ _ _ _ _ (g_N g) (g_eta g)) by done.
  by eexists.
Qed.

(** When [make_fft_params] is called again on an instance and returns,
    it leaves the instance with the grid of its [N] and [eta], in fresh
    arrays: it undoes the clamp of the [t] model, it changes nothing a
    reader of an instance as constructed can see, and it touches no other
    instance. *)
Theorem make_fft_params_again (W W' : World) (self : loc) (g : grid) :
  estimator_at W self g ->
  make_fft_params self W = (Ok tt, W') ->
  estimator_at W' self (regrid g)
  /\ frame self W W'
  /\ (forall data N eta dt u,
        g = with_u (grid_of data N eta dt) u -> regrid g = grid_of data N eta dt).
Proof.
  intros (D & lu & lx & lw & HD & Hdata & HN & Heta & Hdt & Hb & Hl & Hu & Hx & Hw
          & Hau & Hax & Haw) Hrun.
  rewrite (world_norm W self D HD) in Hrun |- *.
  destruct (decide (g_eta g = Fin 0 \/ (g_N g <= 0)%Z \/ (float_int_bound <= g_N g)%Z))
    as [Hbad|Hgood].
  { destruct (make_fft_params_raise (class_dict W) (objects W) (arrays W) self D
                (g_N g) (g_eta g) Heta HN Hbad) as (W'' & HW'' & _).
    rewrite HW'' in Hrun. done. }
  rewrite (make_fft_params_run _ _ _ _ _ (g_N g) (g_eta g)) in Hrun;
    [|done|done|intros ?; apply Hgood; by left|lia].
  injection Hrun as <-.
  split; [|split].
  - eexists _, _, _, _. cbn [objects class_dict arrays]. rewrite lookup_insert_eq.
    split; [reflexivity|].
    cbn [regrid g_data g_N g_eta g_dt g_b g_lbda g_u g_x g_w].
    repeat split; attr; try done.
    + eapply lookup_weaken; [apply lookup_insert_eq|].
      apply alloc_subseteq, alloc_subseteq. reflexivity.
    + eapply lookup_weaken; [apply lookup_insert_eq|].
      apply alloc_subseteq. reflexivity.
    + by rewrite lookup_insert_eq.
  - apply frame_at. repeat apply alloc_subseteq. reflexivity.
  - intros data N eta dt u ->. apply regrid_grid_of.
Qed.

Lemma make_fft_params_again_witness :
  exists W',
    make_fft_params self1 world1 = (Ok tt, W')
    /\ estimator_at W' self1 (grid_of [Some (Fin 0.01)] (Some 4%Z) None None).
Proof.
  destruct (make_fft_params_returns world1 self1 _ world1_view) as [W' HW'].
  - cbn. intros [=E]. lra.
  - grid_size.
  - exists W'. split; [exact HW'|].
    exact (proj1 (make_fft_params_again world1 W' self1 _ world1_view HW')).
Defined.

(** ** The order of the nodes *)

Lemma lbda_sign (e : R) (N : Z) :
  (1 <= N)%Z ->
  ((0 < e)%R -> (0 < 2 * PI / (e * IZR N))%R)
  /\ ((e < 0)%R -> (2 * PI / (e * IZR N) < 0)%R).
Proof.
  intros HN. pose proof PI_RGT_0 as Hpi.
  assert (1 <= IZR N)%R as H1 by (by apply IZR_le in HN).
  split; intros He.
  - apply Rdiv_lt_0_compat; nra.
  - replace (2 * PI / (e * IZR N))%R with (- (2 * PI / (- e * IZR N)))%R.
    + assert (0 < 2 * PI / (- e * IZR N))%R by (apply Rdiv_lt_0_compat; nra). lra.
    + field. split; [|lra]. intros E. lra.
Qed.

(** The constructor accepts a step [eta] of either sign and the order of
    the nodes follows it: on an instance it returns for a finite [eta],
    the frequency nodes never decrease when [eta] is positive and never
    increase when it is negative, and so do the space nodes, as far as
    they are numbers. *)
Theorem grid_order_follows_eta (W W1 : World) (self : loc) (data : list (option float))
    (N : option Z) (eta dt : option float) (e : R) :
  class_dict W = Estimator_class ->
  Estimator data N eta dt W = (Ok self, W1) ->
  cfg_eta eta = Fin e ->
  exists g,
    estimator_at W1 self g
    /\ ((0 < e)%R -> forall j a b,
          g_u g !! j = Some a -> g_u g !! S j = Some b -> fle a b)
    /\ ((e < 0)%R -> forall j a b,
          g_u g !! j = Some a -> g_u g !! S j = Some b -> fle b a)
    /\ ((0 < e)%R -> forall j a b,
          g_x g !! j = Some a -> g_x g !! S j = Some b ->
          a ≠ NaN -> b ≠ NaN -> fle a b)
    /\ ((e < 0)%R -> forall j a b,
          g_x g !! j = Some a -> g_x g !! S j = Some b ->
          a ≠ NaN -> b ≠ NaN -> fle b a).
Proof.
  intros Hc HE Heta.
  destruct (Estimator_success W W1 self data N eta dt Hc HE) as (HN & He & Hg).
  rewrite Heta in He. assert (e ≠ 0%R) as He' by (intros ->; done).
  destruct (lbda_sign e (cfg_N N) HN) as [Hpos Hneg].
  exists (grid_of data N eta dt). split; [done|].
  cbn [grid_of g_x g_u]. rewrite Heta.
  assert (forall j a b,
            grid_x (cfg_N N) (Fin e) !! j = Some a ->
            grid_x (cfg_N N) (Fin e) !! S j = Some b ->
            a = Fin (- (PI / e) + INR j * (2 * PI / (e * IZR (cfg_N N))))
            /\ b = Fin (- (PI / e) + INR (S j) * (2 * PI / (e * IZR (cfg_N N))))) as Hx.
  { intros j a b Ha Hb.
    assert (S j < Z.to_nat (cfg_N N)) as Hlt.
    { apply lookup_lt_Some in Hb. by rewrite length_grid_x in Hb. }
    rewrite lookup_grid_x in Ha by (done || lia).
    rewrite lookup_grid_x in Hb by done. split; congruence. }
  assert (forall j a b,
            grid_u (cfg_N N) (Fin e) !! j = Some a ->
            grid_u (cfg_N N) (Fin e) !! S j = Some b ->
            a = Fin (INR j * e) /\ b = Fin (INR (S j) * e)) as Hu.
  { intros j a b Ha Hb.
    assert (S j < Z.to_nat (cfg_N N)) as Hlt.
    { apply lookup_lt_Some in Hb. by rewrite length_grid_u in Hb. }
    rewrite lookup_grid_u in Ha by lia.
    rewrite lookup_grid_u in Hb by done. split; congruence. }
  split; [|split; [|split]].
  - intros Hs j a b Ha Hb. destruct (Hu j a b Ha Hb) as [-> ->].
    change (INR j * e <= INR (S j) * e)%R. rewrite S_INR. lra.
  - intros Hs j a b Ha Hb. destruct (Hu j a b Ha Hb) as [-> ->].
    change (INR (S j) * e <= INR j * e)%R. rewrite S_INR. lra.
  - intros Hs j a b Ha Hb _ _. destruct (Hx j a b Ha Hb) as [-> ->].
    specialize (Hpos Hs).
    change (- (PI / e) + INR j * (2 * PI / (e * IZR (cfg_N N)))
            <= - (PI / e) + INR (S j) * (2 * PI / (e * IZR (cfg_N N))))%R.
    rewrite S_INR. lra.
  - intros Hs j a b Ha Hb _ _. destruct (Hx j a b Ha Hb) as [-> ->].
    specialize (Hneg Hs).
    change (- (PI / e) + INR (S j) * (2 * PI / (e * IZR (cfg_N N)))
            <= - (PI / e) + INR j * (2 * PI / (e * IZR (cfg_N N))))%R.
    rewrite S_INR. lra.
Qed.

Lemma grid_order_follows_eta_witness :
  exists g,
    estimator_at
      (constructed initial_world [] (Some 4%Z) (Some (Fin (-0.5))) None)
      (fresh (dom (objects initial_world))) g
    /\ (forall j a b, g_u g !! j = Some a -> g_u g !! S j = Some b -> fle b a).
Proof.
  destruct (grid_order_follows_eta initial_world
              (constructed initial_world [] (Some 4%Z) (Some (Fin (-0.5))) None)
              (fresh (dom (objects initial_world))) [] (Some 4%Z)
              (Some (Fin (-0.5))) None (-0.5) eq_refl)
    as (g & Hg & _ & Hdec & _).
  - apply Estimator_run; [reflexivity | | grid_size]; cbn; intros [=E]; lra.
  - reflexivity.
  - exists g. split; [exact Hg|]. apply Hdec. lra.
Defined.

(** ** The exceptions of [opt_fun] *)

Lemma getitem_raise pd k e : getitem pd k = Raise e -> e = KeyError k.
Proof.
  induction pd as [|[k' v] pd IH]; cbn; [congruence|].
  case_decide; [done|exact IH].
Qed.

Section Errors.
Context {L : NumLib}.

Lemma objective_zero_dt g pd model :
  g_dt g = Fin 0 -> objective g pd model = Raise ZeroDivisionError.
Proof.
  intros Hdt. unfold objective, densities_result, curve_result, omega_result.
  by rewrite Hdt, py_truediv_zero.
Qed.

Lemma charFn_at_missing m dt pd k u :
  first_missing pd (early_keys m) = Some k ->
  charFn_at m dt pd u = Raise (KeyError k).
Proof.
  destruct m; cbn [early_keys read_keys first_missing]; unfold charFn_at; intros H;
    repeat match type of H with
           | context [getitem pd ?k] =>
               let E := fresh "E" in
               destruct (getitem pd k) eqn:E; cbn [and_then];
               [|apply getitem_raise in E as ->; by injection H as <-]
           end; done.
Qed.

Lemma objective_missing g pd model m k :
  g_dt g ≠ Fin 0 -> select model = Some m ->
  first_missing pd (early_keys m) = Some k ->
  objective g pd model = Raise (KeyError k).
Proof.
  intros Hdt Hm Hk.
  unfold objective, densities_result, curve_result, omega_result, point_result.
  rewrite py_truediv_ok, Hm by done. cbn [and_then].
  by rewrite (charFn_at_missing m _ pd k).
Qed.

Lemma objective_missing_mu g pd model omega :
  omega_result g pd model = Ok omega ->
  first_missing pd ["mu"] = Some "mu" ->
  objective g pd model = Raise (KeyError "mu").
Proof.
  intros Ho Hmu. unfold objective, densities_result, curve_result, cf_result.
  rewrite Ho. cbn [and_then]. cbn [first_missing] in Hmu.
  destruct (getitem pd "mu") eqn:E; [done|].
  by apply getitem_raise in E as ->.
Qed.

(** The exceptions of the objective that come before any power is taken,
    in the order of the evaluation: [ZeroDivisionError] when [dt] is
    zero; else [TypeError] for a model name that is none of the four;
    else [KeyError] of the first parameter that the closure looks up
    before its powers and that the parameter set lacks.  When the drift
    correction has been computed, a parameter set without [mu] gives
    [KeyError] of [mu].  The store is left as it was in every case. *)
Theorem opt_fun_outcome (W : World) (self : loc) (g : grid)
    (params : LmParameters) (model : string) :
  estimator_at W self g ->
  let pd := valuesdict params in
  (g_dt g = Fin 0 -> opt_fun self params model W = (Raise ZeroDivisionError, W))
  /\ (g_dt g ≠ Fin 0 -> select model = None ->
        opt_fun self params model W = (Raise TypeError, W))
  /\ (forall m k, g_dt g ≠ Fin 0 -> select model = Some m ->
        first_missing pd (early_keys m) = Some k ->
        opt_fun self params model W = (Raise (KeyError k), W))
  /\ (forall omega,
        opt_fun_omega self pd (get_cfXh self model) W = (Ok omega, W) ->
        first_missing pd ["mu"] = Some "mu" ->
        opt_fun self params model W = (Raise (KeyError "mu"), W)).
Proof.
  intros Hg pd. rewrite (opt_fun_run _ _ g) by done. fold pd.
  split; [intros Hdt; by rewrite objective_zero_dt|].
  split.
  { intros Hdt Hm. rewrite objective_unknown by done. by rewrite decide_False. }
  split.
  { intros m k Hdt Hm Hk. by rewrite (objective_missing _ _ _ m k). }
  intros omega Ho Hmu. rewrite (opt_fun_omega_run _ _ g) in Ho by done.
  injection Ho as Ho. by rewrite (objective_missing_mu _ _ _ omega).
Qed.

(** The constructor accepts a time step of zero, and on the instance it
    returns every evaluation of the objective, for any parameters and any
    model name, known or not, raises [ZeroDivisionError]. *)
Theorem zero_dt_fails_at_evaluation (W W1 : World) (self : loc)
    (data : list (option float)) (N : option Z) (eta : option float)
    (params : LmParameters) (model : string) :
  class_dict W = Estimator_class ->
  Estimator data N eta (Some (Fin 0)) W = (Ok self, W1) ->
  opt_fun self params model W1 = (Raise ZeroDivisionError, W1).
Proof.
  intros Hc HE.
  destruct (Estimator_success W W1 self data N eta _ Hc HE) as (_ & _ & Hg).
  rewrite (opt_fun_run _ _ _ _ _ Hg). by rewrite objective_zero_dt.
Qed.

(** With the parameters [get_init_estim_params] returns for a model of the
    four, on the instance as that method leaves it, the objective returns
    a value: the first evaluation the optimiser makes in [estimate] does
    not raise, for any data and any configuration the constructor accepts
    with a time step other than zero and of at most one half in
    magnitude. *)
Theorem initial_parameters_evaluate {laws : NumLibLaws L} (W W1 : World) (self : loc)
    (data : list (option float)) (N : option Z) (eta dt : option float)
    (model : string) (m : model_id) (d : R) :
  class_dict W = Estimator_class ->
  Estimator data N eta dt W = (Ok self, W1) ->
  cfg_dt dt = Fin d -> (0 < Rabs d <= / 2)%R ->
  lower model = model_name m ->
  exists W2 v,
    get_init_estim_params self model W1 = (Ok (init_params m), W2)
    /\ opt_fun self (init_params m) model W2 = (Ok v, W2).
Proof.
  intros Hc HE Hdt Hd Hm. apply select_Some in Hm.
  destruct (Estimator_success W W1 self data N eta dt Hc HE) as (HN & _ & Hg).
  pose proof (grid_of_well_formed data N eta dt HN) as Hwf.
  assert (exists W2 g2,
            get_init_estim_params self model W1 = (Ok (init_params m), W2)
            /\ estimator_at W2 self g2 /\ well_formed g2 /\ g_dt g2 = cfg_dt dt)
    as (W2 & g2 & Hp & Hg2 & Hwf2 & Hdt2).
  { destruct (decide (m = T)) as [->|HT].
    - destruct (select_t_clamps W1 self _ model Hg Hm) as (W2 & Hp & Hg2).
      exists W2, (with_u (grid_of data N eta dt) (clamp_u (g_u (grid_of data N eta dt)))).
      split; [done|]. split; [done|]. split; [|done].
      apply with_u_clamp_well_formed, Hwf.
    - exists W1, (grid_of data N eta dt).
      rewrite get_init_estim_params_other by congruence. by rewrite Hm. }
  exists W2. rewrite (opt_fun_run _ _ _ _ _ Hg2).
  destruct (objective_returns g2 model m d Hwf2) as [v ->]; try done; [|by eauto].
  by rewrite Hdt2.
Qed.

End Errors.

Lemma opt_fun_outcome_witness :
  opt_fun (L := analytic_lib) self1 [] "gbm" world1 = (Raise (KeyError "sigma"), world1).
Proof.
  destruct (opt_fun_outcome (L := analytic_lib) world1 self1 _ [] "gbm" world1_view)
    as (_ & _ & H & _).
  exact (H GBM "sigma" world1_dt eq_refl eq_refl).
Defined.

Lemma zero_dt_run :
  Estimator [] None None (Some (Fin 0)) initial_world
  = (Ok (fresh (dom (objects initial_world))),
     constructed initial_world [] None None (Some (Fin 0))).
Proof.
  apply Estimator_run; [reflexivity | | grid_size]; cbn; intros [=E]; lra.
Qed.

Lemma zero_dt_fails_at_evaluation_witness :
  opt_fun (L := analytic_lib) (fresh (dom (objects initial_world))) (init_params GBM) "gbm"
    (constructed initial_world [] None None (Some (Fin 0)))
  = (Raise ZeroDivisionError, constructed initial_world [] None None (Some (Fin 0))).
Proof.
  exact (zero_dt_fails_at_evaluation (L := analytic_lib) initial_world _ _ [] None None
           (init_params GBM) "gbm" eq_refl zero_dt_run).
Defined.

Lemma initial_parameters_evaluate_witness :
  exists W2 v,
    get_init_estim_params self1 "t" world1 = (Ok (init_params T), W2)
    /\ opt_fun (L := analytic_lib) self1 (init_params T) "t" W2 = (Ok v, W2).
Proof.
  exact (initial_parameters_evaluate (L := analytic_lib) initial_world world1 self1
           [Some (Fin 0.01)] (Some 4%Z) None None "t" T (1 / 252) eq_refl world1_run
           eq_refl world1_dt_bound eq_refl).
Defined.

(** ** The objective and the observed returns *)

Lemma neg_log_sum_nil : neg_log_sum [] = Fin 0.
Proof. unfold neg_log_sum. cbn. f_equal. lra. Qed.

Lemma dropna_absent data : Forall (fun v => ~ present v) data -> dropna data = [].
Proof.
  unfold dropna. induction 1 as [|v data Hv _ IH]; [done|].
  cbn. by rewrite (notna_absent v Hv).
Qed.

(** The logarithm of the floor is above [-30]. *)
Lemma ln_floor_lower : (- 30 <= ln 0.000000001)%R.
Proof.
  replace 0.000000001%R with (/ 1000000000)%R by lra.
  rewrite ln_Rinv by lra.
  assert (ln 2 < 1)%R as H2.
  { pose proof (exp_ineq1 1 ltac:(lra)) as He.
    pose proof (ln_increasing 2 (exp 1) ltac:(lra) ltac:(lra)) as Hl.
    by rewrite ln_exp in Hl. }
  assert (ln 1000000000 < ln (2 ^ 30))%R as H.
  { apply ln_increasing; [lra|]. simpl. lra. }
  rewrite ln_pow in H by lra.
  replace (INR 30) with 30%R in H by (simpl; lra). lra.
Qed.

Lemma log_clip_lower v :
  v ≠ NaN ->
  np_log_real (np_clip_min density_floor v) = PInf
  \/ exists r, np_log_real (np_clip_min density_floor v) = Fin r
               /\ (- 30 <= r)%R.
Proof.
  pose proof density_floor_pos as Hpos. pose proof ln_floor_lower as Hln. intros Hv.
  unfold np_clip_min, np_maximum, density_floor.
  destruct v as [r|[]|]; cbn; [| | by left | done].
  - right. case_decide as H; cbn in *.
    + rewrite decide_True by done. eexists. split; [done|]. lra.
    + rewrite decide_True by lra. eexists. split; [done|].
      destruct (Req_dec r 0.000000001) as [->|Hne]; [lra|].
      assert (ln 0.000000001 < ln r)%R by (apply ln_increasing; lra). lra.
  - right. rewrite decide_True by done. cbn. rewrite decide_True by done.
    eexists. split; [done|]. lra.
Qed.

Lemma sum_log_clip_lower vs :
  NaN ∉ vs ->
  np_sum (np_log_real <$> (np_clip_min density_floor <$> vs)) = PInf
  \/ exists r, np_sum (np_log_real <$> (np_clip_min density_floor <$> vs)) = Fin r
               /\ (- (30 * INR (length vs)) <= r)%R.
Proof.
  induction vs as [|v vs IH]; intros Hn.
  { right. exists 0%R. split; [done|]. cbn. lra. }
  assert (v ≠ NaN) as Hv by (intros ->; apply Hn; left).
  assert (NaN ∉ vs) as Hvs by (intros ?; apply Hn; by right).
  change (np_sum (np_log_real <$> (np_clip_min density_floor <$> v :: vs)))
    with (fadd (np_log_real (np_clip_min density_floor v))
               (np_sum (np_log_real <$> (np_clip_min density_floor <$> vs)))).
  destruct (log_clip_lower v Hv) as [-> | (r & -> & Hr)],
           (IH Hvs) as [-> | (s & -> & Hs)]; cbn [fadd]; auto.
  right. eexists. split; [done|].
  change (length (v :: vs)) with (S (length vs)). rewrite S_INR. lra.
Qed.

Section Data.
Context {L : NumLib}.

(** With no usable return, every entry of the data missing or NaN, the
    objective is zero whenever it returns, whatever the model and the
    parameter set. *)
Theorem no_returns_zero_objective (W W1 W2 : World) (self : loc)
    (data : list (option float)) (N : option Z) (eta dt : option float)
    (params : LmParameters) (model : string) (v : float) :
  class_dict W = Estimator_class ->
  Estimator data N eta dt W = (Ok self, W1) ->
  Forall (fun a => ~ present a) data ->
  opt_fun self params model W1 = (Ok v, W2) ->
  v = Fin 0 /\ W2 = W1.
Proof.
  intros Hc HE Hd.
  destruct (Estimator_success W W1 self data N eta dt Hc HE) as (_ & _ & Hg).
  rewrite (opt_fun_run _ _ _ _ _ Hg). unfold objective.
  destruct (densities_result _ _ _) as [ds|e] eqn:Hds; [|done].
  cbn [and_then]. intros [= <- <-]. split; [|done].
  destruct (densities_result_Ok _ _ _ _ Hds) as (fp & vs & _ & Hvs & ->).
  apply np_interp_length in Hvs. cbn [grid_of g_data] in Hvs.
  rewrite dropna_absent in Hvs by done.
  destruct vs; [apply neg_log_sum_nil | done].
Qed.

(** The floor bounds the loss: when the objective returns a number, an
    instance with [n] observed returns gives at most [30 n], each return
    adding at most [-ln(1e-9)], which is less than [30]. *)
Theorem floor_bounds_objective (W W' : World) (self : loc) (g : grid)
    (params : LmParameters) (model : string) (v : float) :
  estimator_at W self g ->
  opt_fun self params model W = (Ok v, W') ->
  v = NaN \/ fle v (Fin (30 * INR (length (g_data g)))).
Proof.
  intros Hg. rewrite (opt_fun_run _ _ _ _ _ Hg). unfold objective.
  destruct (densities_result _ _ _) as [ds|e] eqn:Hds; [|done].
  cbn [and_then]. intros [= <- _].
  destruct (densities_result_Ok _ _ _ _ Hds) as (fp & vs & _ & Hvs & ->).
  apply np_interp_length in Hvs.
  destruct (decide (NaN ∈ vs)) as [Hn|Hn]; [left; by apply neg_log_sum_nan|].
  right. unfold neg_log_sum.
  destruct (sum_log_clip_lower vs Hn) as [-> | (r & -> & Hr)]; [done|].
  rewrite Hvs in Hr. cbn. lra.
Qed.

End Data.

Lemma no_returns_run :
  Estimator [None; Some NaN] (Some 4%Z) None None initial_world
  = (Ok self1, constructed initial_world [None; Some NaN] (Some 4%Z) None None).
Proof.
  apply Estimator_run; [reflexivity | | grid_size]; cbn; intros [=E]; lra.
Qed.

Lemma no_returns_zero_objective_witness :
  opt_fun (L := analytic_lib) self1 (init_params GBM) "gbm"
    (constructed initial_world [None; Some NaN] (Some 4%Z) None None)
  = (Ok (Fin 0), constructed initial_world [None; Some NaN] (Some 4%Z) None None).
Proof.
  destruct (objective_returns (laws := analytic_laws)
              (grid_of [None; Some NaN] (Some 4%Z) None None) "gbm" GBM (1 / 252))
    as [v Hv].
  - apply grid_of_well_formed. cbn. lia.
  - reflexivity.
  - exact world1_dt_bound.
  - reflexivity.
  - pose proof (opt_fun_run (L := analytic_lib) _ self1 _ (init_params GBM) "gbm"
                  (constructed_view initial_world [None; Some NaN] (Some 4%Z) None None
                     eq_refl)) as Hrun.
    rewrite Hv in Hrun.
    destruct (no_returns_zero_objective (L := analytic_lib) initial_world
                (constructed initial_world [None; Some NaN] (Some 4%Z) None None)
                (constructed initial_world [None; Some NaN] (Some 4%Z) None None)
                self1 [None; Some NaN] (Some 4%Z) None None (init_params GBM) "gbm" v
                eq_refl no_returns_run) as [Hv0 _].
    + constructor; [intros H; exact H|].
      constructor; [intros H; by apply H|]. constructor.
    + exact Hrun.
    + rewrite <- Hv0. exact Hrun.
Defined.

Lemma floor_bounds_objective_witness :
  exists v,
    opt_fun (L := analytic_lib) self1 (init_params GBM) "GBM" world1 = (Ok v, world1)
    /\ (v = NaN \/ fle v (Fin (30 * INR 1))).
Proof.
  destruct world1_gbm_objective as [v Hv]. exists v. split; [exact Hv|].
  exact (floor_bounds_objective (L := analytic_lib) world1 world1 self1 _
           (init_params GBM) "GBM" v world1_view Hv).
Defined.

(** ** The cells around the class *)

Lemma zip_with_removelast {B} (f : float -> float -> B) (p : float) (ps : list float) :
  zip_with f ps (removelast (p :: ps)) = zip_with f ps (p :: ps).
Proof.
  revert p. induction ps as [|q ps IH]; intros p; [done|].
  change (removelast (p :: q :: ps)) with (p :: removelast (q :: ps)).
  cbn [zip_with]. by rewrite IH.
Qed.

Lemma fdiv_nan_r a : fdiv a NaN = NaN.
Proof. by destruct a. Qed.

(** The column of log returns: a NaN for the first row, then the
    logarithm of each price over the one before it. *)
Lemma logret_cons p ps :
  logret (p :: ps) = NaN :: zip_with (fun q p' => np_log_real (fdiv q p')) ps (p :: ps).
Proof.
  unfold logret, shift. cbn [zip_with]. rewrite fdiv_nan_r. cbn [np_log_real].
  f_equal. apply (zip_with_removelast (fun q p' => np_log_real (fdiv q p'))).
Qed.

Lemma log_ratio_pos (p q : R) :
  (0 < p)%R -> (0 < q)%R -> np_log_real (fdiv (Fin q) (Fin p)) = Fin (ln (q / p)).
Proof.
  intros Hp Hq. cbn. rewrite decide_False by lra. cbn.
  rewrite decide_True; [done|]. by apply Rdiv_lt_0_compat.
Qed.

Lemma dropna_finite (l : list float) :
  Forall (fun a => exists r, a = Fin r) l -> dropna (Some <$> l) = l.
Proof.
  unfold dropna. induction 1 as [|a l [r ->] _ IH]; [done|].
  cbn. by rewrite IH.
Qed.

Lemma dropna_nan_cons (l : list float) : dropna (Some <$> NaN :: l) = dropna (Some <$> l).
Proof. reflexivity. Qed.

(** From a column of positive finite prices the cells store one return
    fewer than there are prices: the NaN of the first row is dropped by
    the constructor, and the return at position [k] is the logarithm of
    the quotient [price[k+1] / price[k]]. *)
Theorem cell_returns_stored (W W1 : World) (self : loc) (price : list float)
    (N : option Z) (eta dt : option float) :
  class_dict W = Estimator_class ->
  Forall (fun p => exists r, p = Fin r /\ (0 < r)%R) price ->
  Estimator (Some <$> logret price) N eta dt W = (Ok self, W1) ->
  exists g,
    estimator_at W1 self g
    /\ length (g_data g) = length price - 1
    /\ (forall k p q, price !! k = Some p -> price !! S k = Some q ->
          g_data g !! k = Some (np_log_real (fdiv q p))).
Proof.
  intros Hc Hp HE.
  destruct (Estimator_success W W1 self _ N eta dt Hc HE) as (_ & _ & Hg).
  exists (grid_of (Some <$> logret price) N eta dt). split; [done|].
  cbn [grid_of g_data]. destruct price as [|p ps]; [by split|].
  rewrite logret_cons, dropna_nan_cons.
  assert (forall k a, zip_with (fun q p' => np_log_real (fdiv q p')) ps (p :: ps) !! k = Some a ->
            exists x y, (p :: ps) !! k = Some (Fin x) /\ ps !! k = Some (Fin y)
                        /\ a = np_log_real (fdiv (Fin y) (Fin x))
                        /\ a = Fin (ln (y / x))) as Hz.
  { intros k a Hk. apply lookup_zip_with_Some in Hk as (q & p' & -> & Hq & Hp').
    rewrite Forall_lookup in Hp.
    destruct (Hp k p' Hp') as (x & -> & Hx).
    destruct (Hp (S k) q Hq) as (y & -> & Hy).
    exists x, y. split; [done|]. split; [done|]. split; [done|].
    by apply log_ratio_pos. }
  rewrite dropna_finite.
  2:{ apply Forall_lookup. intros k a Hk.
      destruct (Hz k a Hk) as (x & y & _ & _ & _ & ->). eauto. }
  split.
  - rewrite length_zip_with. cbn [length]. lia.
  - intros k x y Hx Hy.
    destruct (zip_with (fun q p' => np_log_real (fdiv q p')) ps (p :: ps) !! k) as [a|] eqn:Hk.
    + destruct (Hz k a Hk) as (x' & y' & Hx' & Hy' & -> & _).
      change ((p :: ps) !! S k) with (ps !! k) in Hy. congruence.
    + apply lookup_ge_None in Hk. rewrite length_zip_with in Hk. cbn [length] in Hk.
      change ((p :: ps) !! S k) with (ps !! k) in Hy.
      apply lookup_lt_Some in Hy. lia.
Qed.

Lemma cell_returns_run :
  Estimator (Some <$> logret [Fin 1; Fin 2]) (Some 4%Z) None None initial_world
  = (Ok self1,
     constructed initial_world (Some <$> logret [Fin 1; Fin 2]) (Some 4%Z) None None).
Proof.
  apply Estimator_run; [reflexivity | | grid_size]; cbn; intros [=E]; lra.
Qed.

Lemma cell_returns_stored_witness :
  exists g,
    estimator_at
      (constructed initial_world (Some <$> logret [Fin 1; Fin 2]) (Some 4%Z) None None)
      self1 g
    /\ length (g_data g) = 1
    /\ g_data g !! 0 = Some (np_log_real (fdiv (Fin 2) (Fin 1))).
Proof.
  destruct (cell_returns_stored initial_world
              (constructed initial_world (Some <$> logret [Fin 1; Fin 2]) (Some 4%Z) None None)
              self1 [Fin 1; Fin 2] (Some 4%Z) None None eq_refl)
    as (g & Hg & Hlen & Hk).
  - constructor; [exists 1%R; split; [done|lra]|].
    constructor; [exists 2%R; split; [done|lra]|]. constructor.
  - exact cell_returns_run.
  - exists g. split; [exact Hg|]. split; [exact Hlen|]. by apply Hk.
Defined.

Section Cells.
Context {L : NumLib} {laws : NumLibLaws L}.

(** Each estimating cell reaches the optimiser: for a model of the four
    and any column of prices, construction with the class configuration
    raises nothing, and the optimiser is handed the objective of the new
    instance, the initial parameters of the model and the method
    [nelder]; at that point the instance holds the log returns of the
    prices without their NaN entries, its arrays agree in length, its
    time step is 1/252, and the objective returns a value at the initial
    parameters. *)
Theorem estimate_cell_reaches_optimiser {MinimizerResult : Type}
    (minimize : (LmParameters -> Py float) -> LmParameters -> string -> Py MinimizerResult)
    (W : World) (price : list float) (model : string) (m : model_id) :
  class_dict W = Estimator_class ->
  lower model = model_name m ->
  exists self W2 g,
    estimate_cell minimize price model W
    = minimize (fun p => opt_fun self p model) (init_params m) "nelder" W2
    /\ estimator_at W2 self g
    /\ well_formed g
    /\ g_data g = dropna (Some <$> logret price)
    /\ g_dt g = Fin (1 / 252)
    /\ (exists v, opt_fun self (init_params m) model W2 = (Ok v, W2)).
Proof.
  intros Hc Hm. apply select_Some in Hm.
  assert (cfg_eta None ≠ Fin 0) as He by (cbn; intros [=E]; lra).
  assert (1 <= cfg_N None < float_int_bound)%Z as HN by grid_size.
  pose proof (Estimator_run W (Some <$> logret price) None None None Hc He HN) as HE.
  pose proof (constructed_view W (Some <$> logret price) None None None Hc) as Hg.
  pose proof (grid_of_well_formed (Some <$> logret price) None None None (proj1 HN)) as Hwf.
  set (W1 := constructed W (Some <$> logret price) None None None) in *.
  set (self := fresh (dom (objects W))) in *.
  set (g1 := grid_of (Some <$> logret price) None None None) in *.
  assert (exists W2 g2,
            get_init_estim_params self model W1 = (Ok (init_params m), W2)
            /\ estimator_at W2 self g2 /\ well_formed g2
            /\ g_data g2 = g_data g1 /\ g_dt g2 = g_dt g1)
    as (W2 & g2 & Hp & Hg2 & Hwf2 & Hdata & Hdt).
  { destruct (decide (m = T)) as [->|HT].
    - destruct (select_t_clamps W1 self g1 model Hg Hm) as (W2 & Hp & Hg2).
      exists W2, (with_u g1 (clamp_u (g_u g1))).
      split; [done|]. split; [done|]. split; [|done].
      by apply with_u_clamp_well_formed.
    - exists W1, g1.
      rewrite get_init_estim_params_other by congruence. by rewrite Hm. }
  exists self, W2, g2.
  split.
  { unfold estimate_cell. rewrite run_bind, HE. cbv beta iota.
    unfold estimate. by rewrite run_bind, Hp. }
  split; [done|]. split; [done|]. split; [done|]. split; [by rewrite Hdt|].
  rewrite (opt_fun_run _ _ _ _ _ Hg2).
  destruct (objective_returns g2 model m (1 / 252) Hwf2) as [v ->];
    [by rewrite Hdt | solve_abs | done | by eauto].
Qed.

End Cells.

Lemma estimate_cell_reaches_optimiser_witness :
  exists self W2,
    estimate_cell (L := analytic_lib) (fun f ps _ => f ps) [Fin 1; Fin 2] "VG" initial_world
    = opt_fun self (init_params VG) "VG" W2
    /\ (exists v, opt_fun (L := analytic_lib) self (init_params VG) "VG" W2 = (Ok v, W2)).
Proof.
  destruct (estimate_cell_reaches_optimiser (L := analytic_lib) (fun f ps _ => f ps)
              initial_world [Fin 1; Fin 2] "VG" VG eq_refl eq_refl)
    as (self & W2 & g & Hrun & _ & _ & _ & _ & Hv).
  exists self, W2. split; [exact Hrun | exact Hv].
Defined.

(** ** The parameters the objective reads *)

Section ParameterSets.
Context {L : NumLib}.

(** The [cgmy] closure takes two powers of [M] before it looks [G] up:
    when they return, a parameter set without [G] gives [KeyError]. *)
Lemma cgmy_missing_G {laws : NumLibLaws L} g pd model c (d : R) :
  g_dt g = Fin d -> d <> 0%R -> select model = Some CGMY ->
  getitem pd "C" = Ok c -> getitem pd "Y" = Ok (Fin 1.85) ->
  getitem pd "M" = Ok (Fin 20) -> first_missing pd ["G"] = Some "G" ->
  objective g pd model = Raise (KeyError "G").
Proof.
  intros Hdt Hd Hm HC HY HM HG.
  unfold objective, densities_result, curve_result, omega_result, point_result.
  rewrite Hdt, Hm, py_truediv_fin by done. cbn [and_then].
  unfold charFn_at. rewrite HC, HY, HM. cbn [and_then].
  rewrite cneg_Ci. cpow_step.
  destruct (py_pow_dyn_returns 20 1.85) as [v ->]; [lra | solve_abs |].
  cbn [and_then]. cbn [first_missing] in HG.
  destruct (getitem pd "G") eqn:E; [done|].
  by apply getitem_raise in E as ->.
Qed.

(** No initial parameter is superfluous: with any one entry taken out of
    the initial parameter set of a model, the objective of that model
    raises [KeyError] with the name of that entry, on an instance with a
    time step other than zero and of at most one half in magnitude. *)
Theorem every_initial_parameter_is_read {laws : NumLibLaws L} (W : World) (self : loc)
    (g : grid) (model : string) (m : model_id) (p : LmParameter) (d : R) :
  estimator_at W self g ->
  g_dt g = Fin d -> (0 < Rabs d <= / 2)%R ->
  lower model = model_name m ->
  p ∈ init_params m ->
  opt_fun self (filter (fun q => p_name q ≠ p_name p) (init_params m)) model W
  = (Raise (KeyError (p_name p)), W).
Proof.
  intros Hg Hdt Hd Hm Hp. apply select_Some in Hm.
  assert (g_dt g ≠ Fin 0) as Hnz by (rewrite Hdt; intros [= ->]; solve_abs).
  assert (d <> 0%R) as Hd0 by solve_abs.
  rewrite (opt_fun_run _ _ _ _ _ Hg). f_equal.
  assert (forall pd, p_name p = "mu" ->
            (forall k, k ∈ read_keys m ->
               getitem pd k = getitem (valuesdict (init_params m)) k) ->
            first_missing pd ["mu"] = Some "mu" ->
            objective g pd model = Raise (KeyError (p_name p))) as Hmu.
  { intros pd -> Hpd Hmiss.
    destruct (omega_returns g pd model m d Hdt Hd Hm Hpd) as [omega Ho].
    by apply (objective_missing_mu _ _ _ omega). }
  destruct m; cbn [init_params] in Hp;
    repeat (apply elem_of_cons in Hp as [->|Hp]); try (by apply elem_of_nil in Hp);
    first
      [ apply Hmu;
        [ reflexivity
        | intros k Hk; cbn [read_keys] in Hk;
          repeat (apply elem_of_cons in Hk as [->|Hk]);
          try (by apply elem_of_nil in Hk); by getitem_solve
        | by getitem_solve ]
      | eapply objective_missing; [exact Hnz | exact Hm | by getitem_solve]
      | eapply (cgmy_missing_G _ _ _ _ d); [exact Hdt | exact Hd0 | exact Hm | | | | ];
        by getitem_solve ].
Qed.

(** Of a parameter set the objective reads the values of [mu] and of the
    names the closure of the model looks up, and nothing else: two sets
    that agree on these give the same result, whatever their order,
    their bounds and flags, and their other entries. *)
Theorem objective_reads_values_only (W : World) (self : loc) (g : grid)
    (model : string) (m : model_id) (ps ps' : LmParameters) :
  estimator_at W self g ->
  lower model = model_name m ->
  (forall k, k ∈ "mu" :: read_keys m ->
     getitem (valuesdict ps) k = getitem (valuesdict ps') k) ->
  opt_fun self ps model W = opt_fun self ps' model W.
Proof.
  intros Hg Hm H. apply select_Some in Hm.
  rewrite !(opt_fun_run _ _ _ _ _ Hg). f_equal.
  unfold objective, densities_result, curve_result, omega_result, cf_result,
    point_result, array_result.
  rewrite Hm, (H "mu") by set_solver.
  rewrite (charFn_at_ext m _ (valuesdict ps) (valuesdict ps')),
    (charFn_on_ext m _ (valuesdict ps) (valuesdict ps')); [done| |];
    intros k Hk; apply H; by right.
Qed.

End ParameterSets.

Lemma every_initial_parameter_is_read_witness :
  opt_fun (L := analytic_lib) self1
    (filter (fun q => p_name q ≠ "G") (init_params CGMY)) "cgmy" world1
  = (Raise (KeyError "G"), world1).
Proof.
  apply (every_initial_parameter_is_read (L := analytic_lib) world1 self1 _ "cgmy" CGMY
           (row "G" 20 (Some 0.00001%R) None) (1 / 252) world1_view eq_refl
           world1_dt_bound eq_refl).
  cbn [init_params]. apply elem_of_cons. right. apply elem_of_cons. right.
  apply elem_of_cons. by left.
Defined.

Lemma objective_reads_values_only_witness :
  opt_fun (L := analytic_lib) self1 (init_params GBM) "gbm" world1
  = opt_fun (L := analytic_lib) self1
      [row "extra" 5 None None; row "sigma" 0.10 None (Some 1%R); row "mu" 0.01 None None]
      "gbm" world1.
Proof.
  apply (objective_reads_values_only (L := analytic_lib) world1 self1 _ "gbm" GBM
           _ _ world1_view eq_refl).
  intros k Hk. cbn [read_keys] in Hk.
  repeat (apply elem_of_cons in Hk as [->|Hk]); [| |by apply elem_of_nil in Hk];
    cbn; repeat (case_decide; try done).
Defined.

